(** * Apphud web SDK: a shallow embedding and its verified properties

    The development follows the TypeScript sources of the SDK:
    - [JS]       the JavaScript string and number primitives the SDK relies on
                 (String.prototype.split / trim, parseInt, template strings);
    - [Gate]     the readiness gate of [ApphudSDK] ([ready] / [setReady]);
    - [Product], [ProductBundle], [Paywall], [Placement], ...
                 the data model of types/apphud.ts, one record each;
    - [SDK]      the resolver part of core/index.ts ([findPlacementByID],
                 [updateProductsAndProviders], [selectPlacementProduct], ...),
                 event tracking and the public [paymentForm] entry point;
    - [Stripe]   the Stripe checkout state machine (core/paymentForms/stripeForm.ts);
    - [Paddle]   the Paddle checkout (core/paymentForms/paddleForm.ts);
    - [Builder]  the payment form orchestrator (core/paymentForms/formBuilder.ts).

    Asynchronous code is modelled task by task: a function of the model is one
    run-to-completion JavaScript task, and an [await] splits a method into the
    task before it and the task that resumes it.

    A call that can throw returns an [outcome], or carries what it threw
    beside the state it left. What an [async] function throws rejects its
    promise; a rejection that nothing handles is recorded as the effect
    [UnhandledRejection]. Calls into the Stripe and Paddle libraries and
    the callbacks the page supplies are taken to return; the answers of
    the libraries and of the backend are parameters. *)

From Stdlib Require Import ZArith NArith Lia String Ascii.
From stdpp Require Import gmap list.

Local Open Scope N_scope.

(* ===================================================================== *)
(** * JavaScript primitives *)
(* ===================================================================== *)

Module JS.

(** A JavaScript string is a sequence of UTF-16 code units. *)
Abbreviation jsstring := (list N).

(** Literals: an ASCII Rocq string read as code units. *)
Definition js (s : string) : jsstring :=
  map N_of_ascii (list_ascii_of_string s).

(** Truthiness of a string-valued property that may be absent. *)
Definition truthy (o : option jsstring) : bool :=
  match o with
  | Some (_ :: _) => true
  | _ => false
  end.

(** [WhiteSpace] and [LineTerminator] code points of ECMAScript, the
    characters removed by [trim] and skipped by [parseInt]. *)
Definition is_whitespace (c : N) : bool :=
  (c =? 9) || (c =? 10) || (c =? 11) || (c =? 12) || (c =? 13) || (c =? 32)
  || (c =? 160) || (c =? 5760) || ((8192 <=? c) && (c <=? 8202))
  || (c =? 8232) || (c =? 8233) || (c =? 8239) || (c =? 8287)
  || (c =? 12288) || (c =? 65279).

Fixpoint trimStart (s : jsstring) : jsstring :=
  match s with
  | c :: r => if is_whitespace c then trimStart r else s
  | [] => []
  end.

Definition trimEnd (s : jsstring) : jsstring := rev (trimStart (rev s)).

Definition trim (s : jsstring) : jsstring := trimEnd (trimStart s).

(** [s.split(sep)] for a one-character separator. The result is never
    empty: the empty string splits into one empty piece. *)
Fixpoint split (sep : N) (s : jsstring) : list jsstring :=
  match s with
  | [] => [[]]
  | c :: r =>
      if c =? sep then [] :: split sep r
      else match split sep r with
           | piece :: pieces => (c :: piece) :: pieces
           | [] => [[c]]
           end
  end.

(** Numbers. The SDK uses numbers as array indices; the model keeps the
    integers and NaN (the result of a failed [parseInt]). Fractional and
    infinite values never index an array successfully and are left out. *)
Inductive number := NaN | Num (z : Z).

#[export] Instance number_eq_dec : EqDecision number.
Proof. solve_decision. Defined.

(** [arr[i]] for a number [i]: undefined unless [i] is an index of [arr]. *)
Definition index {A} (arr : list A) (i : number) : option A :=
  match i with
  | NaN => None
  | Num z => if (z <? 0)%Z then None else arr !! Z.to_nat z
  end.

(** Decimal digits of a natural number, most significant first. The fuel
    is more than the bit size of the number, which bounds its decimal
    length. *)
Fixpoint digits_aux (fuel : nat) (n : N) (acc : jsstring) : jsstring :=
  match fuel with
  | O => acc
  | S fuel' =>
      let acc' := (48 + n mod 10) :: acc in
      if n <? 10 then acc' else digits_aux fuel' (n / 10) acc'
  end.

Definition digits (n : N) : jsstring := digits_aux (S (N.to_nat (N.size n))) n [].

(** [String(x)] / template-string conversion of a number. *)
Definition toString (x : number) : jsstring :=
  match x with
  | NaN => js "NaN"
  | Num z => if (z <? 0)%Z then 45 :: digits (Z.to_N (- z)) else digits (Z.to_N z)
  end.

(** The code units of the decimal digits. *)
Definition is_decimal (c : N) : Prop := 48 <= c <= 57.

(** Value of a digit character in the given radix, if it is one. *)
Definition digit_value (radix : N) (c : N) : option N :=
  let v := if (48 <=? c) && (c <=? 57) then Some (c - 48)
           else if (97 <=? c) && (c <=? 122) then Some (c - 87)
           else if (65 <=? c) && (c <=? 90) then Some (c - 55)
           else None in
  match v with
  | Some d => if d <? radix then Some d else None
  | None => None
  end.

(** Longest prefix of digits, accumulated left to right; [None] when the
    prefix is empty. *)
Fixpoint parse_digits (radix : N) (s : jsstring) (acc : option N) : option N :=
  match s with
  | c :: r =>
      match digit_value radix c with
      | Some d => parse_digits radix r (Some (radix * default 0 acc + d))
      | None => acc
      end
  | [] => acc
  end.

(** [parseInt(s)] without a radix argument: leading white space is
    skipped, then an optional sign, then an optional [0x]/[0X] prefix
    selecting radix 16; the longest digit prefix is the value and its
    absence is NaN. *)
Definition parseInt (s : jsstring) : number :=
  let s := trimStart s in
  let '(neg, s) := match s with
                   | c :: r => if c =? 45 then (true, r)          (* - *)
                               else if c =? 43 then (false, r)    (* + *)
                               else (false, s)
                   | [] => (false, s)
                   end in
  let '(radix, s) := match s with
                     | c :: x :: r =>
                         if (c =? 48) && ((x =? 120) || (x =? 88)) then (16, r)  (* 0x 0X *)
                         else (10, s)
                     | _ => (10, s)
                     end in
  match parse_digits radix s None with
  | None => NaN
  | Some v => Num (if neg then - Z.of_N v else Z.of_N v)
  end.

End JS.
Export JS.

(* ===================================================================== *)
(** * The readiness gate *)
(* ===================================================================== *)

(** A thrown value. *)
Inductive error := Error (message : jsstring).

(** What a call does: it returns a value or throws. *)
Inductive outcome (A : Type) := Returns (a : A) | Throws (e : error).
Arguments Returns {A} a.
Arguments Throws {A} e.

Module Gate.

Section Gate.
(** [Fn] are the callbacks handed to [ready] (the [ApphudFunc] closures)
    and [St] is the rest of the SDK instance. *)
Context {Fn St : Type}.

Record t := mk {
  isReady : bool;          (* private isReady: boolean = false *)
  queue : list Fn;         (* private queue: ApphudFunc[] = [] *)
  self : St
}.

Definition set_isReady (b : bool) (g : t) : t :=
  {| isReady := b; queue := queue g; self := self g |}.
Definition set_queue (q : list Fn) (g : t) : t :=
  {| isReady := isReady g; queue := q; self := self g |}.
Definition set_self (x : St) (g : t) : t :=
  {| isReady := isReady g; queue := queue g; self := x |}.

(** A callback is a closure. It is stored in the queue as a value of
    [Fn] that describes it, and [call f] is its invocation [callback()];
    it runs with the whole instance at hand, since a callback may call
    [ready] again. The result of an invocation is the instance at the
    moment the callback returns or throws, with the thrown value if it
    throws. *)
Variable call : Fn -> t -> t * option error.

(** private ready(callback): run the function or add it to the queue.
    The closure is given as its description [callback] together with
    its invocation [run], which is [call callback]; this lets a method
    whose closure is run by [call] use [ready] itself. What the callback
    throws leaves [ready]. *)
Definition ready (callback : Fn) (run : t -> t * option error) (g : t)
  : t * option error :=
  if isReady g then run g
  else (set_queue (queue g ++ [callback]) g, None).

(** The loop of [setReady]:
    [while ((callback = this.queue.shift())) callback();]
    One unit of fuel is one iteration. A callback that throws ends the
    loop: the callbacks behind it stay in the queue. *)
Fixpoint drain (fuel : nat) (g : t) : option (t * option error) :=
  match queue g with
  | [] => Some (g, None)
  | callback :: rest =>
      match fuel with
      | O => None
      | S fuel' =>
          match call callback (set_queue rest g) with
          | (g', None) => drain fuel' g'
          | (g', Some err) => Some (g', Some err)
          end
      end
  end.

(** private setReady(initial): run the functions of the queue, open the
    gate, and emit "ready" on the initial run. When a callback throws,
    [setReady] throws with it and the gate stays as it was. *)
Definition setReady (emit_ready : St -> St) (initial : bool) (fuel : nat) (g : t)
  : option (t * option error) :=
  match drain fuel g with
  | Some (g', None) =>
      let g'' := set_isReady true g' in
      Some (if initial then set_self (emit_ready (self g'')) g'' else g'', None)
  | Some (g', Some err) => Some (g', Some err)
  | None => None
  end.
End Gate.

Arguments t : clear implicits.

End Gate.

(* ===================================================================== *)
(** * Data model (types/apphud.ts, types/api.ts, types/paymentForm.ts) *)
(* ===================================================================== *)

(** type PaymentProviderKind = "stripe" | "paddle". The values come from the
    backend as strings and are compared as strings. *)
Abbreviation PaymentProviderKind := jsstring (only parsing).

Module PaymentProvider.
Record t := mk {
  id : jsstring;
  identifier : jsstring;
  kind : PaymentProviderKind;
  name : jsstring;
  token : option jsstring
}.
End PaymentProvider.

Module Product.
Record t := mk {
  id : jsstring;
  product_id : jsstring;
  base_plan_id : jsstring;
  name : jsstring;
  store : PaymentProviderKind
}.
End Product.

(** A JavaScript object used as a dictionary with string keys. *)
Abbreviation dict A := (list (jsstring * A)).

Definition dict_get {A} (d : dict A) (k : jsstring) : option A :=
  snd <$> List.find (fun kv => bool_decide (fst kv = k)) d.

Module ProductBundle.
Record t := mk {
  id : jsstring;
  name : jsstring;
  products : list Product.t;
  (* properties?: { [language: string]: { [key: string]: string } } *)
  properties : option (dict (dict jsstring))
}.
End ProductBundle.

Module Paywall.
Record t := mk {
  id : jsstring;
  identifier : jsstring;
  items_v2 : list ProductBundle.t
}.
End Paywall.

Module Placement.
Record t := mk {
  id : jsstring;
  identifier : jsstring;
  name : jsstring;
  paywalls : list Paywall.t
}.
End Placement.

Module User.
Record t := mk {
  id : jsstring;
  user_id : jsstring;
  placements : option (list Placement.t);
  payment_providers : option (list PaymentProvider.t)
}.
End User.

Module Subscription.
Record t := mk {
  id : jsstring;
  client_secret : option jsstring;
  deep_link : option jsstring;
  customer_id : option jsstring
}.
End Subscription.

Module CustomerSetup.
Record t := mk {
  id : jsstring;
  client_secret : jsstring
}.
End CustomerSetup.

(** type ApphudHash = { [key: string]: any }. The SDK passes a hash on
    as it got it. What is kept of it is whether [JSON.stringify] accepts
    it: [JSON.stringify] throws a TypeError on a value that contains a
    cycle or a BigInt. *)
Module ApphudHash.
Record t := mk {
  stringifies : bool
}.

(** The literal [{}]. *)
Definition empty : t := {| stringifies := true |}.
End ApphudHash.

Module EventData.
(** The timestamp is carried along unchanged by the SDK and is left
    out. *)
Record t := mk {
  id : option jsstring;
  name : jsstring;
  properties : ApphudHash.t;
  user_properties : ApphudHash.t;
  insert_id : option jsstring;
  device_id : option jsstring;
  user_id : option jsstring
}.

Definition set_ids (uid : option jsstring) (e : t) : t :=
  {| id := id e; name := name e; properties := properties e;
     user_properties := user_properties e; insert_id := insert_id e;
     device_id := uid; user_id := uid |}.

(** Does [JSON.stringify] accept the event. *)
Definition stringifies (e : t) : bool :=
  ApphudHash.stringifies (properties e) && ApphudHash.stringifies (user_properties e).
End EventData.

Module ApplePayConfig.
Record t := mk {
  priceMacro : option jsstring;
  productMacro : option jsstring;
  productLabel : option jsstring;
  staticPrice : option (jsstring * Z);     (* { currency; amount } *)
  onApplePayAvailable : bool               (* is the callback supplied *)
}.
End ApplePayConfig.

Module Options.
(** PaymentProviderFormOptions. Function-valued options are kept as the
    fact that they are supplied. *)
Record t := mk {
  paymentProvider : option PaymentProviderKind;
  successUrl : option jsstring;
  onSuccess : bool;
  id : option jsstring;
  buttonStateSetter : bool;
  applePay : bool;
  applePayConfig : option ApplePayConfig.t
}.

(** The default [options = {}]. *)
Definition empty : t :=
  {| paymentProvider := None; successUrl := None; onSuccess := false;
     id := None; buttonStateSetter := false; applePay := false;
     applePayConfig := None |}.
End Options.

(** A JavaScript [Map]: keys are unique and iteration follows the order of
    first insertion. *)
Module JSMap.
Abbreviation t V := (list (jsstring * V)).

Definition get {V} (m : t V) (k : jsstring) : option V := dict_get m k.

Fixpoint set {V} (m : t V) (k : jsstring) (v : V) : t V :=
  match m with
  | [] => [(k, v)]
  | (k', v') :: r => if bool_decide (k' = k) then (k, v) :: r else (k', v') :: set r k v
  end.

Definition delete {V} (m : t V) (k : jsstring) : t V :=
  filter (fun kv => fst kv <> k) m.

Definition clear {V} (m : t V) : t V := [].
Definition size {V} (m : t V) : nat := length m.
Definition keys {V} (m : t V) : list jsstring := map fst m.
Definition values {V} (m : t V) : list V := map snd m.
End JSMap.

(* ===================================================================== *)
(** * The page and the browser *)
(* ===================================================================== *)

(** Keys of config/constants.ts. The constants file is not among the
    sources; the keys are kept as distinct names. *)
Inductive cookie_key :=
  | EventsKey | SelectedBundleIndex | DeepLinkURL | PaymentProviderKey
  | StartAppVersionKey | ProductionUserIdKey | DebugUserIdKey.

#[export] Instance cookie_key_eq_dec : EqDecision cookie_key.
Proof. solve_decision. Defined.

#[export] Instance cookie_key_countable : Countable cookie_key.
Proof.
  refine (inj_countable'
    (fun k => match k with
              | EventsKey => 0%nat | SelectedBundleIndex => 1%nat | DeepLinkURL => 2%nat
              | PaymentProviderKey => 3%nat | StartAppVersionKey => 4%nat
              | ProductionUserIdKey => 5%nat | DebugUserIdKey => 6%nat
              end)
    (fun n => match n with
              | 0%nat => EventsKey | 1%nat => SelectedBundleIndex | 2%nat => DeepLinkURL
              | 3%nat => PaymentProviderKey | 4%nat => StartAppVersionKey
              | 5%nat => ProductionUserIdKey | _ => DebugUserIdKey
              end) _).
  by intros [].
Defined.

(** A cookie holds a string. The event outbox is written with
    [JSON.stringify] and read back with [JSON.parse]; its text is kept as
    the array it denotes. *)
Inductive cookie_value :=
  | Text (s : jsstring)
  | Json (events : list EventData.t).

Module Cookies.
(** The cookies module is not among the sources; the spec describes the
    persistence adapter as a scoped key/value store with a TTL. The store
    is a finite map; expiry, which no operation here waits for, is left
    out. *)
Abbreviation store := (gmap cookie_key cookie_value).

(** Modelled from the spec: [setCookie(key, value, days)] writes the value
    under the key, replacing what was there. *)
Definition setCookie (k : cookie_key) (v : cookie_value) (c : store) : store :=
  <[k := v]> c.

(** Modelled from the spec: [getCookie(key)] reads the value kept under the
    key, if any. *)
Definition getCookie (k : cookie_key) (c : store) : option cookie_value := c !! k.

(** Modelled from the spec: [deleteCookie(key)] forgets the key. *)
Definition deleteCookie (k : cookie_key) (c : store) : store := base.delete k c.
End Cookies.

(** Outcome of an awaited promise. *)
Inductive settled (A : Type) := Fulfilled (a : A) | Rejected (e : error).
Arguments Fulfilled {A} a.
Arguments Rejected {A} e.

Inductive button_state := Loading | Ready | Processing | ErrorState.

#[export] Instance button_state_eq_dec : EqDecision button_state.
Proof. solve_decision. Defined.

(** What [logError] is given. The placement lookup message is kept with its
    two interpolated values apart; every other message is its text. *)
Inductive message :=
  | Msg (text : jsstring)
  | PlacementNotFound (id : jsstring) (existingIdentifiers : list jsstring).

(** Payloads of lifecycle events. *)
Inductive payload :=
  | FormInitialized (paymentProvider : jsstring) (selector : jsstring)
  | FormReady (paymentProvider : jsstring)
  | PaymentFailure (paymentProvider : jsstring) (e : error)
  | ApplePayAvailable (buttonId : option jsstring)
  | ProductChanged (product : option Product.t)
  | ProviderNotFound (requestedProvider : jsstring) (availableProviders : list jsstring)
  | ProviderChanged (provider : PaymentProvider.t)
  | SdkReady.

(** What a [setTimeout] callback of the checkout does when it fires. *)
Inductive redirect :=
  | CallOnSuccess
  | Navigate (url : jsstring).

(** Stripe's payment request object, as far as the SDK fills it in. *)
Module PaymentRequest.
Record t := mk {
  country : jsstring;
  currency : jsstring;
  label : jsstring;
  amount : Z
}.
End PaymentRequest.

(** Calls that leave the SDK. *)
Inductive call :=
  | CreateCustomer (providerId user_id : jsstring) (with_payment_methods : bool)
  | CreateSubscription (providerId product_id : jsstring)
      (paywall_id placement_id customer_id payment_method_id : option jsstring)
  | CreateEvent (event : EventData.t)
  | CreateUser (user_id : jsstring) (email : option jsstring)
  | ConfirmSetup
  | ConfirmCardPayment (client_secret : jsstring)
  | StripePaymentRequest (request : PaymentRequest.t)
  | StripeElements (client_secret : jsstring)
  | MountPaymentElement (container : jsstring)
  | PaddleCheckoutOpen (frameTarget : jsstring).

(** Observable effects, in the order they happen. *)
Inductive effect :=
  | LogError (m : message) (report : bool)
  | Emit (eventName : jsstring) (event : payload)
  | DisplayError (text : jsstring)
  | ButtonState (viaSetter : bool) (state : button_state)
  | Call (c : call)
  | SetTimeout (action : redirect)
  | Reveal (element : jsstring)
  | FacebookPurchase (subscription : Subscription.t)
  | SetCookie (key : cookie_key) (value : cookie_value)
  | UnhandledRejection (e : error).

(** An event listener on the page: target element, event type, handler.
    Handlers are closures; each is known by the number it got when it was
    created. *)
Record listener := Listener {
  target : jsstring;
  type : jsstring;
  handler : nat
}.

#[export] Instance listener_eq_dec : EqDecision listener.
Proof. solve_decision. Defined.

(** Selectors. The SDK finds some elements with
    [document.querySelector(`#${id}`)]. When [id] is an identifier of CSS
    the selector is an ID selector and names the element with that id
    (the page is taken to be in no-quirks mode, where ids are compared
    as they are written). Otherwise the text after [#] is not an ID
    selector: [querySelector] throws a SyntaxError ("#1x") or the text is
    another selector ("#a b", "#a.b"). *)
Module CSS.
Definition is_letter (c : N) : bool :=
  (65 <=? c) && (c <=? 90) || (97 <=? c) && (c <=? 122).
Definition is_digit (c : N) : bool := (48 <=? c) && (c <=? 57).

(** Characters that start a name, and characters of a name, among the
    ASCII characters; escapes and characters above U+007F are not
    counted in. *)
Definition name_start (c : N) : bool := is_letter c || (c =? 95).
Definition name_char (c : N) : bool := name_start c || is_digit c || (c =? 45).

(** An identifier written with ASCII letters, digits, [-] and [_]: it
    starts with a letter or [_], or with [-] followed by a letter, [_]
    or [-]. *)
Definition plain_identifier (s : jsstring) : bool :=
  forallb name_char s
  && match s with
     | [] => false
     | c :: r =>
         if c =? 45
         then match r with
              | [] => false
              | d :: _ => name_start d || (d =? 45)
              end
         else name_start c
     end.
End CSS.

Module Env.
Record t := mk {
  document : gset jsstring;           (* ids of the elements of the page *)
  (* what [document.querySelector("#" + text)] does on this page when
     [text] is not a plain identifier *)
  selectors : jsstring -> outcome (option jsstring);
  listeners : list listener;          (* listeners attached, oldest first *)
  cookies : Cookies.store;
  trace : list effect;                (* effects so far, oldest first *)
  closures : nat                      (* number of handlers created so far *)
}.

Definition set_listeners l (e : t) : t :=
  {| document := document e; selectors := selectors e; listeners := l;
     cookies := cookies e; trace := trace e; closures := closures e |}.
Definition set_cookies c (e : t) : t :=
  {| document := document e; selectors := selectors e; listeners := listeners e;
     cookies := c; trace := trace e; closures := closures e |}.
Definition set_trace tr (e : t) : t :=
  {| document := document e; selectors := selectors e; listeners := listeners e;
     cookies := cookies e; trace := tr; closures := closures e |}.
Definition set_closures n (e : t) : t :=
  {| document := document e; selectors := selectors e; listeners := listeners e;
     cookies := cookies e; trace := trace e; closures := n |}.

Definition does (x : effect) (e : t) : t := set_trace (trace e ++ [x]) e.

Definition logError (text : string) (report : bool) (e : t) : t :=
  does (LogError (Msg (js text)) report) e.

Definition setCookie k v (e : t) : t :=
  does (SetCookie k v) (set_cookies (Cookies.setCookie k v (cookies e)) e).
Definition getCookie k (e : t) : option cookie_value := Cookies.getCookie k (cookies e).

(** document.getElementById(id) *)
Definition getElementById (id : jsstring) (e : t) : option jsstring :=
  if bool_decide (id ∈ document e) then Some id else None.

(** document.querySelector(`#${id}`) *)
Definition querySelector (id : jsstring) (e : t) : outcome (option jsstring) :=
  if CSS.plain_identifier id then Returns (getElementById id e)
  else selectors e id.

(** What the lookups of elements read. *)
Definition page (e : t) := (document e, selectors e).

(** A new closure. *)
Definition closure (e : t) : nat * t := (closures e, set_closures (S (closures e)) e).

(** addEventListener: a listener already attached is not attached again. *)
Definition addEventListener (l : listener) (e : t) : t :=
  if bool_decide (l ∈ listeners e) then e else set_listeners (listeners e ++ [l]) e.

Definition removeEventListener (l : listener) (e : t) : t :=
  set_listeners (filter (fun l' => l' <> l) (listeners e)) e.

(** Listeners of one type on one element. *)
Definition listenersOn (el ty : jsstring) (e : t) : list listener :=
  filter (fun l => target l = el /\ type l = ty) (listeners e).

(** A page with the elements [doc], on which every text that is not a
    plain identifier is refused as a selector. *)
Definition initial (doc : gset jsstring) : t :=
  {| document := doc; selectors := fun _ => Throws (Error (js "SyntaxError"));
     listeners := []; cookies := ∅; trace := []; closures := 0 |}.
End Env.

(** The helpers of utils/ and the configuration values the checkout reads.
    Their sources are not part of the development; the checkout is
    parameterised by them.
    - [getValueByPath(obj, path)] reads a variable of the bundle's
      localized property map;
    - [priceInCents s] is [Math.round(parseFloat(s.replace(/[^0-9.]/g, '')) * 100)],
      and [None] when [parseFloat] yields NaN;
    - [extractCurrencyFromPrice(priceString, defaultCode)];
    - [baseSuccessURL] is [config.baseSuccessURL]. *)
Module Utils.
Record t := mk {
  getValueByPath : dict (dict jsstring) -> jsstring -> option jsstring;
  priceInCents : jsstring -> option Z;
  extractCurrencyFromPrice : jsstring -> jsstring -> jsstring;
  baseSuccessURL : jsstring
}.
End Utils.

(* ===================================================================== *)
(** * The Stripe checkout (core/paymentForms/stripeForm.ts) *)
(* ===================================================================== *)

Module Stripe.

Module ElementIDs.
Record t := mk {
  form : jsstring;
  payment : jsstring;
  submit : jsstring;
  error : jsstring;
  applePayButton : option jsstring
}.
End ElementIDs.

(** const ELEMENT_IDS = { new: {...}, old: {...} } *)
Definition ELEMENT_IDS_new : ElementIDs.t :=
  {| ElementIDs.form := js "apphud-stripe-payment-form";
     ElementIDs.payment := js "stripe-payment-element";
     ElementIDs.submit := js "stripe-submit";
     ElementIDs.error := js "stripe-error-message";
     ElementIDs.applePayButton := Some (js "apphud-apple-pay-button") |}.

Definition ELEMENT_IDS_old : ElementIDs.t :=
  {| ElementIDs.form := js "apphud-payment-form";
     ElementIDs.payment := js "payment-element";
     ElementIDs.submit := js "submit";
     ElementIDs.error := js "error-message";
     ElementIDs.applePayButton := None |}.

(** The fields of a [StripeForm] instance. [stripe] and [elements] hold
    handles of the Stripe library and are kept as "is it there". *)
Record t := mk {
  stripe : bool;
  elements : bool;
  subscription : option Subscription.t;
  submit : option jsstring;
  customer : option CustomerSetup.t;
  productBundle : option ProductBundle.t;
  currentProductId : option jsstring;
  currentPaywallId : option jsstring;
  currentPlacementId : option jsstring;
  elementIDs : ElementIDs.t;
  buttonStateSetter : bool;
  formElement : option jsstring;
  submitHandler : option nat;
  paymentRequest : option PaymentRequest.t;
  applePayButtonHandler : option nat;
  applePayButton : option jsstring;
  isActive : bool;
  user : User.t;
  provider : PaymentProvider.t
}.

(** The field initialisers of the class; the constructor starts loading
    the Stripe library, which arrives in a later task ([loaded]). *)
Definition new (u : User.t) (p : PaymentProvider.t) : t :=
  {| stripe := false; elements := false; subscription := None; submit := None;
     customer := None; productBundle := None; currentProductId := None;
     currentPaywallId := None; currentPlacementId := None;
     elementIDs := ELEMENT_IDS_old; buttonStateSetter := false;
     formElement := None; submitHandler := None; paymentRequest := None;
     applePayButtonHandler := None; applePayButton := None; isActive := true;
     user := u; provider := p |}.

Definition set_stripe b (f : t) : t :=
  {| stripe := b; elements := elements f; subscription := subscription f;
     submit := submit f; customer := customer f; productBundle := productBundle f;
     currentProductId := currentProductId f; currentPaywallId := currentPaywallId f;
     currentPlacementId := currentPlacementId f; elementIDs := elementIDs f;
     buttonStateSetter := buttonStateSetter f; formElement := formElement f;
     submitHandler := submitHandler f; paymentRequest := paymentRequest f;
     applePayButtonHandler := applePayButtonHandler f;
     applePayButton := applePayButton f; isActive := isActive f;
     user := user f; provider := provider f |}.
Definition set_elements b (f : t) : t :=
  {| stripe := stripe f; elements := b; subscription := subscription f;
     submit := submit f; customer := customer f; productBundle := productBundle f;
     currentProductId := currentProductId f; currentPaywallId := currentPaywallId f;
     currentPlacementId := currentPlacementId f; elementIDs := elementIDs f;
     buttonStateSetter := buttonStateSetter f; formElement := formElement f;
     submitHandler := submitHandler f; paymentRequest := paymentRequest f;
     applePayButtonHandler := applePayButtonHandler f;
     applePayButton := applePayButton f; isActive := isActive f;
     user := user f; provider := provider f |}.
Definition set_subscription s (f : t) : t :=
  {| stripe := stripe f; elements := elements f; subscription := s;
     submit := submit f; customer := customer f; productBundle := productBundle f;
     currentProductId := currentProductId f; currentPaywallId := currentPaywallId f;
     currentPlacementId := currentPlacementId f; elementIDs := elementIDs f;
     buttonStateSetter := buttonStateSetter f; formElement := formElement f;
     submitHandler := submitHandler f; paymentRequest := paymentRequest f;
     applePayButtonHandler := applePayButtonHandler f;
     applePayButton := applePayButton f; isActive := isActive f;
     user := user f; provider := provider f |}.
Definition set_submit s (f : t) : t :=
  {| stripe := stripe f; elements := elements f; subscription := subscription f;
     submit := s; customer := customer f; productBundle := productBundle f;
     currentProductId := currentProductId f; currentPaywallId := currentPaywallId f;
     currentPlacementId := currentPlacementId f; elementIDs := elementIDs f;
     buttonStateSetter := buttonStateSetter f; formElement := formElement f;
     submitHandler := submitHandler f; paymentRequest := paymentRequest f;
     applePayButtonHandler := applePayButtonHandler f;
     applePayButton := applePayButton f; isActive := isActive f;
     user := user f; provider := provider f |}.
Definition set_customer c (f : t) : t :=
  {| stripe := stripe f; elements := elements f; subscription := subscription f;
     submit := submit f; customer := c; productBundle := productBundle f;
     currentProductId := currentProductId f; currentPaywallId := currentPaywallId f;
     currentPlacementId := currentPlacementId f; elementIDs := elementIDs f;
     buttonStateSetter := buttonStateSetter f; formElement := formElement f;
     submitHandler := submitHandler f; paymentRequest := paymentRequest f;
     applePayButtonHandler := applePayButtonHandler f;
     applePayButton := applePayButton f; isActive := isActive f;
     user := user f; provider := provider f |}.
(** The assignments at the head of [show]. *)
Definition set_shown bundle productId paywallId placementId setter (f : t) : t :=
  {| stripe := stripe f; elements := elements f; subscription := subscription f;
     submit := submit f; customer := customer f; productBundle := bundle;
     currentProductId := Some productId; currentPaywallId := paywallId;
     currentPlacementId := placementId; elementIDs := elementIDs f;
     buttonStateSetter := setter; formElement := formElement f;
     submitHandler := submitHandler f; paymentRequest := paymentRequest f;
     applePayButtonHandler := applePayButtonHandler f;
     applePayButton := applePayButton f; isActive := isActive f;
     user := user f; provider := provider f |}.
Definition set_elementIDs ids (f : t) : t :=
  {| stripe := stripe f; elements := elements f; subscription := subscription f;
     submit := submit f; customer := customer f; productBundle := productBundle f;
     currentProductId := currentProductId f; currentPaywallId := currentPaywallId f;
     currentPlacementId := currentPlacementId f; elementIDs := ids;
     buttonStateSetter := buttonStateSetter f; formElement := formElement f;
     submitHandler := submitHandler f; paymentRequest := paymentRequest f;
     applePayButtonHandler := applePayButtonHandler f;
     applePayButton := applePayButton f; isActive := isActive f;
     user := user f; provider := provider f |}.
Definition set_formElement el (f : t) : t :=
  {| stripe := stripe f; elements := elements f; subscription := subscription f;
     submit := submit f; customer := customer f; productBundle := productBundle f;
     currentProductId := currentProductId f; currentPaywallId := currentPaywallId f;
     currentPlacementId := currentPlacementId f; elementIDs := elementIDs f;
     buttonStateSetter := buttonStateSetter f; formElement := el;
     submitHandler := submitHandler f; paymentRequest := paymentRequest f;
     applePayButtonHandler := applePayButtonHandler f;
     applePayButton := applePayButton f; isActive := isActive f;
     user := user f; provider := provider f |}.
Definition set_submitHandler h (f : t) : t :=
  {| stripe := stripe f; elements := elements f; subscription := subscription f;
     submit := submit f; customer := customer f; productBundle := productBundle f;
     currentProductId := currentProductId f; currentPaywallId := currentPaywallId f;
     currentPlacementId := currentPlacementId f; elementIDs := elementIDs f;
     buttonStateSetter := buttonStateSetter f; formElement := formElement f;
     submitHandler := h; paymentRequest := paymentRequest f;
     applePayButtonHandler := applePayButtonHandler f;
     applePayButton := applePayButton f; isActive := isActive f;
     user := user f; provider := provider f |}.
Definition set_paymentRequest r (f : t) : t :=
  {| stripe := stripe f; elements := elements f; subscription := subscription f;
     submit := submit f; customer := customer f; productBundle := productBundle f;
     currentProductId := currentProductId f; currentPaywallId := currentPaywallId f;
     currentPlacementId := currentPlacementId f; elementIDs := elementIDs f;
     buttonStateSetter := buttonStateSetter f; formElement := formElement f;
     submitHandler := submitHandler f; paymentRequest := r;
     applePayButtonHandler := applePayButtonHandler f;
     applePayButton := applePayButton f; isActive := isActive f;
     user := user f; provider := provider f |}.
Definition set_applePayButton b h (f : t) : t :=
  {| stripe := stripe f; elements := elements f; subscription := subscription f;
     submit := submit f; customer := customer f; productBundle := productBundle f;
     currentProductId := currentProductId f; currentPaywallId := currentPaywallId f;
     currentPlacementId := currentPlacementId f; elementIDs := elementIDs f;
     buttonStateSetter := buttonStateSetter f; formElement := formElement f;
     submitHandler := submitHandler f; paymentRequest := paymentRequest f;
     applePayButtonHandler := h; applePayButton := b; isActive := isActive f;
     user := user f; provider := provider f |}.
Definition set_isActive b (f : t) : t :=
  {| stripe := stripe f; elements := elements f; subscription := subscription f;
     submit := submit f; customer := customer f; productBundle := productBundle f;
     currentProductId := currentProductId f; currentPaywallId := currentPaywallId f;
     currentPlacementId := currentPlacementId f; elementIDs := elementIDs f;
     buttonStateSetter := buttonStateSetter f; formElement := formElement f;
     submitHandler := submitHandler f; paymentRequest := paymentRequest f;
     applePayButtonHandler := applePayButtonHandler f;
     applePayButton := applePayButton f; isActive := b;
     user := user f; provider := provider f |}.

(** The constructor asks for the Stripe library with [loadStripe] when
    the provider has a token, and goes on; [loaded] is the later task in
    which the library arrives. Without a token the field [stripe] stays
    empty (the constructor then logs "Missing Stripe provider token", at
    a time that depends on [documentReady]; the log is not recorded). *)
Definition loaded (f : t) : t :=
  if truthy (PaymentProvider.token (provider f)) then set_stripe true f else f.

Definition cancel (f : t) : t := set_isActive false f.

(** private displayError(message): the error element is looked up with
    [document.querySelector], which may throw. *)
Definition displayError (text : string) (f : t) (e : Env.t) : outcome Env.t :=
  match Env.querySelector (ElementIDs.error (elementIDs f)) e with
  | Returns (Some _) => Returns (Env.does (DisplayError (js text)) e)
  | Returns None => Returns e
  | Throws err => Throws err
  end.

(** [this.displayError(message)] in the submit handler, which is an
    [async] function, followed by [rest]. When [displayError] throws, the
    handler ends there and its promise is rejected; the page called the
    handler for a submit event and drops the promise, so the rejection is
    unhandled. *)
Definition displayError_then (text : string) (f : t) (e : Env.t)
    (rest : Env.t -> Env.t) : Env.t :=
  match displayError text f e with
  | Returns e => rest e
  | Throws err => Env.does (UnhandledRejection err) e
  end.

(** private setButtonState(state) *)
Definition setButtonState (state : button_state) (f : t) (e : Env.t) : Env.t :=
  match submit f with
  | None => Env.logError "Submit button not found. Failed to set state:" true e
  | Some _ =>
      if buttonStateSetter f && negb (bool_decide (state = ErrorState))
      then Env.does (ButtonState true state) e
      else Env.does (ButtonState false state) e
  end.

(** public cleanupFormListeners() *)
Definition cleanupFormListeners (f : t) (e : Env.t) : t * Env.t :=
  let '(f, e) :=
    match formElement f, submitHandler f with
    | Some el, Some h =>
        (set_submitHandler None f,
         Env.removeEventListener (Listener el (js "submit") h) e)
    | _, _ => (f, e)
    end in
  match applePayButton f, applePayButtonHandler f with
  | Some b, Some h =>
      (set_applePayButton None None f,
       Env.removeEventListener (Listener b (js "click") h) e)
  | _, _ => (f, e)
  end.

(** private handleSuccessfulPayment(options). [baseSuccessURL] is the
    value of [config.baseSuccessURL]. *)
Definition handleSuccessfulPayment (baseSuccessURL : jsstring) (options : Options.t)
    (f : t) (e : Env.t) : Env.t :=
  let deepLink := match subscription f with
                  | Some s => Subscription.deep_link s
                  | None => None
                  end in
  let e := if truthy deepLink
           then Env.setCookie DeepLinkURL (Text (default [] deepLink)) e else e in
  let e := Env.setCookie PaymentProviderKey (Text (js "stripe")) e in
  let e := match subscription f with
           | Some s => Env.does (FacebookPurchase s) e
           | None => e
           end in
  Env.does
    (SetTimeout
       (if Options.onSuccess options then CallOnSuccess
        else if truthy (Options.successUrl options)
                && negb (bool_decide (Options.successUrl options = Some (js "undefined")))
             then Navigate (default [] (Options.successUrl options))
             else Navigate (baseSuccessURL ++ js "/" ++ default (js "undefined") deepLink)))
    e.

(** private async createSubscription(...): the request and what the form
    does with its outcome. The last component is the error the method
    throws, if it throws. *)
Definition createSubscription (customerId paymentMethodId : jsstring)
    (r : settled (option Subscription.t)) (f : t) (e : Env.t)
    : t * Env.t * option error :=
  let e := Env.does
             (Call (CreateSubscription (PaymentProvider.id (provider f))
                      (default [] (currentProductId f))
                      (currentPaywallId f) (currentPlacementId f)
                      (Some customerId) (Some paymentMethodId))) e in
  match r with
  | Fulfilled None =>
      (set_subscription None f,
       Env.logError "Failed to create subscription for product:" false e, None)
  | Fulfilled (Some s) => (set_subscription (Some s) f, e, None)
  | Rejected _ =>
      (f, Env.logError "Network error creating subscription:" false e,
       Some (Error (js "Failed to create subscription due to network error")))
  end.

(** The result of [stripe.confirmSetup]. *)
Inductive setup_result :=
  | SetupError (e : error)
  | SetupIntent (payment_method : jsstring).

(** The failure branch shared by the steps of the submit handler. *)
Definition fail (log : string) (report : bool) (state : button_state)
    (text : string) (err : error) (f : t) (e : Env.t) : Env.t :=
  let e := Env.logError log report e in
  let e := setButtonState state f e in
  displayError_then text f e
    (Env.does (Emit (js "payment_failure") (PaymentFailure (js "stripe") err))).

(** The submit handler installed by [setupForm], run from the submit
    event to its end. The answers of the three awaited calls are given:
    [r_setup] by [stripe.confirmSetup], [r_sub] by [api.createSubscription]
    and [r_confirm] (the [error] of the result, if any) by
    [stripe.confirmCardPayment]. *)
Definition submitHandler_run (baseSuccessURL : jsstring) (options : Options.t)
    (r_setup : setup_result) (r_sub : settled (option Subscription.t))
    (r_confirm : option error) (f : t) (e : Env.t) : t * Env.t :=
  let e := setButtonState Processing f e in
  if negb (stripe f) then
    (f, displayError_then "Failed to initialize payment form. Please try again." f
          (Env.logError "Stripe not initialized" true e) (fun e => e))
  else if negb (elements f) then
    (f, displayError_then "Failed to initialize payment form. Please try again." f
          (Env.logError "Elements not initialized" true e) (fun e => e))
  else
    (* Step 1: confirm the SetupIntent *)
    let e := Env.does (Call ConfirmSetup) e in
    match r_setup with
    | SetupError err =>
        (f, fail "Failed to confirm setup" true Ready
              "Failed to process payment. Please try again." err f e)
    | SetupIntent paymentMethodId =>
        (* Step 2: create the subscription, inside try/catch *)
        let '(f, e, thrown) :=
          match customer f with
          | None => (f, e, Some (Error (js "TypeError")))   (* this.customer!.id *)
          | Some c => createSubscription (CustomerSetup.id c) paymentMethodId r_sub f e
          end in
        match thrown with
        | Some err =>
            (f, fail "Subscription creation failed:" false ErrorState
                  "Failed to create subscription. Please try again." err f e)
        | None =>
            match subscription f with
            | None =>
                (f, fail "Failed to create subscription" false ErrorState
                      "Failed to create subscription. Please try again."
                      (Error (js "Failed to create subscription")) f e)
            | Some s =>
                (* Step 3: confirm the payment if the subscription asks for it *)
                if truthy (Subscription.client_secret s) then
                  let e := Env.does
                             (Call (ConfirmCardPayment
                                      (default [] (Subscription.client_secret s)))) e in
                  match r_confirm with
                  | Some confirmError =>
                      (f, fail "Failed to confirm card payment" true ErrorState
                            "Failed to confirm payment. Please try again."
                            confirmError f e)
                  | None => (f, handleSuccessfulPayment baseSuccessURL options f e)
                  end
                else (f, handleSuccessfulPayment baseSuccessURL options f e)
            end
        end
    end.

(** private async setupForm(options). The function has no [await]: it
    runs to its end when it is called. [show] calls it without [await]
    and without a handler on its promise, so what the form lookup throws
    is an unhandled rejection and [show] goes on. *)
Definition setupForm (f : t) (e : Env.t) : t * Env.t :=
  if negb (isActive f) then (f, e)
  else
    let '(f, e) := cleanupFormListeners f e in
    match Env.querySelector (ElementIDs.form (elementIDs f)) e with
    | Throws err => (f, Env.does (UnhandledRejection err) e)
    | Returns None => (f, Env.logError "Payment form: no form provided" true e)
    | Returns (Some form) =>
        let f := set_formElement (Some form) f in
        let '(h, e) := Env.closure e in
        let f := set_submitHandler (Some h) f in
        (f, Env.addEventListener (Listener form (js "submit") h) e)
    end.

(** The two early exits of [initStripe]. *)
Definition initStripe_failed (log : string) (f : t) (e : Env.t)
    : t * Env.t * option error :=
  let e := Env.logError log true e in
  match displayError "Failed to initialize payment form. Please try again." f e with
  | Returns e => (f, setButtonState ErrorState f e, None)
  | Throws err => (f, e, Some err)
  end.

(** private initStripe(options). The function is not [async]: the last
    component is what it throws, if it throws. *)
Definition initStripe (f : t) (e : Env.t) : t * Env.t * option error :=
  if negb (stripe f) then initStripe_failed "Failed to initialize Stripe" f e
  else
    match customer f with
    | None => initStripe_failed "Failed to initialize Stripe, customer not initialized" f e
    | Some c =>
        let f := set_elements true f in
        let e := Env.does (Call (StripeElements (CustomerSetup.client_secret c))) e in
        (* Create and mount the Payment Element *)
        match Env.getElementById (ElementIDs.payment (elementIDs f)) e with
        | Some container => (f, Env.does (Call (MountPaymentElement container)) e, None)
        | None => (f, e, None)
        end
    end.

(** private initializeApplePay(options), up to the creation of the
    payment request. *)
Definition initializeApplePay (u : Utils.t) (options : Options.t) (f : t) (e : Env.t)
    : t * Env.t :=
  if negb (stripe f) then
    (f, Env.logError "Failed to initialize Apple Pay: Stripe not initialized" true e)
  else
    match productBundle f with
    | None =>
        (f, Env.logError "Failed to initialize Apple Pay: Product bundle is missing" true e)
    | Some bundle =>
        let cfg := Options.applePayConfig options in
        let staticPrice := cfg ≫= ApplePayConfig.staticPrice in
        (* Check if static price is provided in options *)
        let '(currency, amount) :=
          match staticPrice with
          | Some (c, a) => (if truthy (Some c) then c else js "usd", a)
          | None => (js "usd", 0%Z)
          end in
        (* Get price from bundle if not using static price *)
        let price : option (jsstring * Z) + string :=
          match staticPrice, ProductBundle.properties bundle with
          | None, Some properties =>
              let priceMacro :=
                if truthy (cfg ≫= ApplePayConfig.priceMacro)
                then default [] (cfg ≫= ApplePayConfig.priceMacro)
                else js "new-price" in
              let priceString := Utils.getValueByPath u properties priceMacro in
              if truthy priceString then
                match Utils.priceInCents u (default [] priceString) with
                | Some cents =>
                    inl (Some (Utils.extractCurrencyFromPrice u (default [] priceString)
                                 (js "usd"), cents))
                | None => inr "Failed to parse price from macro"%string
                end
              else inr "No price found for macro in bundle properties"%string
          | _, _ => inl None
          end in
        match price with
        | inr text => (f, Env.logError text true e)
        | inl fromBundle =>
            let '(currency, amount) := default (currency, amount) fromBundle in
            let productName :=
              if truthy (cfg ≫= ApplePayConfig.productLabel)
              then default [] (cfg ≫= ApplePayConfig.productLabel)
              else
                match truthy (cfg ≫= ApplePayConfig.productMacro),
                      ProductBundle.properties bundle with
                | true, Some properties =>
                    let productValue :=
                      Utils.getValueByPath u properties
                        (default [] (cfg ≫= ApplePayConfig.productMacro)) in
                    if truthy productValue then default [] productValue
                    else js "Subscription"
                | _, _ =>
                    if truthy (Some (ProductBundle.name bundle))
                    then ProductBundle.name bundle else js "Subscription"
                end in
            let request :=
              {| PaymentRequest.country := js "US";
                 PaymentRequest.currency := currency;
                 PaymentRequest.label := productName;
                 PaymentRequest.amount := amount |} in
            (set_paymentRequest (Some request) f,
             Env.does (Call (StripePaymentRequest request)) e)
        end
    end.

(** The continuation of [this.paymentRequest.canMakePayment()] set up by
    [initializeApplePay]; [available] is [result && result.applePay]. *)
Definition canMakePayment_then (available : bool) (f : t) (e : Env.t) : t * Env.t :=
  if available then
    let e := Env.does (Emit (js "apple_pay_available")
                         (ApplePayAvailable (ElementIDs.applePayButton (elementIDs f)))) e in
    match ElementIDs.applePayButton (elementIDs f) ≫= (fun id => Env.getElementById id e) with
    | Some button =>
        let e := Env.does (Reveal button) e in
        let '(h, e) := Env.closure e in
        (set_applePayButton (Some button) (Some h) f,
         Env.addEventListener (Listener button (js "click") h) e)
    | None => (f, Env.logError "Apple Pay button element not found with ID: " true e)
    end
  else (f, e).

(** The element ids [show] settles on ("Detect which form type is
    present"): the new ids prefixed by [options.id] if it is given, the new
    ids if the new form is on the page, and the ids the form has (the old
    ones, for a new form) otherwise. *)
Definition detect (options : Options.t) (f : t) (e : Env.t) : ElementIDs.t :=
  if truthy (Options.id options) then
    let prefix x := default [] (Options.id options) ++ js "-" ++ x in
    {| ElementIDs.form := prefix (ElementIDs.form ELEMENT_IDS_new);
       ElementIDs.payment := prefix (ElementIDs.payment ELEMENT_IDS_new);
       ElementIDs.submit := prefix (ElementIDs.submit ELEMENT_IDS_new);
       ElementIDs.error := prefix (ElementIDs.error ELEMENT_IDS_new);
       ElementIDs.applePayButton := prefix <$> ElementIDs.applePayButton ELEMENT_IDS_new |}
  else if bool_decide (is_Some (Env.getElementById (ElementIDs.form ELEMENT_IDS_new) e))
  then ELEMENT_IDS_new
  else elementIDs f.

(** [show] runs in two tasks, split at [await this.createCustomer(options)].

    [show_start] is the first: it ends either with the promise of [show]
    settled ([Some]) or with the customer request in flight ([None]).
    What the lookup of the submit button throws rejects the promise. *)
Definition show_start (productId : jsstring) (paywallId placementId : option jsstring)
    (options : Options.t) (productBundle : option ProductBundle.t)
    (f : t) (e : Env.t) : t * Env.t * option (settled unit) :=
  let f := set_shown productBundle productId paywallId placementId
             (Options.buttonStateSetter options) f in
  let e := Env.does (Emit (js "payment_form_initialized")
                       (FormInitialized (js "stripe") (js "#apphud-stripe-payment-form"))) e in
  let f := set_elementIDs (detect options f e) f in
  (* Only setup submit button if not using Apple Pay exclusively *)
  let step : outcome (option (t * Env.t)) :=
    if negb (Options.applePay options) then
      match Env.querySelector (ElementIDs.submit (elementIDs f)) e with
      | Throws err => Throws err
      | Returns None => Returns None
      | Returns (Some button) =>
          let f := set_submit (Some button) f in
          Returns (Some (f, setButtonState Loading f e))
      end
    else Returns (Some (f, e)) in
  match step with
  | Throws err => (f, e, Some (Rejected err))
  | Returns None =>
      (f, Env.logError "Submit button is required." false e, Some (Fulfilled ()))
  | Returns (Some (f, e)) =>
      (* createCustomer, up to its request *)
      (f, Env.does (Call (CreateCustomer (PaymentProvider.id (provider f))
                            (User.id (user f)) (negb (Options.applePay options)))) e,
       None)
  end.

(** [show_resume] is the second task: the customer request has settled
    with [r]. *)
Definition show_resume (u : Utils.t) (options : Options.t)
    (r : settled (option CustomerSetup.t)) (f : t) (e : Env.t)
    : t * Env.t * settled unit :=
  match r with
  | Rejected err => (f, e, Rejected err)
  | Fulfilled c =>
      let f := set_customer c f in
      let e := match c with
               | None => Env.logError "Failed to create customer for user" false e
               | Some _ => e
               end in
      if negb (isActive f) then (f, e, Fulfilled ())
      else if negb (Options.applePay options) then
        match initStripe f e with
        | (f, e, Some err) => (f, e, Rejected err)
        | (f, e, None) =>
            let '(f, e) := setupForm f e in
            (f, e, Fulfilled ())
        end
      else
        (* Initialize Apple Pay if product bundle exists *)
        let '(f, e) := initializeApplePay u options f e in
        (f, e, Fulfilled ())
  end.

End Stripe.

(* ===================================================================== *)
(** * The Paddle checkout (core/paymentForms/paddleForm.ts) *)
(* ===================================================================== *)

Module Paddle.

Record t := mk {
  paddle : bool;                          (* the Paddle instance, once initialized *)
  currentOptions : option Options.t;
  subscription : option Subscription.t;
  user : User.t;
  provider : PaymentProvider.t
}.

Definition new (u : User.t) (p : PaymentProvider.t) : t :=
  {| paddle := false; currentOptions := None; subscription := None;
     user := u; provider := p |}.

(** private setButtonState(state): only the caller's setter is used. *)
Definition setButtonState (state : button_state) (f : t) (e : Env.t) : Env.t :=
  match currentOptions f with
  | Some o => if Options.buttonStateSetter o then Env.does (ButtonState true state) e else e
  | None => e
  end.

(** [show] up to [await this.createSubscription(...)], whose request has
    no try/catch around it. *)
Definition show_start (productId : jsstring) (paywallId placementId : option jsstring)
    (options : Options.t) (f : t) (e : Env.t) : t * Env.t :=
  ({| paddle := paddle f; currentOptions := Some options;
      subscription := subscription f; user := user f; provider := provider f |},
   Env.does (Call (CreateSubscription (PaymentProvider.id (provider f)) productId
                     paywallId placementId None None)) e).

(** The rest of [show], once the subscription request has settled with
    [r]. [initialized] tells whether the Paddle instance is there after
    [if (!this.paddle) await this.initializePaddleInstance()]. *)
Definition show_resume (r : settled (option Subscription.t)) (initialized : bool)
    (f : t) (e : Env.t) : t * Env.t * settled unit :=
  match r with
  | Rejected err => (f, e, Rejected err)
  | Fulfilled None =>
      let f := {| paddle := paddle f; currentOptions := currentOptions f;
                  subscription := None; user := user f; provider := provider f |} in
      let e := Env.logError "Failed to create subscription for product" false e in
      (f, Env.logError "Failed to create subscription" false e, Fulfilled ())
  | Fulfilled (Some s) =>
      let f := {| paddle := paddle f || initialized; currentOptions := currentOptions f;
                  subscription := Some s; user := user f; provider := provider f |} in
      let id := currentOptions f ≫= Options.id in
      let e := Env.does (Emit (js "payment_form_initialized")
                           (FormInitialized (js "paddle")
                              (js "#" ++ default (js "undefined") id))) e in
      if negb (paddle f) then
        (f, Env.logError "Paddle failed to initialize" true e, Fulfilled ())
      else if negb (truthy id) then
        (f, Env.logError "Paddle form id is required" true e, Fulfilled ())
      else
        let e := setButtonState Processing f e in
        let e := Env.does (Call (PaddleCheckoutOpen (default [] id))) e in
        let e := setButtonState Ready f e in
        (f, Env.does (Emit (js "payment_form_ready") (FormReady (js "paddle"))) e,
         Fulfilled ())
  end.

End Paddle.

(* ===================================================================== *)
(** * The payment form orchestrator (core/paymentForms/formBuilder.ts) *)
(* ===================================================================== *)

Module Builder.

(** The two classes implementing [PaymentForm]. *)
Inductive form :=
  | StripeForm (f : Stripe.t)
  | PaddleForm (f : Paddle.t).

(** The page together with the form objects alive. A form is referred to
    by its position in [forms]: the orchestrator's map and a suspended
    [show] may hold the same form. *)
Record world := World {
  env : Env.t;
  forms : list form
}.

Definition set_env (e : Env.t) (w : world) : world := {| env := e; forms := forms w |}.

Definition new_form (f : form) (w : world) : nat * world :=
  (length (forms w), {| env := env w; forms := forms w ++ [f] |}).

Definition put_form (ref : nat) (f : form) (w : world) : world :=
  {| env := env w; forms := <[ref := f]> (forms w) |}.

Record t := mk {
  provider : PaymentProvider.t;
  user : User.t;
  events : list jsstring;           (* event names, one per callback registered *)
  currentForms : JSMap.t nat        (* Map<string, PaymentForm> *)
}.

Definition new (p : PaymentProvider.t) (u : User.t) : t :=
  {| provider := p; user := u; events := []; currentForms := [] |}.

Definition set_currentForms m (b : t) : t :=
  {| provider := provider b; user := user b; events := events b; currentForms := m |}.

(** public on(eventName, callback) *)
Definition on (eventName : jsstring) (b : t) : t :=
  {| provider := provider b; user := user b; events := events b ++ [eventName];
     currentForms := currentForms b |}.

(** private getFormKey(provider, options) *)
Definition getFormKey (provider : jsstring) (options : Options.t) : jsstring :=
  let formType :=
    if bool_decide (provider = js "stripe") && Options.applePay options
    then js "apple_pay" else js "default" in
  provider ++ js ":" ++ formType.

(** public cleanup(formKey) for a given key. *)
Definition cleanup (formKey : jsstring) (b : t) (w : world) : t * world :=
  match JSMap.get (currentForms b) formKey with
  | Some ref =>
      let w :=
        match forms w !! ref with
        | Some (StripeForm f) =>
            let '(f, e) := Stripe.cleanupFormListeners f (env w) in
            put_form ref (StripeForm f) (set_env e w)
        | _ => w
        end in
      (set_currentForms (JSMap.delete (currentForms b) formKey) b, w)
  | None => (b, w)
  end.

(** public cleanupAll() *)
Definition cleanupAll (b : t) (w : world) : t * world :=
  (set_currentForms (JSMap.clear (currentForms b)) b,
   fold_left
     (fun w ref =>
        match forms w !! ref with
        | Some (StripeForm f) =>
            let '(f, e) := Stripe.cleanupFormListeners f (env w) in
            put_form ref (StripeForm f) (set_env e w)
        | _ => w
        end)
     (JSMap.values (currentForms b)) w).

(** Where a call of [show] stands at the end of a task. *)
Inductive progress :=
  | Settled (r : settled unit)      (* the promise of [show] has settled *)
  | Awaiting (form : nat).          (* suspended on the request of that form *)

(** The answer to the request a suspended [show] waits for. *)
Inductive response :=
  | Customer (r : settled (option CustomerSetup.t))
  | Subscribed (r : settled (option Subscription.t)) (paddleInitialized : bool).

(** [show], first task: from the call to the first request. *)
Definition show_start (productId : jsstring) (paywallId placementId : option jsstring)
    (options : Options.t) (bundle : option ProductBundle.t)
    (b : t) (w : world) : t * world * progress :=
  (* Clean up only the specific form type being requested *)
  let kind := PaymentProvider.kind (provider b) in
  let formKey := getFormKey kind options in
  let '(b, w) := cleanup formKey b w in
  if bool_decide (kind = js "stripe") then
    let '(ref, w) := new_form (StripeForm (Stripe.new (user b) (provider b))) w in
    let b := set_currentForms (JSMap.set (currentForms b) formKey ref) b in
    let '(f, e, p) :=
      Stripe.show_start productId paywallId placementId options bundle
        (Stripe.new (user b) (provider b)) (env w) in
    (b, put_form ref (StripeForm f) (set_env e w),
     match p with Some r => Settled r | None => Awaiting ref end)
  else if bool_decide (kind = js "paddle") then
    let '(ref, w) := new_form (PaddleForm (Paddle.new (user b) (provider b))) w in
    let b := set_currentForms (JSMap.set (currentForms b) formKey ref) b in
    let '(f, e) :=
      Paddle.show_start productId paywallId placementId options
        (Paddle.new (user b) (provider b)) (env w) in
    (b, put_form ref (PaddleForm f) (set_env e w), Awaiting ref)
  else
    (b, w, Settled (Rejected (Error (js "Unsupported type " ++ kind)))).

(** [show], second task: the request of form [ref] has been answered. *)
Definition show_resume (u : Utils.t) (ref : nat) (options : Options.t) (r : response)
    (w : world) : world * settled unit :=
  match forms w !! ref, r with
  | Some (StripeForm f), Customer r =>
      let '(f, e, s) := Stripe.show_resume u options r f (env w) in
      (put_form ref (StripeForm f) (set_env e w), s)
  | Some (PaddleForm f), Subscribed r initialized =>
      let '(f, e, s) := Paddle.show_resume r initialized f (env w) in
      (put_form ref (PaddleForm f) (set_env e w), s)
  | _, _ => (w, Fulfilled ())
  end.

(** The library of the Stripe form [ref] has loaded. *)
Definition stripe_loaded (ref : nat) (w : world) : world :=
  match forms w !! ref with
  | Some (StripeForm f) => put_form ref (StripeForm (Stripe.loaded f)) w
  | _ => w
  end.

(** [await builder.show(...)] with no other call of the SDK in between:
    the first task, the request and the second task. [loaded] tells
    whether the library asked for by the constructor of the Stripe form
    arrives while the request is in flight; [r] is the answer to the
    request. *)
Definition show (u : Utils.t) (productId : jsstring) (paywallId placementId : option jsstring)
    (options : Options.t) (bundle : option ProductBundle.t) (loaded : bool) (r : response)
    (b : t) (w : world) : t * world * settled unit :=
  let '(b, w, p) := show_start productId paywallId placementId options bundle b w in
  match p with
  | Settled s => (b, w, s)
  | Awaiting ref =>
      let w := if loaded then stripe_loaded ref w else w in
      let '(w, s) := show_resume u ref options r w in
      (b, w, s)
  end.

(** Submit listeners attached to the page. *)
Definition submitListeners (w : world) : list listener :=
  filter (fun l => type l = js "submit") (Env.listeners (env w)).

End Builder.

(* ===================================================================== *)
(** * The SDK instance (core/index.ts) *)
(* ===================================================================== *)

Module SDK.

(** The configuration values read here ([config.debug],
    [config.disableCookies]). *)
Module Config.
Record t := mk { debug : bool; disableCookies : bool }.
Definition default : t := {| debug := false; disableCookies := false |}.
End Config.

(** The fields of [ApphudSDK] other than [isReady] and [queue], which are
    the gate's, followed by what lies outside the instance: the
    configuration, the page with its forms, the timers set and the
    number of ids generated. *)
Record data := mk {
  placements : list Placement.t;
  user : option User.t;
  currentPaymentProviders : JSMap.t PaymentProvider.t;
  _currentProducts : JSMap.t Product.t;
  _currentPlacement : option Placement.t;
  _currentPaywall : option Paywall.t;
  _currentBundle : option ProductBundle.t;
  userID : option jsstring;
  eventQueue : list EventData.t;
  isInitialized : bool;
  reportedPlacementErrors : gset jsstring;
  formBuilders : JSMap.t Builder.t;
  config : Config.t;
  world : Builder.world;
  timers : list (EventData.t * bool);   (* setTimeout(() => trackEvent(event, refresh)) *)
  generated : nat
}.

(** new ApphudSDK(), on a page with the elements [doc]. *)
Definition new (doc : gset jsstring) : data :=
  {| placements := []; user := None; currentPaymentProviders := [];
     _currentProducts := []; _currentPlacement := None; _currentPaywall := None;
     _currentBundle := None; userID := None; eventQueue := [];
     isInitialized := false; reportedPlacementErrors := ∅; formBuilders := [];
     config := Config.default;
     world := Builder.World (Env.initial doc) []; timers := []; generated := 0 |}.

Definition set_placements x (d : data) : data :=
  {| placements := x; user := user d;
     currentPaymentProviders := currentPaymentProviders d;
     _currentProducts := _currentProducts d; _currentPlacement := _currentPlacement d;
     _currentPaywall := _currentPaywall d; _currentBundle := _currentBundle d;
     userID := userID d; eventQueue := eventQueue d; isInitialized := isInitialized d;
     reportedPlacementErrors := reportedPlacementErrors d;
     formBuilders := formBuilders d; config := config d; world := world d;
     timers := timers d; generated := generated d |}.
Definition set_maps products providers (d : data) : data :=
  {| placements := placements d; user := user d;
     currentPaymentProviders := providers;
     _currentProducts := products; _currentPlacement := _currentPlacement d;
     _currentPaywall := _currentPaywall d; _currentBundle := _currentBundle d;
     userID := userID d; eventQueue := eventQueue d; isInitialized := isInitialized d;
     reportedPlacementErrors := reportedPlacementErrors d;
     formBuilders := formBuilders d; config := config d; world := world d;
     timers := timers d; generated := generated d |}.
Definition set_currentPlacement x (d : data) : data :=
  {| placements := placements d; user := user d;
     currentPaymentProviders := currentPaymentProviders d;
     _currentProducts := _currentProducts d; _currentPlacement := x;
     _currentPaywall := _currentPaywall d; _currentBundle := _currentBundle d;
     userID := userID d; eventQueue := eventQueue d; isInitialized := isInitialized d;
     reportedPlacementErrors := reportedPlacementErrors d;
     formBuilders := formBuilders d; config := config d; world := world d;
     timers := timers d; generated := generated d |}.
Definition set_currentPaywall x (d : data) : data :=
  {| placements := placements d; user := user d;
     currentPaymentProviders := currentPaymentProviders d;
     _currentProducts := _currentProducts d; _currentPlacement := _currentPlacement d;
     _currentPaywall := x; _currentBundle := _currentBundle d;
     userID := userID d; eventQueue := eventQueue d; isInitialized := isInitialized d;
     reportedPlacementErrors := reportedPlacementErrors d;
     formBuilders := formBuilders d; config := config d; world := world d;
     timers := timers d; generated := generated d |}.
Definition set_currentBundle x (d : data) : data :=
  {| placements := placements d; user := user d;
     currentPaymentProviders := currentPaymentProviders d;
     _currentProducts := _currentProducts d; _currentPlacement := _currentPlacement d;
     _currentPaywall := _currentPaywall d; _currentBundle := x;
     userID := userID d; eventQueue := eventQueue d; isInitialized := isInitialized d;
     reportedPlacementErrors := reportedPlacementErrors d;
     formBuilders := formBuilders d; config := config d; world := world d;
     timers := timers d; generated := generated d |}.
Definition set_user x (d : data) : data :=
  {| placements := placements d; user := x;
     currentPaymentProviders := currentPaymentProviders d;
     _currentProducts := _currentProducts d; _currentPlacement := _currentPlacement d;
     _currentPaywall := _currentPaywall d; _currentBundle := _currentBundle d;
     userID := userID d; eventQueue := eventQueue d; isInitialized := isInitialized d;
     reportedPlacementErrors := reportedPlacementErrors d;
     formBuilders := formBuilders d; config := config d; world := world d;
     timers := timers d; generated := generated d |}.
Definition set_userID x (d : data) : data :=
  {| placements := placements d; user := user d;
     currentPaymentProviders := currentPaymentProviders d;
     _currentProducts := _currentProducts d; _currentPlacement := _currentPlacement d;
     _currentPaywall := _currentPaywall d; _currentBundle := _currentBundle d;
     userID := x; eventQueue := eventQueue d; isInitialized := isInitialized d;
     reportedPlacementErrors := reportedPlacementErrors d;
     formBuilders := formBuilders d; config := config d; world := world d;
     timers := timers d; generated := generated d |}.
Definition set_isInitialized x (d : data) : data :=
  {| placements := placements d; user := user d;
     currentPaymentProviders := currentPaymentProviders d;
     _currentProducts := _currentProducts d; _currentPlacement := _currentPlacement d;
     _currentPaywall := _currentPaywall d; _currentBundle := _currentBundle d;
     userID := userID d; eventQueue := eventQueue d; isInitialized := x;
     reportedPlacementErrors := reportedPlacementErrors d;
     formBuilders := formBuilders d; config := config d; world := world d;
     timers := timers d; generated := generated d |}.
Definition set_config x (d : data) : data :=
  {| placements := placements d; user := user d;
     currentPaymentProviders := currentPaymentProviders d;
     _currentProducts := _currentProducts d; _currentPlacement := _currentPlacement d;
     _currentPaywall := _currentPaywall d; _currentBundle := _currentBundle d;
     userID := userID d; eventQueue := eventQueue d; isInitialized := isInitialized d;
     reportedPlacementErrors := reportedPlacementErrors d;
     formBuilders := formBuilders d; config := x; world := world d;
     timers := timers d; generated := generated d |}.
Definition set_eventQueue x (d : data) : data :=
  {| placements := placements d; user := user d;
     currentPaymentProviders := currentPaymentProviders d;
     _currentProducts := _currentProducts d; _currentPlacement := _currentPlacement d;
     _currentPaywall := _currentPaywall d; _currentBundle := _currentBundle d;
     userID := userID d; eventQueue := x; isInitialized := isInitialized d;
     reportedPlacementErrors := reportedPlacementErrors d;
     formBuilders := formBuilders d; config := config d; world := world d;
     timers := timers d; generated := generated d |}.
Definition set_reportedPlacementErrors x (d : data) : data :=
  {| placements := placements d; user := user d;
     currentPaymentProviders := currentPaymentProviders d;
     _currentProducts := _currentProducts d; _currentPlacement := _currentPlacement d;
     _currentPaywall := _currentPaywall d; _currentBundle := _currentBundle d;
     userID := userID d; eventQueue := eventQueue d; isInitialized := isInitialized d;
     reportedPlacementErrors := x;
     formBuilders := formBuilders d; config := config d; world := world d;
     timers := timers d; generated := generated d |}.
Definition set_formBuilders x (d : data) : data :=
  {| placements := placements d; user := user d;
     currentPaymentProviders := currentPaymentProviders d;
     _currentProducts := _currentProducts d; _currentPlacement := _currentPlacement d;
     _currentPaywall := _currentPaywall d; _currentBundle := _currentBundle d;
     userID := userID d; eventQueue := eventQueue d; isInitialized := isInitialized d;
     reportedPlacementErrors := reportedPlacementErrors d;
     formBuilders := x; config := config d; world := world d;
     timers := timers d; generated := generated d |}.
Definition set_world x (d : data) : data :=
  {| placements := placements d; user := user d;
     currentPaymentProviders := currentPaymentProviders d;
     _currentProducts := _currentProducts d; _currentPlacement := _currentPlacement d;
     _currentPaywall := _currentPaywall d; _currentBundle := _currentBundle d;
     userID := userID d; eventQueue := eventQueue d; isInitialized := isInitialized d;
     reportedPlacementErrors := reportedPlacementErrors d;
     formBuilders := formBuilders d; config := config d; world := x;
     timers := timers d; generated := generated d |}.
Definition set_timers x (d : data) : data :=
  {| placements := placements d; user := user d;
     currentPaymentProviders := currentPaymentProviders d;
     _currentProducts := _currentProducts d; _currentPlacement := _currentPlacement d;
     _currentPaywall := _currentPaywall d; _currentBundle := _currentBundle d;
     userID := userID d; eventQueue := eventQueue d; isInitialized := isInitialized d;
     reportedPlacementErrors := reportedPlacementErrors d;
     formBuilders := formBuilders d; config := config d; world := world d;
     timers := x; generated := generated d |}.
Definition set_generated x (d : data) : data :=
  {| placements := placements d; user := user d;
     currentPaymentProviders := currentPaymentProviders d;
     _currentProducts := _currentProducts d; _currentPlacement := _currentPlacement d;
     _currentPaywall := _currentPaywall d; _currentBundle := _currentBundle d;
     userID := userID d; eventQueue := eventQueue d; isInitialized := isInitialized d;
     reportedPlacementErrors := reportedPlacementErrors d;
     formBuilders := formBuilders d; config := config d; world := world d;
     timers := timers d; generated := x |}.

Definition env (d : data) : Env.t := Builder.env (world d).
Definition set_env (e : Env.t) (d : data) : data :=
  set_world (Builder.set_env e (world d)) d.
Definition does (x : effect) (d : data) : data := set_env (Env.does x (env d)) d.

(** logError(message, report) *)
Definition logError (m : message) (report : bool) (d : data) : data :=
  does (LogError m report) d.

(** private emit(eventName, event): the listeners of the page are not
    part of the model; the emission is recorded. *)
Definition emit (eventName : jsstring) (event : payload) (d : data) : data :=
  does (Emit eventName event) d.

(** private checkInitialization() *)
Definition checkInitialization (d : data) : data :=
  if isInitialized d then d
  else logError (Msg (js "Apphud SDK not initialized")) true d.

(** ** The resolver *)

(** private findPlacementByID(id) *)
Definition findPlacementByID (id : jsstring) (d : data) : option Placement.t * data :=
  let placement :=
    List.find (fun elm => bool_decide (Placement.identifier elm = id)) (placements d) in
  match placement with
  | Some _ => (placement, d)
  | None =>
      if bool_decide (id ∈ reportedPlacementErrors d) then (placement, d)
      else
        let existingIdentifiers := map Placement.identifier (placements d) in
        let d := set_reportedPlacementErrors ({[id]} ∪ reportedPlacementErrors d) d in
        (placement, logError (PlacementNotFound id existingIdentifiers) true d)
  end.

(** The body of the loop of [updateProductsAndProviders], for one
    product of the bundle. *)
Definition processProduct (paymentProviders : list PaymentProvider.t) (d : data)
    (product : Product.t) : data :=
  let requiredStore := Product.store product in
  let compatibleProvider :=
    List.find (fun provider => bool_decide (PaymentProvider.kind provider = requiredStore))
      paymentProviders in
  match compatibleProvider with
  | Some provider =>
      set_maps (JSMap.set (_currentProducts d) requiredStore product)
        (JSMap.set (currentPaymentProviders d) requiredStore provider) d
  | None =>
      logError
        (Msg (js "No compatible payment provider found for store type: " ++ requiredStore))
        true d
  end.

(** private updateProductsAndProviders(bundle, paymentProviders) *)
Definition updateProductsAndProviders (bundle : ProductBundle.t)
    (paymentProviders : list PaymentProvider.t) (d : data) : bool * data :=
  (* Clear existing maps *)
  let d := set_maps (JSMap.clear (_currentProducts d))
             (JSMap.clear (currentPaymentProviders d)) d in
  (* Process all products in the bundle *)
  let d := fold_left (processProduct paymentProviders) (ProductBundle.products bundle) d in
  if (JSMap.size (currentPaymentProviders d) =? 0)%nat then
    (false,
     logError (Msg (js "No compatible payment providers found for any products in the bundle"))
       true d)
  else (true, d).

Definition user_payment_providers (d : data) : list PaymentProvider.t :=
  default [] (user d ≫= User.payment_providers).

Definition macrosToCheck : list jsstring :=
  [js "new-price"; js "old-price"; js "full-price"; js "discount"; js "duration";
   js "custom-1"; js "custom-2"; js "custom-3"].

(** private setCurrentItems(placementID, bundleIndex) *)
Definition setCurrentItems (placementID : jsstring) (bundleIndex : number) (d : data)
    : data :=
  let '(placement, d) := findPlacementByID placementID d in
  let d := set_currentPlacement placement d in
  match placement with
  | Some p =>
      match Placement.paywalls p with
      | [] => d
      | paywall :: _ =>
          let d := set_currentPaywall (Some paywall) d in
          match index (Paywall.items_v2 paywall) bundleIndex with
          | None => d
          | Some bundle =>
              let d := set_currentBundle (Some bundle) d in
              (* Check for required price macros *)
              let d :=
                match ProductBundle.properties bundle with
                | Some properties =>
                    let hasPriceMacros :=
                      existsb (fun langProps =>
                                 existsb (fun macro => truthy (dict_get langProps macro))
                                   macrosToCheck)
                        (map snd properties) in
                    if hasPriceMacros then d
                    else logError
                           (Msg (js "Placement with identifier " ++ [34] ++ placementID ++ [34]
                                 ++ js " was requested and found, but price macros are missing."))
                           true d
                | None => d
                end in
              match ProductBundle.products bundle with
              | [] => logError (Msg (js "Bundle contains no products")) true d
              | _ :: _ => snd (updateProductsAndProviders bundle (user_payment_providers d) d)
              end
          end
      end
  | None => d
  end.

(** public currentProduct(): the first available product. *)
Definition currentProduct (d : data) : option Product.t :=
  head (JSMap.values (_currentProducts d)).

(** public selectPlacementProduct(placementID, bundleIndex) *)
Definition selectPlacementProduct (placementID : jsstring) (bundleIndex : number)
    (d : data) : data :=
  let d := checkInitialization d in
  let '(placement, d) := findPlacementByID placementID d in
  match placement ≫= (fun p => head (Placement.paywalls p)) with
  | None =>
      logError (Msg (js "No placement or paywall found for ID: " ++ placementID)) true d
  | Some paywall =>
      match index (Paywall.items_v2 paywall) bundleIndex with
      | None =>
          logError (Msg (js "No product bundle found at index: " ++ toString bundleIndex))
            true d
      | Some selectedBundle =>
          let '(success, d) :=
            updateProductsAndProviders selectedBundle (user_payment_providers d) d in
          if negb success then
            logError (Msg (js "Failed to set up payment providers for selected bundle"))
              true d
          else
            let d := setCurrentItems placementID bundleIndex d in
            let d := set_env
                       (Env.setCookie SelectedBundleIndex
                          (Text (placementID ++ js "," ++ toString bundleIndex)) (env d)) d in
            emit (js "product_changed") (ProductChanged (currentProduct d)) d
      end
  end.

(** The result of [getSavedPlacementBundleIndex]. *)
Record saved := Saved {
  placementID : option jsstring;
  bundleIndex : number
}.

(** public getSavedPlacementBundleIndex() *)
Definition getSavedPlacementBundleIndex (d : data) : saved :=
  match Env.getCookie SelectedBundleIndex (env d) with
  | Some (Text savedIndices) =>
      match map trim (split 44 savedIndices) with
      | [a; b] => {| placementID := Some a; bundleIndex := parseInt b |}
      | _ => {| placementID := None; bundleIndex := Num 0 |}
      end
  | _ => {| placementID := None; bundleIndex := Num 0 |}
  end.

(** public currentPlacement() / currentPaywall() *)
Definition currentPlacement (d : data) : option Placement.t :=
  match _currentPlacement d with
  | Some p => Some p
  | None => head (placements d)
  end.

Definition currentPaywall (d : data) : option Paywall.t :=
  match _currentPaywall d with
  | Some p => Some p
  | None => currentPlacement d ≫= (fun p => head (Placement.paywalls p))
  end.

(** public currentProductForProvider(provider) *)
Definition currentProductForProvider (provider : jsstring) (d : data) : option Product.t :=
  JSMap.get (_currentProducts d) provider.

(** public getUserID() *)
Definition getUserID (d : data) : option jsstring :=
  if bool_decide (is_Some (userID d)) && Config.disableCookies (config d) then userID d
  else
    let cookieKey := if Config.debug (config d) then DebugUserIdKey else ProductionUserIdKey in
    match Env.getCookie cookieKey (env d) with
    | Some (Text (c :: uid)) => Some (c :: uid)
    | _ => None
    end.

(** ** The closures handed to [ready]

    Each constructor describes one closure of the class, with the
    variables it captures. *)
Inductive ApphudFunc :=
  | TrackClosure (event : EventData.t) (refreshPlacements : bool)        (* in track *)
  | TrackEventClosure (event : EventData.t) (refreshPlacements : bool)   (* in trackEvent *)
  | PaymentFormClosure (options : Options.t) (product : option jsstring) (* in paymentForm *)
  | SetPlacementsAndProductsClosure                                      (* in setPlacementsAndProducts *)
  | SetPaymentProviderClosure (preferredProvider : option jsstring).     (* in setPaymentProvider *)

(** Events made by [track] carry an [insert_id] and no [id]. *)
Definition made_by_track (event : EventData.t) : Prop := EventData.id event = None.

(** The whole instance: the gate around the other fields. *)
Abbreviation t := (Gate.t ApphudFunc data).

Definition lift (f : data -> data) (g : t) : t := Gate.set_self (f (Gate.self g)) g.

(** An [async] closure seen by its caller: the call returns a promise
    and throws nothing. *)
Definition async (f : t -> t) (g : t) : t * option error := (f g, None).

(** private saveEventQueue(); [canStringify] holds in a browser.
    [JSON.stringify(this.eventQueue)] throws when it does not accept one
    of the events, and nothing in [saveEventQueue] catches it: the second
    component is what the method throws, if it throws. *)
Definition saveEventQueue (d : data) : data * option error :=
  if forallb EventData.stringifies (eventQueue d)
  then (set_env (Env.setCookie EventsKey (Json (eventQueue d)) (env d)) d, None)
  else (d, Some (Error (js "TypeError"))).

(** The closure of [track]: queue the event, persist the queue and set
    the timer that will send it. When [saveEventQueue] throws the closure
    throws with it: the event is in the queue and no timer is set. *)
Definition track_closure (event : EventData.t) (refreshPlacements : bool) (g : t)
    : t * option error :=
  let d := Gate.self g in
  let event := EventData.set_ids (getUserID d) event in
  let d := set_eventQueue (eventQueue d ++ [event]) d in
  match saveEventQueue d with
  | (d, Some err) => (Gate.set_self d g, Some err)
  | (d, None) =>
      (Gate.set_self (set_timers (timers d ++ [(event, refreshPlacements)]) d) g, None)
  end.

(** The closure of [trackEvent]: the create-event request leaves. The
    request carries the event and its two ids. [eventData] deletes the
    two ids from the event object, which is the entry of the event queue:
    copies of the queue persisted later carry the entry without them.
    The SDK compares entries by [id] only, and the model leaves the two
    ids in place. *)
Definition trackEvent_closure (event : EventData.t) (refreshPlacements : bool) : t -> t :=
  lift (does (Call (CreateEvent event))).

(** private trackEvent(event, refreshPlacements) *)
Definition trackEvent (event : EventData.t) (refreshPlacements : bool) (g : t) : t :=
  fst (Gate.ready (TrackEventClosure event refreshPlacements)
         (async (trackEvent_closure event refreshPlacements)) g).

(** [arr.splice(i, 1)] at the first [i] whose element satisfies [p]. *)
Fixpoint splice_first {A} (p : A -> bool) (arr : list A) : list A :=
  match arr with
  | [] => []
  | x :: r => if p x then r else x :: splice_first p r
  end.

(** The fulfilment handler of [api.createEvent(...)] in [trackEvent]:
    remove from queue and save. (The handler goes on with
    [initializeApp], which removes nothing from the event queue.) The
    promise made by [then] has no handler: when [saveEventQueue] throws,
    the handler ends there with an unhandled rejection. *)
Definition trackEvent_then (event : EventData.t) : t -> t :=
  lift (fun d =>
          let d := set_eventQueue
                     (splice_first
                        (fun queued => bool_decide (EventData.id queued = EventData.id event))
                        (eventQueue d)) d in
          match saveEventQueue d with
          | (d, None) => d
          | (d, Some err) => does (UnhandledRejection err) d
          end).

(** The timer set by the closure of [track] fires. *)
Definition timer_fires (g : t) : t :=
  match timers (Gate.self g) with
  | [] => g
  | (event, refreshPlacements) :: rest =>
      trackEvent event refreshPlacements (lift (set_timers rest) g)
  end.

(** u.generateId(): ids are told apart by the order they are made in. *)
Definition generateId (d : data) : jsstring * data :=
  (js "id-" ++ digits (N.of_nat (generated d)), set_generated (S (generated d)) d).

(** public track(name, properties, userProperties, refreshPlacements).
    [properties] and [userProperties] may be left out ([properties || {}]).
    The result is what the call returns, or what it throws: on an open
    gate the closure runs inside the call. *)
Definition track (name : jsstring) (properties userProperties : option ApphudHash.t)
    (refreshPlacements : bool) (g : t) : t * outcome bool :=
  let g := lift checkInitialization g in
  let '(insert_id, d) := generateId (Gate.self g) in
  let g := Gate.set_self d g in
  let event := {| EventData.id := None; EventData.name := name;
                  EventData.properties := default ApphudHash.empty properties;
                  EventData.user_properties := default ApphudHash.empty userProperties;
                  EventData.insert_id := Some insert_id;
                  EventData.device_id := None; EventData.user_id := None |} in
  match Gate.ready (TrackClosure event refreshPlacements)
          (track_closure event refreshPlacements) g with
  | (g, None) => (g, Returns true)
  | (g, Some err) => (g, Throws err)
  end.

(** private async createUser(params, ready), up to its request. The
    first statement is [this.isReady = ready]. Of [params] the email is
    kept. *)
Definition createUser_start (email : option jsstring) (ready : bool) (g : t) : t :=
  let g := Gate.set_isReady ready g in
  if truthy (userID (Gate.self g))
  then lift (does (Call (CreateUser (default [] (userID (Gate.self g))) email))) g
  else lift (logError (Msg (js "User ID not available. Make sure init() was called first."))
               true) g.

(** public async setEmail(email), up to the request of [createUser]. *)
Definition setEmail_start (email : jsstring) (g : t) : t :=
  createUser_start (Some email) true (lift checkInitialization g).

(** The rest of [setEmail], once [createUser] has settled with [r]. *)
Definition setEmail_resume (r : settled (option User.t)) (g : t) : t * settled unit :=
  match r with
  | Rejected err => (g, Rejected err)
  | Fulfilled None => (g, Fulfilled ())
  | Fulfilled (Some usr) => (lift (set_user (Some usr)) g, Fulfilled ())
  end.

(** private async initializeApp(initial, true), up to the request of
    [createUser(null, false)]. *)
Definition initializeApp_start (g : t) : t := createUser_start None false g.

(** init(options), the part that pushes the events of the persisted
    queue again. *)
Definition init_events (g : t) : t :=
  match Env.getCookie EventsKey (env (Gate.self g)) with
  | Some (Text _) => lift (logError (Msg (js "SyntaxError")) false) g
  | Some (Json events) =>
      fold_left (fun g event => trackEvent event false g) events
        (lift (set_eventQueue events) g)
  | None => lift (set_eventQueue []) g
  end.

(** The options of [init] that the model of the configuration holds.
    A field that is absent leaves the configuration value as it is. *)
Module InitOptions.
Record t := mk {
  apiKey : jsstring;
  debug : option bool;
  disableCookies : option bool
}.
End InitOptions.

Definition placeholderKeys : list jsstring :=
  [js "your_api_key"; js "your_api_key_here"; js "YOUR-APPHUD-FLOW-KEY"].

(** The loop of [init] that copies the own properties of [options] into
    [config]. *)
Definition configure (options : InitOptions.t) (c : Config.t) : Config.t :=
  {| Config.debug := default (Config.debug c) (InitOptions.debug options);
     Config.disableCookies := default (Config.disableCookies c)
                                (InitOptions.disableCookies options) |}.

(** [getCookie(key)] as the string it returns, [null] being [None]. *)
Definition cookieText (k : cookie_key) (d : data) : option jsstring :=
  match Env.getCookie k (env d) with
  | Some (Text s) => Some s
  | _ => None
  end.

(** public async init(options), up to [await generateSHA256(this.userID)].
    [websiteVersion] is the value of [config.websiteVersion] once the
    options are copied. After the [await], and once the document is
    ready, [init] goes on with [initializeApp(true, true)]. *)
Definition init (options : InitOptions.t) (websiteVersion : jsstring) (g : t) : t :=
  if bool_decide (InitOptions.apiKey options ∈ placeholderKeys) then
    lift (logError
            (Msg (js "You did not provide API Key for Web SDK. Check script tags inside body tag. Learn more: https://docs.apphud.com/docs/flow-builder"))
            true) g
  else
    let g := lift (fun d => set_config (configure options (config d)) d) g in
    (* push events from queue *)
    let g := init_events g in
    let g := lift (set_isInitialized true) g in
    lift (fun d =>
            let cookieKey :=
              if Config.debug (config d) then DebugUserIdKey else ProductionUserIdKey in
            let d := set_userID (match cookieText cookieKey d with
                                 | Some (c :: uid) => Some (c :: uid)
                                 | _ => None
                                 end) d in
            if truthy (userID d) then d
            else
              let '(id, d) := generateId d in
              let d := set_userID (Some id) d in
              if negb (Config.disableCookies (config d)) then
                let d := if negb (truthy (cookieText StartAppVersionKey d))
                         then set_env (Env.setCookie StartAppVersionKey (Text websiteVersion)
                                         (env d)) d
                         else d in
                set_env (Env.setCookie cookieKey (Text id) (env d)) d
              else d) g.

(** The closure of [setPlacementsAndProducts]. *)
Definition setPlacementsAndProducts_closure : t -> t :=
  lift (fun d =>
          let d := set_placements (default [] (user d ≫= User.placements)) d in
          let saved := getSavedPlacementBundleIndex d in
          if truthy (placementID saved)
          then setCurrentItems (default [] (placementID saved)) (bundleIndex saved) d
          else d).

(** The closure of [setPaymentProvider]. *)
Definition setPaymentProvider_closure (preferredProvider : option jsstring) : t -> t :=
  lift (fun d =>
          match user_payment_providers d, _currentBundle d with
          | _ :: _, Some currentBundle =>
              let '(success, d) :=
                updateProductsAndProviders currentBundle (user_payment_providers d) d in
              match success, preferredProvider ≫= JSMap.get (currentPaymentProviders d) with
              | true, Some provider =>
                  if truthy preferredProvider
                  then emit (js "payment_provider_changed") (ProviderChanged provider) d
                  else d
              | _, _ => d
              end
          | _, _ => d
          end).

(** The closure of [paymentForm], first task: from its start to the
    first request of [builder.show]. The closure is [async] and nothing
    awaits or catches its promise: a rejection is unhandled. *)
Definition paymentForm_closure (options : Options.t) (product : option jsstring)
    (g : t) : t :=
  let d := Gate.self g in
  (* Get the appropriate payment provider *)
  let target : option PaymentProvider.t + data :=
    if truthy (Options.paymentProvider options) then
      let requested := default [] (Options.paymentProvider options) in
      match JSMap.get (currentPaymentProviders d) requested with
      | Some provider => inl (Some provider)
      | None =>
          let d := logError (Msg (js "Requested payment provider " ++ requested
                                  ++ js " not available")) true d in
          inr (emit (requested ++ js "_not_found")
                 (ProviderNotFound requested (JSMap.keys (currentPaymentProviders d))) d)
      end
    else inl (head (JSMap.values (currentPaymentProviders d))) in
  match target with
  | inr d => Gate.set_self d g
  | inl None => lift (logError (Msg (js "No payment provider available")) true) g
  | inl (Some targetProvider) =>
      match currentProductForProvider (PaymentProvider.kind targetProvider) d,
            currentPaywall d, currentPlacement d with
      | None, _, _ => lift (logError (Msg (js "Payment form: product is required")) true) g
      | _, None, _ => lift (logError (Msg (js "Payment form: paywall is required")) true) g
      | _, _, None => lift (logError (Msg (js "Payment form: placement is required")) true) g
      | Some targetProduct, Some paywall, Some placement =>
          let productId :=
            if truthy product then default [] product
            else Product.base_plan_id targetProduct in
          if negb (truthy (Some productId)) then
            lift (logError
                    (Msg (js "Unable to initialize the payment form because the product is absent."))
                    true) g
          else
            match user d with
            | None => lift (logError (Msg (js "Payment form: no user")) true) g
            | Some usr =>
                (* Initialize FormBuilder if it doesn't exist *)
                let builder :=
                  default (Builder.new targetProvider usr)
                    (JSMap.get (formBuilders d) (PaymentProvider.id targetProvider)) in
                let builder := Builder.on (js "payment_form_initialized") builder in
                let builder := Builder.on (js "payment_form_ready") builder in
                (* the properties are the two ids: { paywall_id, placement_id } *)
                let '(g, tracked) :=
                  match _currentPaywall d, _currentPlacement d with
                  | Some _, Some _ =>
                      track (js "paywall_checkout_initiated") (Some ApphudHash.empty)
                        (Some ApphudHash.empty) false g
                  | _, _ =>
                      (lift (logError
                               (Msg (js "Unable to track the " ++ [34]
                                     ++ js "paywall_checkout_initiated" ++ [34]
                                     ++ js " event: either paywall_id or placement_id is empty."))
                               true) g, Returns true)
                  end in
                let store builder d :=
                  set_formBuilders
                    (JSMap.set (formBuilders d) (PaymentProvider.id targetProvider) builder) d in
                match tracked with
                | Throws err =>
                    (* [track] threw: the closure ends here *)
                    lift (fun d => does (UnhandledRejection err) (store builder d)) g
                | Returns _ =>
                    let builder := Builder.on (js "payment_failure") builder in
                    let builder := Builder.on (js "payment_success") builder in
                    let d := Gate.self g in
                    let '(builder, w, p) :=
                      Builder.show_start productId (Some (Paywall.id paywall))
                        (Some (Placement.id placement)) options (_currentBundle d)
                        builder (world d) in
                    let d := set_world w d in
                    let d := store builder d in
                    let d := match p with
                             | Builder.Settled (Rejected err) => does (UnhandledRejection err) d
                             | _ => d
                             end in
                    Gate.set_self d g
                end
            end
      end
  end.

(** The closure of [paymentForm], second task: the request that
    [builder.show] of form [ref] waits for has been answered by [r]. *)
Definition paymentForm_resume (u : Utils.t) (ref : nat) (options : Options.t)
    (r : Builder.response) : t -> t :=
  lift (fun d =>
          let '(w, s) := Builder.show_resume u ref options r (world d) in
          let d := set_world w d in
          match s with
          | Rejected err => does (UnhandledRejection err) d
          | Fulfilled _ => d
          end).

(** public paymentForm(options, product) *)
Definition paymentForm (options : Options.t) (product : option jsstring) (g : t) : t :=
  let g := lift checkInitialization g in
  fst (Gate.ready (PaymentFormClosure options product)
         (async (paymentForm_closure options product)) g).

(** [callback()] for each closure. The closures of [trackEvent] and
    [paymentForm] are [async]; those of [setPlacementsAndProducts] and
    [setPaymentProvider] have no statement that throws in the model. *)
Definition call (f : ApphudFunc) : t -> t * option error :=
  match f with
  | TrackClosure event refreshPlacements => track_closure event refreshPlacements
  | TrackEventClosure event refreshPlacements =>
      async (trackEvent_closure event refreshPlacements)
  | PaymentFormClosure options product => async (paymentForm_closure options product)
  | SetPlacementsAndProductsClosure => fun g => (setPlacementsAndProducts_closure g, None)
  | SetPaymentProviderClosure preferredProvider =>
      fun g => (setPaymentProvider_closure preferredProvider g, None)
  end.

(** private setReady(initial) *)
Definition setReady (initial : bool) (fuel : nat) (g : t) : option (t * option error) :=
  Gate.setReady call (emit (js "ready") SdkReady) initial fuel g.

(** The effects that happened between two states of the instance. *)
Definition added (g g' : t) : list effect :=
  drop (length (Env.trace (env (Gate.self g)))) (Env.trace (env (Gate.self g'))).

End SDK.

(** ** The session: reset, deep link, page loads and variables of the page *)

Module Session.
Import SDK.

(** [deleteCookie(key)] on the cookies of the page. *)
Definition deleteCookie (k : cookie_key) (d : data) : data :=
  set_env (Env.set_cookies (Cookies.deleteCookie k (Env.cookies (env d))) (env d)) d.

(** public reset() *)
Definition reset (d : data) : data * bool :=
  let d := checkInitialization d in
  let d := deleteCookie ProductionUserIdKey d in
  let d := deleteCookie DebugUserIdKey d in
  let d := deleteCookie EventsKey d in
  (d, true).

(** public getDeepLink() *)
Definition getDeepLink (d : data) : option jsstring * data :=
  let d := checkInitialization d in
  (cookieText DeepLinkURL d, d).

(** public getSuccessURL(); [baseSuccessURL] is [config.baseSuccessURL]. *)
Definition getSuccessURL (baseSuccessURL : jsstring) (d : data) : jsstring * data :=
  let d := checkInitialization d in
  let '(deepLink, d) := getDeepLink d in
  (if truthy deepLink then baseSuccessURL ++ js "/" ++ default [] deepLink
   else baseSuccessURL, d).

(** A page load: a new instance on the same page, with the cookies the
    browser kept. *)
Definition reload (doc : gset jsstring) (cookies : Cookies.store) : SDK.t :=
  {| Gate.isReady := false; Gate.queue := [];
     Gate.self := set_env (Env.set_cookies cookies (Env.initial doc)) (SDK.new doc) |}.

(** ** Variables of the page *)

(** Placement lookups are also made with [undefined] for an identifier.
    [reportedPlacementErrors] then holds [undefined]; the instance is
    kept together with this fact. *)
Record reader := Reader {
  sdk : data;
  undefinedReported : bool
}.

(** private findPlacementByID(id), for an identifier that may be
    [undefined]. No placement has an undefined identifier. *)
Definition findPlacement (id : option jsstring) (r : reader) : option Placement.t * reader :=
  match id with
  | Some id =>
      let '(placement, d) := findPlacementByID id (sdk r) in
      (placement, {| sdk := d; undefinedReported := undefinedReported r |})
  | None =>
      if undefinedReported r then (None, r)
      else
        let existingIdentifiers := map Placement.identifier (placements (sdk r)) in
        (None,
         {| sdk := logError (PlacementNotFound (js "undefined") existingIdentifiers) true (sdk r);
            undefinedReported := true |})
  end.

(** [bundleIndex < 0] *)
Definition negative (i : number) : bool :=
  match i with
  | NaN => false
  | Num z => (z <? 0)%Z
  end.

(** public readVariableValueByKeyPath(key) *)
Definition readVariableValueByKeyPath (u : Utils.t) (key : jsstring) (r : reader)
    : outcome (option jsstring) * reader :=
  let keyArr := map trim (split 44 key) in
  (* last element of string '0,1,path.to.var' *)
  let path := default [] (last keyArr) in
  let saved := getSavedPlacementBundleIndex (sdk r) in
  let '(placementID, bundleIndex) :=
    match keyArr with
    | [a; b; _] =>
        if negative (parseInt b) then (SDK.placementID saved, SDK.bundleIndex saved)
        else (Some a, parseInt b)
    | [_] => (SDK.placementID saved, SDK.bundleIndex saved)
    | _ => (None, Num 0)
    end in
  let '(placement, r) := findPlacement placementID r in
  match placement with
  | None => (Returns None, r)
  | Some placement =>
      match head (Placement.paywalls placement) with
      | None => (Throws (Error (js "TypeError")), r)      (* paywall!.items_v2 *)
      | Some paywall =>
          match index (Paywall.items_v2 paywall) bundleIndex with
          | Some bundle =>
              match ProductBundle.properties bundle with
              | Some properties => (Returns (Utils.getValueByPath u properties path), r)
              | None => (Returns None, r)
              end
          | None => (Returns None, r)
          end
      end
  end.

End Session.

(** ** Lifecycle listeners ([on] and [emit] of core/index.ts) *)

Module Lifecycle.
(** private events: LifecycleEvents = {}: the own properties of the
    object, with the array each one holds. [Name] is [LifecycleEventName],
    a union of string literals; callbacks are functions, known by the
    number they got when they were created. *)
Abbreviation events Name := (list (Name * list nat)).

Section Registry.
Context {Name : Type} `{EqDecision Name}.
Implicit Types ev : events Name.

Definition get ev (eventName : Name) : option (list nat) :=
  snd <$> List.find (fun kv => bool_decide (fst kv = eventName)) ev.

Fixpoint put ev (eventName : Name) (callbacks : list nat) : events Name :=
  match ev with
  | [] => [(eventName, callbacks)]
  | (n, cbs) :: rest =>
      if bool_decide (n = eventName) then (eventName, callbacks) :: rest
      else (n, cbs) :: put rest eventName callbacks
  end.

Definition delete ev (eventName : Name) : events Name :=
  filter (fun kv => fst kv <> eventName) ev.

(** public on(eventName, callback), the registration. *)
Definition on (eventName : Name) (callback : nat) ev : events Name :=
  put ev eventName (default [] (get ev eventName) ++ [callback]).

(** The function returned by [on]. *)
Definition unsubscribe (eventName : Name) (callback : nat) ev : events Name :=
  match get ev eventName with
  | Some callbacks =>
      let kept := filter (fun cb => cb <> callback) callbacks in
      if (length kept =? 0)%nat then delete ev eventName
      else put ev eventName kept
  | None => ev
  end.

(** private emit(eventName, event): the callbacks called, in order. *)
Definition emit (eventName : Name) ev : list nat :=
  default [] (get ev eventName).

(** No property holds an empty array, and no name is there twice. *)
Definition well_formed ev : Prop :=
  NoDup (map fst ev) /\ Forall (fun kv => snd kv <> []) ev.
End Registry.
End Lifecycle.

(* ===================================================================== *)
(** * Vocabulary of the statements *)
(* ===================================================================== *)

(** ** Selection: what is selected, and why a selection fails *)

Module Selection.
Import SDK.

(** The provider that [updateProductsAndProviders] takes for a store: the
    first one of that kind. *)
Abbreviation provider_for providers k :=
  (List.find (fun provider => bool_decide (PaymentProvider.kind provider = k)) providers).

(** The previously-selected state: the three pointers, the two maps
    keyed by provider kind, and the persisted selection. *)
Record t := mk {
  placement : option Placement.t;
  paywall : option Paywall.t;
  bundle : option ProductBundle.t;
  products : JSMap.t Product.t;
  providers : JSMap.t PaymentProvider.t;
  cookie : option cookie_value
}.

Definition current (d : data) : t :=
  {| placement := _currentPlacement d; paywall := _currentPaywall d;
     bundle := _currentBundle d; products := _currentProducts d;
     providers := currentPaymentProviders d;
     cookie := Env.getCookie SelectedBundleIndex (env d) |}.

(** Is there an enabled provider for the store of this product. *)
Definition compatible (d : data) (product : Product.t) : bool :=
  bool_decide (is_Some (List.find
                          (fun provider =>
                             bool_decide (PaymentProvider.kind provider = Product.store product))
                          (user_payment_providers d))).

(** The two maps keyed by provider kind. *)
Definition maps (d : data) := (_currentProducts d, currentPaymentProviders d).

(** The reasons for which [selectPlacementProduct] gives up, in the
    order it meets them. An empty bundle has no compatible provider. *)
Inductive failure :=
  | UnknownPlacement
  | NoPaywall
  | BundleOutOfRange
  | NoCompatibleProvider.

#[export] Instance failure_eq_dec : EqDecision failure.
Proof. solve_decision. Defined.

Definition diagnose (d : data) (placementID : jsstring) (bundleIndex : number)
    : option failure :=
  match List.find (fun elm => bool_decide (Placement.identifier elm = placementID))
          (placements d) with
  | None => Some UnknownPlacement
  | Some p =>
      match Placement.paywalls p with
      | [] => Some NoPaywall
      | paywall :: _ =>
          match index (Paywall.items_v2 paywall) bundleIndex with
          | None => Some BundleOutOfRange
          | Some b =>
              if existsb (compatible d) (ProductBundle.products b) then None
              else Some NoCompatibleProvider
          end
      end
  end.

(** The statement that a failed selection leaves all of the selected
    state as it was. *)
Definition failed_selection_keeps_state : Prop :=
  forall d placementID bundleIndex reason,
    diagnose d placementID bundleIndex = Some reason ->
    current (selectPlacementProduct placementID bundleIndex d) = current d.

(** The statement that the pair persisted by a successful selection is
    read back as it was given, for every identifier without a comma. *)
Definition saved_pair_round_trips : Prop :=
  forall d placementID bundleIndex,
    44 ∉ placementID ->
    diagnose d placementID bundleIndex = None ->
    getSavedPlacementBundleIndex (selectPlacementProduct placementID bundleIndex d)
    = {| placementID := Some placementID; bundleIndex := bundleIndex |}.
End Selection.

(** ** The lifetime of an instance, as far as placement lookups go *)

Module Lifetime.
Import SDK.

(** The identifiers of the placement lookup failures logged and reported
    so far ([logError(errorMessage, true)]), oldest first. *)
Definition placement_reports (d : data) : list jsstring :=
  omap (fun x => match x with
                 | LogError (PlacementNotFound id _) true => Some id
                 | _ => None
                 end)
    (Env.trace (env d)).

(** The placement lookup failures logged without a report. *)
Definition placement_logs_unreported (d : data) : list jsstring :=
  omap (fun x => match x with
                 | LogError (PlacementNotFound id _) false => Some id
                 | _ => None
                 end)
    (Env.trace (env d)).

(** What happens to an instance between its creation and a lookup: the
    placements are replaced after a catalog fetch, and placements are
    looked up, directly or by a selection. *)
Inductive op :=
  | Catalog (placements : list Placement.t)
  | Lookup (id : jsstring)
  | Select (placementID : jsstring) (bundleIndex : number)
  | SetItems (placementID : jsstring) (bundleIndex : number).

Definition step (d : data) (o : op) : data :=
  match o with
  | Catalog ps => set_placements ps d
  | Lookup id => snd (findPlacementByID id d)
  | Select id i => selectPlacementProduct id i d
  | SetItems id i => setCurrentItems id i d
  end.

Definition run (ops : list op) (d : data) : data := fold_left step ops d.

Definition missing (id : jsstring) (d : data) : Prop :=
  List.find (fun elm => bool_decide (Placement.identifier elm = id)) (placements d) = None.

(** What a placement lookup leaves alone: all that the resolver reads or
    persists, but for the identifiers reported. *)
Definition outside_reports (d : data) :=
  (placements d, user d, _currentPlacement d, _currentPaywall d, _currentBundle d,
   Env.cookies (env d), Selection.maps d).

(** The set of reported identifiers and the reports in the log. *)
Definition reports (d : data) := (reportedPlacementErrors d, placement_reports d).

(** The set and the log say the same, and the log has no identifier
    twice. *)
Definition consistent (d : data) : Prop :=
  NoDup (placement_reports d)
  /\ forall id, id ∈ reportedPlacementErrors d <-> id ∈ placement_reports d.

(** What the provider selector leaves alone: the same, but for the two
    maps. *)
Definition outside_maps (d : data) :=
  (placements d, user d, _currentPlacement d, _currentPaywall d, _currentBundle d,
   Env.cookies (env d), reportedPlacementErrors d, placement_reports d).
End Lifetime.

(** ** Events behind the gate and in the event queue *)

Module Readiness.
Import SDK.

(** The names of the events in the event queue, oldest first. *)
Definition outbox (g : t) : list jsstring :=
  map EventData.name (eventQueue (Gate.self g)).

(** The names of the events whose closure of [track] waits in the queue
    of the gate, oldest first. *)
Definition waiting (g : t) : list jsstring :=
  omap (fun f => match f with
                 | TrackClosure event _ => Some (EventData.name event)
                 | _ => None
                 end)
    (Gate.queue g).
End Readiness.

(** ** The result of [track] *)

Module Tracking.
Import SDK.

(** Does [JSON.stringify] accept the event queue of the instance
    together with a new event of these properties. *)
Definition serialisable (properties userProperties : option ApphudHash.t) (g : t) : bool :=
  forallb EventData.stringifies (eventQueue (Gate.self g))
  && ApphudHash.stringifies (default ApphudHash.empty properties)
  && ApphudHash.stringifies (default ApphudHash.empty userProperties).

(** The statement that [track] returns [true] on every initialized
    instance, whatever the gate. *)
Definition track_always_returns_true : Prop :=
  forall name properties userProperties refreshPlacements (g : t),
    isInitialized (Gate.self g) = true ->
    snd (track name properties userProperties refreshPlacements g) = Returns true.
End Tracking.

(** ** Submit listeners and the orchestrator *)

Module Orchestration.
Import Builder.

(** Submit listeners among the listeners of a page. *)
Definition submits (e : Env.t) : list listener :=
  filter (fun l => type l = js "submit") (Env.listeners e).

(** The key under which the card form of a Stripe orchestrator is kept. *)
Definition defaultKey : jsstring := js "stripe:default".

(** The submit listener a Stripe form holds, if it holds one. *)
Definition owned_by (f : Stripe.t) : list listener :=
  match Stripe.formElement f, Stripe.submitHandler f with
  | Some el, Some h => [Listener el (js "submit") h]
  | _, _ => []
  end.

(** The submit listener held by the form kept under [key]. *)
Definition held (key : jsstring) (b : Builder.t) (w : world) : list listener :=
  match JSMap.get (currentForms b) key with
  | Some ref =>
      match forms w !! ref with
      | Some (StripeForm f) => owned_by f
      | _ => []
      end
  | None => []
  end.

(** The submit listener held by the form kept under [defaultKey]. *)
Definition owned (b : Builder.t) (w : world) : list listener := held defaultKey b w.

(** An orchestrator and its page between two awaited calls: the submit
    listeners of the page are those of the form kept under [defaultKey];
    a Stripe form kept under another key holds none; the forms kept are
    alive, and no form is kept under two keys. *)
Record settled_state (b : Builder.t) (w : world) : Prop := {
  listeners_owned : submitListeners w = owned b w;
  others_hold_none :
    forall key ref f,
      key <> defaultKey -> JSMap.get (currentForms b) key = Some ref ->
      forms w !! ref = Some (StripeForm f) -> owned_by f = [];
  refs_alive :
    forall key ref, JSMap.get (currentForms b) key = Some ref -> (ref < length (forms w))%nat;
  refs_apart :
    forall k1 k2 ref,
      JSMap.get (currentForms b) k1 = Some ref -> JSMap.get (currentForms b) k2 = Some ref ->
      k1 = k2
}.

(** The page carries what the card form needs: the ids that [show]
    settles on for the submit button, the form element and the error
    slot are plain identifiers, and the page has the submit button and
    the form element. *)
Definition card_form_on_page (p : PaymentProvider.t) (u : User.t) (options : Options.t)
    (e : Env.t) : Prop :=
  let ids := Stripe.detect options (Stripe.new u p) e in
  CSS.plain_identifier (Stripe.ElementIDs.submit ids) = true
  /\ CSS.plain_identifier (Stripe.ElementIDs.form ids) = true
  /\ CSS.plain_identifier (Stripe.ElementIDs.error ids) = true
  /\ Stripe.ElementIDs.submit ids ∈ Env.document e
  /\ Stripe.ElementIDs.form ids ∈ Env.document e.

(** The statement that two calls of [show] in a row, with the same
    arguments, leave exactly one submit listener, for every orchestrator. *)
Definition show_twice_leaves_one_listener : Prop :=
  forall (u : Utils.t) (b : Builder.t) (w : world) productId paywallId placementId
         options bundle loaded1 loaded2 r1 r2,
    settled_state b w ->
    let '(b1, w1, _) :=
      show u productId paywallId placementId options bundle loaded1 r1 b w in
    let '(b2, w2, _) :=
      show u productId paywallId placementId options bundle loaded2 r2 b1 w1 in
    length (submitListeners w2) = 1%nat.
End Orchestration.

(** ** The order of effects in the checkout *)

(** The effects of the success handling of the checkout: the event
    "payment_success", and what [handleSuccessfulPayment] does, which
    writes cookies, tells Facebook Pixel and schedules the redirect. *)
Definition success_effect (x : effect) : bool :=
  match x with
  | SetCookie _ _ | FacebookPurchase _ | SetTimeout _ => true
  | Emit eventName _ => bool_decide (eventName = js "payment_success")
  | _ => false
  end.

(** ** Vocabulary for the submit handler of the card form *)

Module Checkout.
Import Stripe.

(** Effects that are neither success handling nor lifecycle events: logs,
    messages shown to the user, button states and requests. *)
Definition routine (x : effect) : bool :=
  match x with
  | LogError _ _ | DisplayError _ | ButtonState _ _ | Call _ => true
  | _ => false
  end.

(** Every step of a submission goes well: the Stripe library and its
    elements are there, the setup is confirmed, the form has its
    customer, the subscription is created, and the payment is confirmed
    if the subscription asks for it. *)
Definition every_step_succeeds (r_setup : setup_result)
    (r_sub : settled (option Subscription.t)) (r_confirm : option error) (f : t) : bool :=
  stripe f && elements f
  && match r_setup, customer f, r_sub with
     | SetupIntent _, Some _, Fulfilled (Some s) =>
         negb (truthy (Subscription.client_secret s))
         || match r_confirm with None => true | Some _ => false end
     | _, _, _ => false
     end.

(** The lookup of the error element of the form does not throw. *)
Abbreviation error_slot_answers f e :=
  (forall err, Env.querySelector (ElementIDs.error (elementIDs f)) e <> Throws err).

(** [e'] is the page [e] after routine effects only; no cookie was
    written meanwhile and the elements are the same. *)
Definition routinely (e e' : Env.t) : Prop :=
  exists xs, Env.trace e' = Env.trace e ++ xs
             /\ Forall (fun x => routine x = true) xs
             /\ Env.cookies e' = Env.cookies e
             /\ Env.page e' = Env.page e.
End Checkout.

(* ===================================================================== *)
(** * Sample data *)
(* ===================================================================== *)

Module Sample.
Import SDK.

Definition stripe : PaymentProvider.t :=
  {| PaymentProvider.id := js "pp_1"; PaymentProvider.identifier := js "acct_1";
     PaymentProvider.kind := js "stripe"; PaymentProvider.name := js "Stripe";
     PaymentProvider.token := Some (js "pk_test") |}.

Definition paddle : PaymentProvider.t :=
  {| PaymentProvider.id := js "pp_2"; PaymentProvider.identifier := js "seller_2";
     PaymentProvider.kind := js "paddle"; PaymentProvider.name := js "Paddle";
     PaymentProvider.token := Some (js "live_tok") |}.

Definition monthly : Product.t :=
  {| Product.id := js "p1"; Product.product_id := js "prod_monthly";
     Product.base_plan_id := js "price_monthly"; Product.name := js "Monthly";
     Product.store := js "stripe" |}.

Definition full : ProductBundle.t :=
  {| ProductBundle.id := js "b0"; ProductBundle.name := js "Monthly";
     ProductBundle.products := [monthly];
     ProductBundle.properties := Some [(js "en", [(js "new-price", js "$9.99")])] |}.

(** A bundle without products. *)
Definition hollow : ProductBundle.t :=
  {| ProductBundle.id := js "b1"; ProductBundle.name := js "Empty";
     ProductBundle.products := []; ProductBundle.properties := None |}.

(** A bundle without a property map. *)
Definition bare : ProductBundle.t :=
  {| ProductBundle.id := js "b2"; ProductBundle.name := js "Yearly";
     ProductBundle.products := [monthly]; ProductBundle.properties := None |}.

Definition paywall : Paywall.t :=
  {| Paywall.id := js "pw1"; Paywall.identifier := js "main_paywall";
     Paywall.items_v2 := [full; hollow; bare] |}.

Definition main : Placement.t :=
  {| Placement.id := js "pl1"; Placement.identifier := js "main";
     Placement.name := js "Main"; Placement.paywalls := [paywall] |}.

(** A placement whose identifier starts with a space. *)
Definition spaced : Placement.t :=
  {| Placement.id := js "pl2"; Placement.identifier := js " main";
     Placement.name := js "Main"; Placement.paywalls := [paywall] |}.

Definition visitor (providers : list PaymentProvider.t) : User.t :=
  {| User.id := js "u1"; User.user_id := js "visitor";
     User.placements := Some [main; spaced];
     User.payment_providers := Some providers |}.

(** An initialized instance after its catalog fetch, on a page with the
    elements [doc]. *)
Definition fetched (doc : gset jsstring) (providers : list PaymentProvider.t) : data :=
  {| placements := [main; spaced]; user := Some (visitor providers);
     currentPaymentProviders := []; _currentProducts := [];
     _currentPlacement := None; _currentPaywall := None; _currentBundle := None;
     userID := Some (js "visitor"); eventQueue := []; isInitialized := true;
     reportedPlacementErrors := ∅; formBuilders := []; config := Config.default;
     world := Builder.World (Env.initial doc) []; timers := []; generated := 0 |}.

(** The same instance with the first bundle of "main" selected. *)
Definition selected : data :=
  selectPlacementProduct (js "main") (Num 0) (fetched ∅ [stripe]).

(** A page with the old form: submit button, form, error slot, payment
    element and an Apple Pay button. *)
Definition page : gset jsstring :=
  {[ js "submit"; js "apphud-payment-form"; js "error-message"; js "payment-element";
     js "apphud-apple-pay-button" ]}.

(** The helpers of utils/, in a simple form: variables are read from the
    English properties and every price is 9.99. *)
Definition utils : Utils.t :=
  {| Utils.getValueByPath := fun properties path => dict_get properties (js "en") ≫=
                                                      (fun vars => dict_get vars path);
     Utils.priceInCents := fun _ => Some 999%Z;
     Utils.extractCurrencyFromPrice := fun _ defaultCode => defaultCode;
     Utils.baseSuccessURL := js "https://getapp.apphud.com" |}.

Definition customer : CustomerSetup.t :=
  {| CustomerSetup.id := js "cus_1"; CustomerSetup.client_secret := js "seti_secret" |}.

(** A subscription that asks for confirmation. *)
Definition subscription : Subscription.t :=
  {| Subscription.id := js "sub_1"; Subscription.client_secret := Some (js "cs_x");
     Subscription.deep_link := Some (js "link"); Subscription.customer_id := None |}.

(** Apple Pay requested, with no configuration. *)
Definition applePay : Options.t :=
  {| Options.paymentProvider := None; Options.successUrl := None; Options.onSuccess := false;
     Options.id := None; Options.buttonStateSetter := false; Options.applePay := true;
     Options.applePayConfig := None |}.

(** A Stripe form whose library has loaded, shown for [bundle], with its
    customer created. *)
Definition shown (bundle : ProductBundle.t) : Stripe.t :=
  Stripe.set_elements true
    (Stripe.set_customer (Some customer)
       (Stripe.set_submit (Some (js "submit"))
          (Stripe.set_shown (Some bundle) (js "price_monthly") (Some (js "pw1"))
             (Some (js "pl1")) false (Stripe.loaded (Stripe.new (visitor [stripe]) stripe))))).

(** A page with the new form and an Apple Pay button. *)
Definition page_new : gset jsstring :=
  {[ js "apphud-stripe-payment-form"; js "stripe-payment-element"; js "stripe-submit";
     js "stripe-error-message"; js "apphud-apple-pay-button" ]}.

(** The Apple Pay form shown for [bundle] by a new orchestrator on
    [page_new]: [show] starts, the Stripe library loads, the customer is
    created and [show] goes on to its end. *)
Definition apple_pay_shown (u : Utils.t) (bundle : ProductBundle.t) : Builder.world :=
  let '(_, w, _) :=
    Builder.show_start (js "price_monthly") (Some (js "pw1")) (Some (js "pl1")) applePay
      (Some bundle) (Builder.new stripe (visitor [stripe]))
      (Builder.World (Env.initial page_new) []) in
  fst (Builder.show_resume u 0 applePay (Builder.Customer (Fulfilled (Some customer)))
         (Builder.stripe_loaded 0 w)).

(** The instance on [page], ready, with the first bundle of "main"
    selected. *)
Definition ready (providers : list PaymentProvider.t) : SDK.t :=
  {| Gate.isReady := true; Gate.queue := [];
     Gate.self := selectPlacementProduct (js "main") (Num 0) (fetched page providers) |}.

(** Two events tracked in a row on a ready instance, both timers fired:
    both create-event requests are in flight. *)
Definition two_events_in_flight : SDK.t :=
  timer_fires (timer_fires
    (fst (track (js "b") (Some ApphudHash.empty) (Some ApphudHash.empty) false
            (fst (track (js "a") (Some ApphudHash.empty) (Some ApphudHash.empty) false
                    (ready [stripe])))))).

(** A hash that refers to itself ([h.self = h]): [JSON.stringify] throws
    on it. *)
Definition cyclic : ApphudHash.t := {| ApphudHash.stringifies := false |}.

(** A new instance on [page], and the options of its [init]. *)
Definition fresh : SDK.t :=
  {| Gate.isReady := false; Gate.queue := []; Gate.self := SDK.new page |}.

Definition key : InitOptions.t :=
  {| InitOptions.apiKey := js "app_key"; InitOptions.debug := None;
     InitOptions.disableCookies := None |}.


(** A provider of a kind the orchestrator does not know, and a bundle
    sold through it. *)
Definition paypal : PaymentProvider.t :=
  {| PaymentProvider.id := js "pp_3"; PaymentProvider.identifier := js "merchant_3";
     PaymentProvider.kind := js "paypal"; PaymentProvider.name := js "PayPal";
     PaymentProvider.token := None |}.
End Sample.

(* ===================================================================== *)
(** * Properties of the JavaScript primitives *)
(* ===================================================================== *)

Module JSFacts.

(** [lia] after naming the quotients and remainders apart. *)
Ltac divmod_lia :=
  repeat match goal with
         | |- context [N.modulo ?a ?b] => let m := fresh "m" in set (m := N.modulo a b) in *; clearbody m
         | H : context [N.modulo ?a ?b] |- _ => let m := fresh "m" in set (m := N.modulo a b) in *; clearbody m
         | |- context [N.div ?a ?b] => let q := fresh "q" in set (q := N.div a b) in *; clearbody q
         | H : context [N.div ?a ?b] |- _ => let q := fresh "q" in set (q := N.div a b) in *; clearbody q
         end; lia.

Lemma digit_value_decimal c : is_decimal c -> digit_value 10 c = Some (c - 48).
Proof.
  intros [H1 H2]. unfold digit_value.
  destruct (N.leb_spec 48 c); [|lia]. destruct (N.leb_spec c 57); [|lia]. simpl.
  destruct (N.ltb_spec (c - 48) 10); [done|lia].
Qed.

Lemma digits_aux_decimal fuel : forall n acc,
  Forall is_decimal acc -> Forall is_decimal (digits_aux fuel n acc).
Proof.
  induction fuel as [|fuel IH]; intros n acc Hacc; simpl; [done|].
  assert (is_decimal (48 + n mod 10)).
  { pose proof (N.mod_lt n 10 ltac:(lia)). unfold is_decimal. divmod_lia. }
  destruct (n <? 10); [by constructor|]. apply IH. by constructor.
Qed.

Lemma digits_aux_nonempty fuel n acc : digits_aux (S fuel) n acc <> [].
Proof.
  revert n acc. induction fuel as [|fuel IH]; intros n acc; simpl.
  - by destruct (n <? 10).
  - destruct (n <? 10); [done|]. apply (IH (n / 10)).
Qed.

Lemma digits_aux_S fuel n acc :
  digits_aux (S fuel) n acc
  = if n <? 10 then (48 + n mod 10) :: acc
    else digits_aux fuel (n / 10) ((48 + n mod 10) :: acc).
Proof. reflexivity. Qed.

(** Reading back the digits written by [digits_aux]. *)
Lemma parse_digits_aux fuel : forall n acc,
  n < 2 ^ N.of_nat fuel ->
  parse_digits 10 (digits_aux (S fuel) n acc) None = parse_digits 10 acc (Some n).
Proof.
  induction fuel as [|fuel IH]; intros n acc Hn.
  - assert (n = 0) as -> by (simpl in Hn; lia). reflexivity.
  - rewrite digits_aux_S. destruct (N.ltb_spec n 10) as [Hlt|Hge].
    + cbn [parse_digits]. rewrite digit_value_decimal
        by (unfold is_decimal; pose proof (N.mod_lt n 10 ltac:(lia)); divmod_lia).
      simpl default. f_equal. f_equal. rewrite N.mod_small by done. lia.
    + rewrite IH.
      * cbn [parse_digits]. rewrite digit_value_decimal
        by (unfold is_decimal; pose proof (N.mod_lt n 10 ltac:(lia)); divmod_lia).
        simpl default. f_equal. f_equal.
        pose proof (N.div_mod n 10 ltac:(lia)). divmod_lia.
      * rewrite Nat2N.inj_succ, N.pow_succ_r' in Hn.
        apply N.Div0.div_lt_upper_bound. lia.
Qed.

Lemma parse_digits_digits n : parse_digits 10 (digits n) None = Some n.
Proof.
  unfold digits. rewrite parse_digits_aux; [done|].
  rewrite N2Nat.id. apply N.size_gt.
Qed.

Lemma digits_decimal n : Forall is_decimal (digits n).
Proof. apply digits_aux_decimal. constructor. Qed.

Lemma decimal_not_whitespace c : is_decimal c -> is_whitespace c = false.
Proof.
  intros [H1 H2]. unfold is_whitespace.
  repeat match goal with
         | |- context [?a =? ?b] => destruct (N.eqb_spec a b); [lia|]
         | |- context [?a <=? ?b] => destruct (N.leb_spec a b); [try lia|try lia]
         end; reflexivity.
Qed.

Lemma trimStart_id c s : is_whitespace c = false -> trimStart (c :: s) = c :: s.
Proof. simpl. by intros ->. Qed.

Lemma trim_decimal s : Forall is_decimal s -> trim s = s.
Proof.
  intros Hs. unfold trim, trimEnd.
  assert (Hstart : forall s, Forall is_decimal s -> trimStart s = s).
  { intros [|c r] H; [done|]. apply trimStart_id, decimal_not_whitespace.
    by inversion H. }
  rewrite (Hstart s Hs). rewrite Hstart.
  - apply rev_involutive.
  - apply Forall_rev. done.
Qed.

Lemma parseInt_digits n : parseInt (digits n) = Num (Z.of_N n).
Proof.
  pose proof (digits_decimal n) as Hd.
  pose proof (parse_digits_digits n) as Hp.
  unfold parseInt.
  destruct (digits n) as [|c r] eqn:E.
  { unfold digits in E. by apply digits_aux_nonempty in E. }
  inversion Hd as [|? ? Hc Hr]; subst.
  rewrite trimStart_id by by apply decimal_not_whitespace.
  destruct Hc as [Hc1 Hc2].
  destruct (N.eqb_spec c 45); [lia|]. destruct (N.eqb_spec c 43); [lia|].
  destruct r as [|x r'].
  - by rewrite Hp.
  - inversion Hr as [|? ? [Hx1 Hx2] _]; subst.
    destruct (N.eqb_spec x 120); [lia|]. destruct (N.eqb_spec x 88); [lia|].
    rewrite andb_false_r. by rewrite Hp.
Qed.

Lemma parseInt_toString z : (0 <= z)%Z -> parseInt (toString (Num z)) = Num z.
Proof.
  intros Hz. unfold toString. destruct (Z.ltb_spec z 0); [lia|].
  rewrite parseInt_digits. f_equal. lia.
Qed.

(** Splitting a joined pair. *)
Lemma split_no_sep sep s : sep ∉ s -> split sep s = [s].
Proof.
  induction s as [|c r IH]; intros H; simpl; [done|].
  destruct (N.eqb_spec c sep) as [->|Hne].
  - exfalso. apply H. by left.
  - rewrite IH; [done|]. intros Hin. apply H. by right.
Qed.

Lemma split_pair sep a b :
  sep ∉ a -> sep ∉ b -> split sep (a ++ sep :: b) = [a; b].
Proof.
  intros Ha Hb. induction a as [|c r IH]; simpl.
  - rewrite N.eqb_refl. by rewrite split_no_sep.
  - destruct (N.eqb_spec c sep) as [->|Hne].
    + exfalso. apply Ha. by left.
    + rewrite IH; [done|]. intros Hin. apply Ha. by right.
Qed.

Lemma decimal_no_comma s : Forall is_decimal s -> 44 ∉ s.
Proof.
  intros H Hin. rewrite Forall_forall in H. apply H in Hin.
  unfold is_decimal in Hin. lia.
Qed.

End JSFacts.

(* ===================================================================== *)
(** * Properties of the readiness gate *)
(* ===================================================================== *)

Module ReadinessFacts.
Import SDK Readiness.

(** C4, the code at the failing input. A page script calls
    [init(options)], [track("a")], [setEmail(email)] and [track("b")] in
    a row. The gate is closed after [init]: the closure of [track("a")]
    waits in the queue. [setEmail] calls [createUser(params, true)],
    whose first statement opens the gate and runs nothing of the queue.
    [track("b")] then runs at once: "b" is in the event queue while "a"
    still waits. [initializeApp] closes the gate again; what it queues is
    queued behind the closure of "a". When [setReady] runs the queue (shown
    for the queue as it stands), "a" enters the event queue behind "b". *)
Theorem setEmail_opens_gate_without_running_queue :
  let g0 := init Sample.key (js "1.0") Sample.fresh in
  let g1 := fst (track (js "a") None None false g0) in
  let g2 := setEmail_start (js "visitor@example.com") g1 in
  let g3 := fst (track (js "b") None None false g2) in
  (Gate.isReady g1 = false /\ outbox g1 = [] /\ waiting g1 = [js "a"])
  /\ (Gate.isReady g2 = true /\ outbox g2 = [] /\ waiting g2 = [js "a"])
  /\ (outbox g3 = [js "b"] /\ waiting g3 = [js "a"])
  /\ exists g4,
       setReady true 1 (initializeApp_start g3) = Some (g4, None)
       /\ outbox g4 = [js "b"; js "a"] /\ waiting g4 = [].
Proof.
  cbv zeta. repeat split; try (vm_compute; reflexivity).
  eexists. split; [vm_compute; reflexivity|]. split; vm_compute; reflexivity.
Qed.

(** The sibling path: opened by [setReady], the gate runs what waits
    before a later call. The same script without [setEmail]: once
    [setReady] has run, "a" is in the event queue, and [track("b")] puts
    "b" behind it. *)
Example setReady_runs_queue_before_later_call :
  let g0 := init Sample.key (js "1.0") Sample.fresh in
  let g1 := fst (track (js "a") None None false g0) in
  exists g2,
    setReady true 1 (initializeApp_start g1) = Some (g2, None)
    /\ outbox g2 = [js "a"]
    /\ outbox (fst (track (js "b") None None false g2)) = [js "a"; js "b"].
Proof.
  cbv zeta. eexists. split; [vm_compute; reflexivity|]. split; vm_compute; reflexivity.
Qed.

End ReadinessFacts.

(* ===================================================================== *)
(** * Properties of the resolver *)
(* ===================================================================== *)

Module ResolverFacts.
Import SDK Selection Lifetime.

(** ** What the resolver leaves alone *)


Lemma placement_reports_does x d :
  placement_reports (does x d)
  = placement_reports d
    ++ match x with
       | LogError (PlacementNotFound id _) true => [id]
       | _ => []
       end.
Proof.
  unfold placement_reports. simpl. rewrite omap_app. simpl.
  destruct x as [m [|]| | | | | | | | |]; try reflexivity; by destruct m.
Qed.

Lemma outside_maps_log text report d :
  outside_maps (logError (Msg text) report d) = outside_maps d.
Proof.
  unfold outside_maps, logError. rewrite placement_reports_does.
  simpl. by rewrite app_nil_r.
Qed.

Lemma maps_log m report d : maps (logError m report d) = maps d.
Proof. reflexivity. Qed.

Lemma outside_maps_emit name p d : outside_maps (emit name p d) = outside_maps d.
Proof.
  unfold outside_maps, emit. rewrite placement_reports_does.
  simpl. by rewrite app_nil_r.
Qed.

Lemma checkInitialization_frame d :
  outside_maps (checkInitialization d) = outside_maps d
  /\ maps (checkInitialization d) = maps d.
Proof.
  unfold checkInitialization. destruct (isInitialized d); [done|].
  by rewrite outside_maps_log.
Qed.

Lemma process_frame providers d product :
  outside_maps (processProduct providers d product) = outside_maps d.
Proof.
  unfold processProduct. destruct (List.find _ _); [reflexivity|].
  apply outside_maps_log.
Qed.

Lemma fold_process_frame providers products : forall d,
  outside_maps (fold_left (processProduct providers) products d) = outside_maps d.
Proof.
  induction products as [|p ps IH]; intros d; simpl; [done|].
  by rewrite IH, process_frame.
Qed.

Lemma updateProductsAndProviders_unfold bundle providers d :
  updateProductsAndProviders bundle providers d
  = let d' := fold_left (processProduct providers) (ProductBundle.products bundle)
                (set_maps [] [] d) in
    if (JSMap.size (currentPaymentProviders d') =? 0)%nat
    then (false,
          logError
            (Msg (js "No compatible payment providers found for any products in the bundle"))
            true d')
    else (true, d').
Proof. reflexivity. Qed.

Lemma updateProductsAndProviders_frame bundle providers d :
  outside_maps (snd (updateProductsAndProviders bundle providers d)) = outside_maps d.
Proof.
  rewrite updateProductsAndProviders_unfold. cbv zeta.
  destruct (_ =? _)%nat; simpl.
  - by rewrite outside_maps_log, fold_process_frame.
  - by rewrite fold_process_frame.
Qed.

(** The answer of [updateProductsAndProviders] is whether the providers
    map is non-empty in the end. *)
Lemma updateProductsAndProviders_answer bundle providers d :
  fst (updateProductsAndProviders bundle providers d)
  = negb (JSMap.size (currentPaymentProviders
                        (snd (updateProductsAndProviders bundle providers d))) =? 0)%nat.
Proof.
  rewrite updateProductsAndProviders_unfold. cbv zeta.
  destruct (_ =? _)%nat eqn:E; simpl; by rewrite E.
Qed.

Lemma set_nonempty {V} (m : JSMap.t V) k v : JSMap.set m k v <> [].
Proof. destruct m as [|[k' v'] r]; simpl; [done|]. by case_bool_decide. Qed.

Lemma fold_process_maps providers d0 products : forall d,
  maps (fold_left (processProduct providers) products d)
  = maps (fold_left (processProduct providers) products (set_maps (_currentProducts d)
                                                    (currentPaymentProviders d) d0)).
Proof.
  induction products as [|p ps IH]; intros d; simpl; [done|].
  rewrite IH. symmetry. rewrite IH. f_equal. f_equal.
  unfold processProduct. simpl. by destruct (List.find _ _).
Qed.

(** No product has a provider: both maps end up empty. *)
Lemma fold_process_none d providers products : forall d',
  maps d' = ([], []) ->
  existsb (Selection.compatible d) products = false ->
  providers = user_payment_providers d ->
  maps (fold_left (processProduct providers) products d') = ([], []).
Proof.
  intros d' Hd' Hnone ->. revert d' Hd'.
  induction products as [|p ps IH]; intros d' Hd'; simpl in *; [done|].
  apply orb_false_iff in Hnone as [Hp Hps].
  apply IH; [done|]. unfold processProduct.
  unfold Selection.compatible in Hp. apply bool_decide_eq_false in Hp.
  destruct (List.find _ _) as [x|]; [|done].
  exfalso. apply Hp. by eexists.
Qed.

(** Some product has a provider: the providers map ends up non-empty. *)
Lemma fold_process_some d providers products : forall d',
  existsb (Selection.compatible d) products = true \/ currentPaymentProviders d' <> [] ->
  providers = user_payment_providers d ->
  currentPaymentProviders (fold_left (processProduct providers) products d') <> [].
Proof.
  intros d' H ->. revert d' H.
  induction products as [|p ps IH]; intros d' H; simpl in *.
  - destruct H; [done|done].
  - apply IH. destruct H as [H|H].
    + apply orb_true_iff in H as [Hp|Hps]; [|by left]. right.
      unfold processProduct. unfold Selection.compatible in Hp.
      apply bool_decide_eq_true in Hp as [x Hx].
      rewrite Hx. simpl. apply set_nonempty.
    + right. unfold processProduct. destruct (List.find _ _); simpl; [apply set_nonempty|done].
Qed.

Lemma findPlacementByID_result id d :
  fst (findPlacementByID id d)
  = List.find (fun elm => bool_decide (Placement.identifier elm = id)) (placements d).
Proof.
  unfold findPlacementByID. destruct (List.find _ _); [done|].
  by case_bool_decide.
Qed.

Lemma findPlacementByID_maps id d : maps (snd (findPlacementByID id d)) = maps d.
Proof.
  unfold findPlacementByID. destruct (List.find _ _); [done|].
  by case_bool_decide.
Qed.

Lemma findPlacementByID_frame id d :
  outside_reports (snd (findPlacementByID id d)) = outside_reports d.
Proof.
  unfold findPlacementByID. destruct (List.find _ _); [done|].
  by case_bool_decide.
Qed.


Lemma outside_reports_log m report d :
  outside_reports (logError m report d) = outside_reports d.
Proof. reflexivity. Qed.

Lemma checkInitialization_outside_reports d :
  outside_reports (checkInitialization d) = outside_reports d.
Proof. unfold checkInitialization. by destruct (isInitialized d). Qed.

Lemma current_outside_reports d d' :
  outside_reports d' = outside_reports d -> current d' = current d.
Proof.
  unfold outside_reports, current, maps, Env.getCookie. intros H.
  injection H as _ _ -> -> -> -> -> ->. reflexivity.
Qed.

(** A failed selection, reason by reason. *)
Lemma selectPlacementProduct_failed d placementID bundleIndex reason :
  diagnose d placementID bundleIndex = Some reason ->
  let d' := selectPlacementProduct placementID bundleIndex d in
  if bool_decide (reason = NoCompatibleProvider)
  then current d' = {| placement := _currentPlacement d; paywall := _currentPaywall d;
                       bundle := _currentBundle d; products := []; providers := [];
                       cookie := Env.getCookie SelectedBundleIndex (env d) |}
  else current d' = current d.
Proof.
  intros Hd d'. subst d'. unfold selectPlacementProduct.
  pose proof (checkInitialization_outside_reports d) as H1.
  set (d1 := checkInitialization d) in *.
  pose proof (findPlacementByID_result placementID d1) as Hres.
  pose proof (findPlacementByID_frame placementID d1) as H2.
  destruct (findPlacementByID placementID d1) as [pl d2]. simpl in Hres, H2.
  rewrite H1 in H2.
  assert (Hpl : placements d1 = placements d) by (by injection H1).
  assert (Hu : user d2 = user d) by (by injection H2).
  rewrite Hpl in Hres. unfold diagnose in Hd. rewrite <- Hres in Hd.
  destruct pl as [p|]; simpl.
  2:{ injection Hd as <-. simpl. apply current_outside_reports.
      by rewrite outside_reports_log. }
  destruct (Placement.paywalls p) as [|pw pws]; simpl.
  { injection Hd as <-. simpl. apply current_outside_reports.
    by rewrite outside_reports_log. }
  destruct (index (Paywall.items_v2 pw) bundleIndex) as [b|].
  2:{ injection Hd as <-. simpl. apply current_outside_reports.
      by rewrite outside_reports_log. }
  destruct (existsb (compatible d) (ProductBundle.products b)) eqn:Hc; [done|].
  injection Hd as <-. simpl.
  pose proof (updateProductsAndProviders_frame b (user_payment_providers d2) d2) as H3.
  pose proof (updateProductsAndProviders_answer b (user_payment_providers d2) d2) as H4.
  assert (Hm : maps (snd (updateProductsAndProviders b (user_payment_providers d2) d2))
               = ([], [])).
  { clear H3 H4. rewrite updateProductsAndProviders_unfold. cbv zeta.
    assert (Hf : maps (fold_left (processProduct (user_payment_providers d2))
                         (ProductBundle.products b) (set_maps [] [] d2)) = ([], [])).
    { apply (fold_process_none d); [done|done|].
      unfold user_payment_providers. by rewrite Hu. }
    destruct (_ =? _)%nat; exact Hf. }
  destruct (updateProductsAndProviders b (user_payment_providers d2) d2) as [ok d3].
  simpl in H3, H4, Hm. injection Hm as Hm1 Hm2. rewrite Hm2 in H4. simpl in H4.
  subst ok. simpl.
  unfold current, Env.getCookie. simpl. rewrite Hm1, Hm2.
  unfold outside_maps in H3. unfold outside_reports in H2.
  injection H3 as _ _ -> -> -> -> _ _.
  injection H2 as _ _ -> -> -> -> _ _. reflexivity.
Qed.

(** C2, as amended. A call of [selectPlacementProduct] that fails on the
    placement identifier, on a placement without a paywall or on the
    bundle index leaves the selected state as it was: the three
    pointers, the two maps and the persisted selection. A call that
    fails for want of a compatible payment provider (an empty bundle
    included) leaves the pointers and the persisted selection as they
    were, and leaves both maps empty. *)
Theorem failed_selection_keeps_pointers_and_cookie d placementID bundleIndex reason :
  diagnose d placementID bundleIndex = Some reason ->
  let d' := selectPlacementProduct placementID bundleIndex d in
  (_currentPlacement d' = _currentPlacement d
   /\ _currentPaywall d' = _currentPaywall d
   /\ _currentBundle d' = _currentBundle d
   /\ Env.getCookie SelectedBundleIndex (env d') = Env.getCookie SelectedBundleIndex (env d))
  /\ (reason <> NoCompatibleProvider -> current d' = current d)
  /\ (reason = NoCompatibleProvider ->
      _currentProducts d' = [] /\ currentPaymentProviders d' = []).
Proof.
  intros Hd d'. pose proof (selectPlacementProduct_failed _ _ _ _ Hd) as H.
  cbv zeta in H. fold d' in H.
  assert (Hkeep : placement (current d') = _currentPlacement d
                  /\ paywall (current d') = _currentPaywall d
                  /\ bundle (current d') = _currentBundle d
                  /\ cookie (current d') = Env.getCookie SelectedBundleIndex (env d)).
  { case_bool_decide; by rewrite H. }
  split; [exact Hkeep|]. split.
  - intros Hr. by rewrite bool_decide_eq_false_2 in H.
  - intros Hr. rewrite bool_decide_eq_true_2 in H by done.
    split; [exact (f_equal products H) | exact (f_equal providers H)].
Qed.


Lemma failed_selection_keeps_pointers_and_cookie_witness :
  diagnose Sample.selected (js "main") (Num 1) = Some NoCompatibleProvider
  /\ _currentProducts (selectPlacementProduct (js "main") (Num 1) Sample.selected) = []
  /\ _currentBundle (selectPlacementProduct (js "main") (Num 1) Sample.selected)
     = _currentBundle Sample.selected.
Proof.
  assert (H : diagnose Sample.selected (js "main") (Num 1) = Some NoCompatibleProvider)
    by (vm_compute; reflexivity).
  split; [exact H|].
  pose proof (failed_selection_keeps_pointers_and_cookie _ _ _ _ H) as (Hkeep & _ & Hmaps).
  split; [exact (proj1 (Hmaps eq_refl)) | exact (proj1 (proj2 (proj2 Hkeep)))].
Defined.

(** C2, as stated, fails: with the first bundle of "main" selected,
    selecting its empty bundle fails and empties the map of products. *)
Lemma failed_selection_clears_maps : ~ failed_selection_keeps_state.
Proof.
  intros H.
  specialize (H Sample.selected (js "main") (Num 1) NoCompatibleProvider).
  assert (Hd : diagnose Sample.selected (js "main") (Num 1) = Some NoCompatibleProvider)
    by (vm_compute; reflexivity).
  apply H in Hd. apply (f_equal products) in Hd. vm_compute in Hd. discriminate Hd.
Qed.

(** ** The persisted selection *)

Lemma setCurrentItems_cookies id i d :
  Env.cookies (env (setCurrentItems id i d)) = Env.cookies (env d).
Proof.
  unfold setCurrentItems.
  pose proof (findPlacementByID_frame id d) as H.
  destruct (findPlacementByID id d) as [pl d1]. simpl in H.
  assert (Hc : Env.cookies (env d1) = Env.cookies (env d)) by (by injection H).
  destruct pl as [p|]; [|done].
  destruct (Placement.paywalls p) as [|pw pws]; [done|].
  destruct (index _ _) as [b|]; [|done].
  set (d2 := match ProductBundle.properties b with Some _ => _ | None => _ end).
  assert (Hc2 : Env.cookies (env d2) = Env.cookies (env d)).
  { subst d2. destruct (ProductBundle.properties b); [|done].
    by destruct (existsb _ _). }
  destruct (ProductBundle.products b); [done|].
  pose proof (updateProductsAndProviders_frame b (user_payment_providers d2) d2) as H3.
  unfold outside_maps in H3. injection H3 as _ _ _ _ _ -> _ _. done.
Qed.

Lemma index_Some_nonneg {A} (arr : list A) i x :
  index arr i = Some x -> exists z, i = Num z /\ (0 <= z)%Z.
Proof.
  destruct i as [|z]; simpl; [done|].
  destruct (Z.ltb_spec z 0); [done|]. intros _. by exists z.
Qed.

(** What a successful selection persists. *)
Lemma selectPlacementProduct_persists d placementID bundleIndex :
  diagnose d placementID bundleIndex = None ->
  Env.getCookie SelectedBundleIndex (env (selectPlacementProduct placementID bundleIndex d))
  = Some (Text (placementID ++ js "," ++ toString bundleIndex))
  /\ exists z, bundleIndex = Num z /\ (0 <= z)%Z.
Proof.
  intros Hd. unfold selectPlacementProduct.
  pose proof (checkInitialization_outside_reports d) as H1.
  set (d1 := checkInitialization d) in *.
  pose proof (findPlacementByID_result placementID d1) as Hres.
  pose proof (findPlacementByID_frame placementID d1) as H2.
  destruct (findPlacementByID placementID d1) as [pl d2]. simpl in Hres, H2.
  rewrite H1 in H2.
  assert (Hpl : placements d1 = placements d) by (by injection H1).
  assert (Hu : user d2 = user d) by (by injection H2).
  rewrite Hpl in Hres. unfold diagnose in Hd. rewrite <- Hres in Hd.
  destruct pl as [p|]; [|done]. simpl.
  destruct (Placement.paywalls p) as [|pw pws]; [done|]. simpl.
  destruct (index (Paywall.items_v2 pw) bundleIndex) as [b|] eqn:Hi; [|done].
  destruct (existsb (compatible d) (ProductBundle.products b)) eqn:Hc; [|done].
  pose proof (updateProductsAndProviders_answer b (user_payment_providers d2) d2) as H4.
  assert (Hne : currentPaymentProviders
                  (snd (updateProductsAndProviders b (user_payment_providers d2) d2)) <> []).
  { clear H4. rewrite updateProductsAndProviders_unfold. cbv zeta.
    assert (Hf : currentPaymentProviders
                   (fold_left (processProduct (user_payment_providers d2))
                      (ProductBundle.products b) (set_maps [] [] d2)) <> []).
    { apply (fold_process_some d); [by left|].
      unfold user_payment_providers. by rewrite Hu. }
    destruct (_ =? _)%nat; exact Hf. }
  destruct (updateProductsAndProviders b (user_payment_providers d2) d2) as [ok d3].
  simpl in H4, Hne.
  destruct (currentPaymentProviders d3) eqn:E; [done|]. simpl in H4. subst ok. simpl.
  split; [|by eapply index_Some_nonneg].
  unfold Env.getCookie, Cookies.getCookie, Cookies.setCookie. simpl.
  apply lookup_insert_eq.
Qed.

(** Reading a persisted pair back. *)
Lemma getSavedPlacementBundleIndex_pair d placementID z :
  44 ∉ placementID -> trim placementID = placementID -> (0 <= z)%Z ->
  Env.getCookie SelectedBundleIndex (env d)
  = Some (Text (placementID ++ js "," ++ toString (Num z))) ->
  getSavedPlacementBundleIndex d
  = {| placementID := Some placementID; bundleIndex := Num z |}.
Proof.
  intros Hcomma Htrim Hz Hcookie. unfold getSavedPlacementBundleIndex.
  rewrite Hcookie.
  assert (Hdec : Forall is_decimal (toString (Num z))).
  { unfold toString. destruct (Z.ltb_spec z 0); [lia|]. apply JSFacts.digits_decimal. }
  change (js "," ++ toString (Num z)) with (44 :: toString (Num z)).
  rewrite JSFacts.split_pair by (done || by apply JSFacts.decimal_no_comma).
  cbn [map]. rewrite Htrim, (JSFacts.trim_decimal _ Hdec).
  by rewrite JSFacts.parseInt_toString.
Qed.

(** C3, as amended. For every placement identifier without a comma and
    without white space at either end, and every bundle index, the pair
    persisted by a successful [selectPlacementProduct] is restored by
    [getSavedPlacementBundleIndex] to the same identifier and the same
    index. *)
Theorem saved_selection_round_trip d placementID bundleIndex :
  44 ∉ placementID ->
  trim placementID = placementID ->
  diagnose d placementID bundleIndex = None ->
  getSavedPlacementBundleIndex (selectPlacementProduct placementID bundleIndex d)
  = {| placementID := Some placementID; bundleIndex := bundleIndex |}.
Proof.
  intros Hcomma Htrim Hd.
  destruct (selectPlacementProduct_persists _ _ _ Hd) as (Hcookie & z & -> & Hz).
  by apply getSavedPlacementBundleIndex_pair.
Qed.

Lemma saved_selection_round_trip_witness :
  (44 ∉ js "main") /\ trim (js "main") = js "main"
  /\ diagnose (Sample.fetched ∅ [Sample.stripe]) (js "main") (Num 2) = None
  /\ getSavedPlacementBundleIndex
       (selectPlacementProduct (js "main") (Num 2) (Sample.fetched ∅ [Sample.stripe]))
     = {| placementID := Some (js "main"); bundleIndex := Num 2 |}.
Proof.
  assert (H1 : 44 ∉ js "main").
  { intros H. apply list_elem_of_In in H. vm_compute in H. intuition discriminate. }
  assert (H2 : trim (js "main") = js "main") by reflexivity.
  assert (H3 : diagnose (Sample.fetched ∅ [Sample.stripe]) (js "main") (Num 2) = None)
    by (vm_compute; reflexivity).
  split; [exact H1|]. split; [exact H2|]. split; [exact H3|].
  exact (saved_selection_round_trip _ _ _ H1 H2 H3).
Defined.

(** C3, as stated, fails: the identifier " main" has no comma, and the
    pair (" main", 2) is restored as ("main", 2). *)
Lemma saved_pair_loses_outer_spaces : ~ saved_pair_round_trips.
Proof.
  intros H.
  specialize (H (Sample.fetched ∅ [Sample.stripe]) (js " main") (Num 2)).
  assert (Hc : 44 ∉ js " main").
  { intros Hin. apply list_elem_of_In in Hin. vm_compute in Hin. intuition discriminate. }
  specialize (H Hc). vm_compute in H. specialize (H eq_refl). discriminate H.
Qed.

End ResolverFacts.

(* ===================================================================== *)
(** * Placement lookup failures over the lifetime of an instance *)
(* ===================================================================== *)

Module LifetimeFacts.
Import SDK Selection Lifetime ResolverFacts.

Lemma consistent_reports d d' : reports d' = reports d -> consistent d -> consistent d'.
Proof. unfold reports, consistent. intros H. injection H as -> ->. done. Qed.

Lemma outside_maps_reports d d' : outside_maps d' = outside_maps d -> reports d' = reports d.
Proof. unfold outside_maps, reports. intros H. injection H as _ _ _ _ _ _ -> ->. done. Qed.

(** A lookup either changes nothing or reports an identifier that is
    missing and was not reported before. *)
Lemma findPlacementByID_reports id d :
  let d' := snd (findPlacementByID id d) in
  (d' = d /\ (missing id d -> id ∈ reportedPlacementErrors d))
  \/ (missing id d /\ (id ∉ reportedPlacementErrors d)
      /\ reports d' = ({[id]} ∪ reportedPlacementErrors d, placement_reports d ++ [id])).
Proof.
  unfold findPlacementByID, missing. destruct (List.find _ _) eqn:E; simpl.
  - left. split; [done|]. intros Hm. discriminate Hm.
  - case_bool_decide as Hin; simpl.
    + left. done.
    + right. split; [done|]. split; [done|].
      unfold reports, logError. by rewrite placement_reports_does.
Qed.

Lemma findPlacementByID_consistent id d :
  consistent d -> consistent (snd (findPlacementByID id d)).
Proof.
  intros [Hnd Hiff].
  destruct (findPlacementByID_reports id d) as [[-> _]|(Hm & Hnew & Hr)]; [done|].
  unfold reports in Hr. injection Hr as Hset Hlog.
  split.
  - rewrite Hlog. apply NoDup_app. split; [done|]. split.
    + intros x Hx Hx'. apply list_elem_of_singleton in Hx'. subst x.
      apply Hnew. by apply Hiff.
    + apply NoDup_singleton.
  - intros x. rewrite Hset, Hlog. rewrite elem_of_union, elem_of_app, Hiff.
    rewrite elem_of_singleton, list_elem_of_singleton. tauto.
Qed.

Lemma checkInitialization_reports d : reports (checkInitialization d) = reports d.
Proof. apply outside_maps_reports, checkInitialization_frame. Qed.

Lemma reports_log text report d : reports (logError (Msg text) report d) = reports d.
Proof. apply outside_maps_reports, outside_maps_log. Qed.

Lemma setCurrentItems_consistent id i d :
  consistent d -> consistent (setCurrentItems id i d).
Proof.
  intros Hd. unfold setCurrentItems.
  pose proof (findPlacementByID_consistent id d Hd) as H1.
  destruct (findPlacementByID id d) as [pl d1]. simpl in H1.
  destruct pl as [p|]; [|done].
  destruct (Placement.paywalls p) as [|pw pws]; [done|].
  destruct (index _ _) as [b|]; [|done].
  set (d2 := match ProductBundle.properties b with Some _ => _ | None => _ end).
  assert (H2 : consistent d2).
  { subst d2. destruct (ProductBundle.properties b); [|done].
    destruct (existsb _ _); [done|].
    eapply consistent_reports; [apply reports_log|done]. }
  destruct (ProductBundle.products b).
  - eapply consistent_reports; [apply reports_log|done].
  - eapply consistent_reports; [|exact H2].
    apply outside_maps_reports, updateProductsAndProviders_frame.
Qed.

Lemma selectPlacementProduct_consistent id i d :
  consistent d -> consistent (selectPlacementProduct id i d).
Proof.
  intros Hd. unfold selectPlacementProduct.
  assert (H0 : consistent (checkInitialization d)).
  { eapply consistent_reports; [apply checkInitialization_reports|done]. }
  pose proof (findPlacementByID_consistent id _ H0) as H1.
  destruct (findPlacementByID id (checkInitialization d)) as [pl d1]. simpl in H1.
  destruct (pl ≫= _) as [pw|]; simpl.
  2:{ eapply consistent_reports; [apply reports_log|done]. }
  destruct (index _ _) as [b|].
  2:{ eapply consistent_reports; [apply reports_log|done]. }
  pose proof (updateProductsAndProviders_frame b (user_payment_providers d1) d1) as H3.
  destruct (updateProductsAndProviders b (user_payment_providers d1) d1) as [ok d3].
  simpl in H3. apply outside_maps_reports in H3.
  pose proof (consistent_reports _ _ H3 H1) as H4.
  destruct ok; simpl.
  - pose proof (setCurrentItems_consistent id i d3 H4) as H5.
    eapply consistent_reports; [|exact H5].
    unfold reports, emit, set_env, Env.setCookie.
    rewrite placement_reports_does. unfold placement_reports. simpl.
    rewrite omap_app. simpl. by rewrite !app_nil_r.
  - eapply consistent_reports; [apply reports_log|done].
Qed.

Lemma step_consistent d o : consistent d -> consistent (step d o).
Proof.
  destruct o; simpl.
  - done.
  - apply findPlacementByID_consistent.
  - apply selectPlacementProduct_consistent.
  - apply setCurrentItems_consistent.
Qed.

Lemma run_consistent ops : forall d, consistent d -> consistent (run ops d).
Proof.
  unfold run. induction ops as [|o ops IH]; intros d Hd; simpl; [done|].
  apply IH, step_consistent, Hd.
Qed.

Lemma new_consistent doc : consistent (new doc).
Proof. split; [constructor|]. intros id. simpl. set_solver. Qed.

(** The first failed lookup of an identifier: one effect, the error
    logged with the report flag set. *)
Lemma findPlacementByID_first id d :
  missing id d -> id ∉ reportedPlacementErrors d ->
  Env.trace (env (snd (findPlacementByID id d)))
  = Env.trace (env d)
    ++ [LogError (PlacementNotFound id (map Placement.identifier (placements d))) true].
Proof.
  unfold missing, findPlacementByID. intros -> Hnew.
  by rewrite bool_decide_eq_false_2.
Qed.

(** C9. Over the lifetime of an instance (placements replaced by
    catalog fetches, lookups, selections, in any number and order) no
    placement identifier is reported twice. The lookup of a missing
    identifier that has not been reported does one thing: it logs the
    error with the report flag set, which adds exactly its report to the
    reports; the lookup of a missing identifier that has been reported
    changes nothing; and after either, looking the identifier up again
    changes nothing. *)
Theorem placement_lookup_failure_reported_once doc ops id :
  let d := run ops (new doc) in
  NoDup (placement_reports d)
  /\ (missing id d ->
      let d1 := snd (findPlacementByID id d) in
      (id ∉ placement_reports d ->
       placement_reports d1 = placement_reports d ++ [id]
       /\ Env.trace (env d1)
          = Env.trace (env d)
            ++ [LogError (PlacementNotFound id (map Placement.identifier (placements d)))
                  true])
      /\ (id ∈ placement_reports d -> d1 = d)
      /\ snd (findPlacementByID id d1) = d1
      /\ NoDup (placement_reports d1)).
Proof.
  intros d. pose proof (run_consistent ops _ (new_consistent doc)) as Hd. fold d in Hd.
  split; [apply Hd|]. intros Hm. cbv zeta.
  pose proof (findPlacementByID_consistent id d Hd) as Hd1.
  destruct Hd as [Hnd Hiff].
  pose proof (findPlacementByID_reports id d) as Hcase. cbv zeta in Hcase.
  destruct Hcase as [[Heq Hin]|(_ & Hnew & Hr)].
  - specialize (Hin Hm). rewrite Heq. split; [|split; [|split]].
    + intros Hnot. exfalso. apply Hnot. by apply Hiff.
    + done.
    + exact Heq.
    + exact Hnd.
  - unfold reports in Hr. injection Hr as Hset Hlog. split; [|split; [|split]].
    + intros _. split; [done|]. by apply findPlacementByID_first.
    + intros Hin. exfalso. apply Hnew. by apply Hiff.
    + pose proof (findPlacementByID_reports id (snd (findPlacementByID id d))) as Hcase.
      cbv zeta in Hcase. destruct Hcase as [[Heq _]|(_ & Hnew' & _)]; [done|].
      exfalso. apply Hnew'. rewrite Hset. apply elem_of_union_l. by apply elem_of_singleton.
    + apply Hd1.
Qed.

Lemma placement_lookup_failure_reported_once_witness :
  let d := run [Catalog [Sample.main]; Lookup (js "promo")] (new ∅) in
  missing (js "sale") d
  /\ placement_reports d = [js "promo"]
  /\ placement_reports (snd (findPlacementByID (js "sale") d)) = [js "promo"; js "sale"]
  /\ snd (findPlacementByID (js "promo") d) = d.
Proof.
  intros d.
  assert (Hs : missing (js "sale") d) by reflexivity.
  assert (Hp : missing (js "promo") d) by reflexivity.
  pose proof (placement_lookup_failure_reported_once ∅
                [Catalog [Sample.main]; Lookup (js "promo")] (js "sale")) as [_ H1].
  pose proof (placement_lookup_failure_reported_once ∅
                [Catalog [Sample.main]; Lookup (js "promo")] (js "promo")) as [_ H2].
  fold d in H1, H2. specialize (H1 Hs). specialize (H2 Hp).
  cbv zeta in H1, H2. destruct H1 as (H1 & _). destruct H2 as (_ & H2 & _).
  assert (Hlog : placement_reports d = [js "promo"]) by (vm_compute; reflexivity).
  split; [exact Hs|]. split; [exact Hlog|]. split.
  - destruct H1 as [H1 _]; [|rewrite H1, Hlog; reflexivity].
    rewrite Hlog. intros Hin. apply list_elem_of_singleton in Hin.
    vm_compute in Hin. discriminate Hin.
  - apply H2. rewrite Hlog. by apply list_elem_of_singleton.
Defined.

End LifetimeFacts.

(* ===================================================================== *)
(** * Event tracking *)
(* ===================================================================== *)

Module TrackingFacts.
Import SDK Tracking.

Lemma track_closure_unfold event refreshPlacements (g : SDK.t) :
  let queued := EventData.set_ids (getUserID (Gate.self g)) event in
  let d := set_eventQueue (eventQueue (Gate.self g) ++ [queued]) (Gate.self g) in
  track_closure event refreshPlacements g
  = if forallb EventData.stringifies (eventQueue (Gate.self g)) && EventData.stringifies event
    then (Gate.set_self
            (set_timers (timers (Gate.self g) ++ [(queued, refreshPlacements)])
               (set_env (Env.setCookie EventsKey (Json (eventQueue d)) (env d)) d)) g, None)
    else (Gate.set_self d g, Some (Error (js "TypeError"))).
Proof.
  cbv zeta. unfold track_closure, saveEventQueue. cbn [eventQueue set_eventQueue].
  rewrite forallb_app. cbn [forallb]. rewrite andb_true_r.
  change (EventData.stringifies (EventData.set_ids (getUserID (Gate.self g)) event))
    with (EventData.stringifies event).
  by destruct (_ && _).
Qed.

(** C10, as amended. A call of [track] returns [true] or throws. With
    the gate closed it returns [true]: the event is only queued behind
    the gate (no entry in the event queue, no request). With the gate
    open the event enters the event queue at once, and the call returns
    [true] when [JSON.stringify] accepts the queue with the new event,
    and throws the TypeError of [JSON.stringify] otherwise; the timer
    that will send the event is set in the first case only. The value is
    returned before any create-event request is made, so no outcome of
    the delivery can change it. *)
Theorem track_returns_true_or_throws name properties userProperties refreshPlacements
    (g : SDK.t) :
  let g' := fst (track name properties userProperties refreshPlacements g) in
  let result := snd (track name properties userProperties refreshPlacements g) in
  (forall value, result = Returns value -> value = true)
  /\ if Gate.isReady g
     then Gate.queue g' = Gate.queue g
          /\ (exists event,
                eventQueue (Gate.self g') = eventQueue (Gate.self g) ++ [event]
                /\ EventData.name event = name
                /\ timers (Gate.self g')
                   = timers (Gate.self g)
                     ++ (if serialisable properties userProperties g
                         then [(event, refreshPlacements)] else []))
          /\ result = (if serialisable properties userProperties g
                       then Returns true else Throws (Error (js "TypeError")))
     else result = Returns true
          /\ eventQueue (Gate.self g') = eventQueue (Gate.self g)
          /\ exists event, Gate.queue g' = Gate.queue g ++ [TrackClosure event refreshPlacements]
                           /\ EventData.name event = name.
Proof.
  cbv zeta. unfold track, generateId, serialisable. cbn [fst snd].
  unfold Gate.ready. cbn [Gate.isReady Gate.set_self lift].
  assert (Hq : forall d, eventQueue (checkInitialization d) = eventQueue d).
  { intros d. unfold checkInitialization. by destruct (isInitialized d). }
  assert (Ht : forall d, timers (checkInitialization d) = timers d).
  { intros d. unfold checkInitialization. by destruct (isInitialized d). }
  destruct (Gate.isReady g) eqn:Hready.
  - rewrite track_closure_unfold. cbv zeta. unfold lift.
    cbn [Gate.self Gate.set_self eventQueue set_generated timers].
    rewrite Hq, Ht.
    match goal with
    | |- context [EventData.stringifies (EventData.mk ?a ?b ?p ?up ?c ?d ?e)] =>
        change (EventData.stringifies (EventData.mk a b p up c d e))
          with (ApphudHash.stringifies p && ApphudHash.stringifies up)
    end.
    rewrite andb_assoc.
    destruct (forallb EventData.stringifies (eventQueue (Gate.self g))
              && ApphudHash.stringifies (default ApphudHash.empty properties)
              && ApphudHash.stringifies (default ApphudHash.empty userProperties)).
    + cbn [fst snd]. split; [by intros value [= <-]|]. split; [reflexivity|].
      split; [|reflexivity]. eexists. split; [reflexivity|]. split; reflexivity.
    + cbn [fst snd]. split; [by intros value [=]|]. split; [reflexivity|].
      split; [|reflexivity]. eexists. split; [reflexivity|]. split; [reflexivity|].
      cbn. by rewrite Ht, app_nil_r.
  - cbn [fst snd]. split; [by intros value [= <-]|]. split; [reflexivity|].
    split.
    + cbn. unfold checkInitialization. by destruct (isInitialized (Gate.self g)).
    + eexists. split; reflexivity.
Qed.

(** C10, as stated, fails: on an initialized instance whose gate is open,
    [track] with properties that refer to themselves does not return. *)
Lemma track_throws_on_cyclic_properties : ~ track_always_returns_true.
Proof.
  intros H.
  specialize (H (js "a") (Some Sample.cyclic) None false (Sample.ready [Sample.stripe])
                eq_refl).
  vm_compute in H. discriminate H.
Qed.

Example track_queued_behind_gate :
  let g := {| Gate.isReady := false; Gate.queue := [];
              Gate.self := Sample.fetched ∅ [Sample.stripe] |} in
  snd (track (js "a") (Some Sample.cyclic) None false g) = Returns true
  /\ eventQueue (Gate.self (fst (track (js "a") (Some Sample.cyclic) None false g))) = []
  /\ length (Gate.queue (fst (track (js "a") (Some Sample.cyclic) None false g))) = 1%nat.
Proof. vm_compute. auto. Qed.

(** Once an event that [JSON.stringify] rejects is in the event queue,
    every later call of [track] on the open gate throws as well. *)
Example track_keeps_throwing :
  let g := fst (track (js "a") (Some Sample.cyclic) None false (Sample.ready [Sample.stripe])) in
  map EventData.name (eventQueue (Gate.self g)) = [js "a"]
  /\ snd (track (js "b") None None false g) = Throws (Error (js "TypeError")).
Proof. vm_compute. auto. Qed.

(** For events made by [track], the fulfilment handler of any event
    removes the head of the queue. *)
Lemma trackEvent_then_removes_head event (g : SDK.t) :
  made_by_track event ->
  Forall made_by_track (eventQueue (Gate.self g)) ->
  eventQueue (Gate.self (trackEvent_then event g)) = tail (eventQueue (Gate.self g)).
Proof.
  unfold made_by_track. intros He Hq. unfold trackEvent_then, lift, saveEventQueue.
  cbn [Gate.self Gate.set_self eventQueue set_eventQueue].
  assert (Hs : splice_first
                 (fun queued => bool_decide (EventData.id queued = EventData.id event))
                 (eventQueue (Gate.self g))
               = tail (eventQueue (Gate.self g))).
  { destruct (eventQueue (Gate.self g)) as [|first rest]; [reflexivity|].
    inversion Hq as [|? ? Hfirst _]; subst. simpl.
    rewrite Hfirst, He. by rewrite bool_decide_eq_true_2. }
  rewrite Hs. by destruct (forallb _ _).
Qed.

(** C7, the code at the failing input. Events "a" and "b" are tracked in
    a row and both create-event requests are in flight. The request of
    "b" succeeds: the entry of "a", whose request has not succeeded, is
    removed from the queue and from its persisted copy, and the entry of
    "b" stays. *)
Theorem fulfilled_event_removes_another_entry :
  let g := Sample.two_events_in_flight in
  exists a b,
    eventQueue (Gate.self g) = [a; b]
    /\ EventData.name a = js "a" /\ EventData.name b = js "b"
    /\ EventData.insert_id a <> EventData.insert_id b
    /\ eventQueue (Gate.self (trackEvent_then b g)) = [b]
    /\ Env.getCookie EventsKey (env (Gate.self (trackEvent_then b g))) = Some (Json [b]).
Proof.
  vm_compute. do 2 eexists. split; [reflexivity|].
  split; [reflexivity|]. split; [reflexivity|]. split; [discriminate|].
  split; reflexivity.
Qed.

End TrackingFacts.

(* ===================================================================== *)
(** * Lookups of elements *)
(* ===================================================================== *)

Module EnvFacts.

Lemma page_document e e' : Env.page e' = Env.page e -> Env.document e' = Env.document e.
Proof. unfold Env.page. by intros [= -> _]. Qed.

Lemma page_trans (e1 e2 e3 : Env.t) :
  Env.page e3 = Env.page e2 -> Env.page e2 = Env.page e1 -> Env.page e3 = Env.page e1.
Proof. intros -> ->. reflexivity. Qed.

Lemma getElementById_page id e e' :
  Env.page e' = Env.page e -> Env.getElementById id e' = Env.getElementById id e.
Proof. intros H. unfold Env.getElementById. by rewrite (page_document _ _ H). Qed.

Lemma querySelector_page id e e' :
  Env.page e' = Env.page e -> Env.querySelector id e' = Env.querySelector id e.
Proof.
  unfold Env.page, Env.querySelector, Env.getElementById. intros [= Hd Hs].
  by rewrite Hd, Hs.
Qed.

Lemma querySelector_plain id e :
  CSS.plain_identifier id = true -> id ∈ Env.document e ->
  Env.querySelector id e = Returns (Some id).
Proof.
  intros Hp Hin. unfold Env.querySelector, Env.getElementById. rewrite Hp.
  by rewrite bool_decide_eq_true_2.
Qed.

End EnvFacts.

(* ===================================================================== *)
(** * The submit handler of the Stripe checkout *)
(* ===================================================================== *)

Module StripeFacts.
Import Stripe EnvFacts.

Lemma setButtonState_trace state f e :
  exists x, Env.trace (setButtonState state f e) = Env.trace e ++ [x]
            /\ success_effect x = false
            /\ Env.cookies (setButtonState state f e) = Env.cookies e
            /\ Env.page (setButtonState state f e) = Env.page e.
Proof.
  unfold setButtonState. destruct (submit f).
  - destruct (_ && _); eexists; split; reflexivity || (split; [|split]; reflexivity).
  - eexists. split; [reflexivity|]. split; [|split]; reflexivity.
Qed.

(** When the lookup of the error element does not throw, [displayError]
    returns. *)
Lemma displayError_trace text f e :
  (forall err, Env.querySelector (ElementIDs.error (elementIDs f)) e <> Throws err) ->
  exists e' xs,
    displayError text f e = Returns e'
    /\ Env.trace e' = Env.trace e ++ xs
    /\ Forall (fun x => success_effect x = false) xs
    /\ Env.cookies e' = Env.cookies e.
Proof.
  intros Hq. unfold displayError.
  destruct (Env.querySelector _ _) as [[el|]|err]; [| |by destruct (Hq err)].
  - exists (Env.does (DisplayError (js text)) e), [DisplayError (js text)].
    split; [reflexivity|]. split; [reflexivity|]. split; [|reflexivity].
    by repeat constructor.
  - exists e, []. split; [reflexivity|]. split; [by rewrite app_nil_r|].
    split; [constructor|reflexivity].
Qed.

(** The failure branch: it writes no cookie, starts no success handling
    and ends by emitting [payment_failure] with the error it was given. *)
Lemma fail_trace log report state text err f e :
  (forall err, Env.querySelector (ElementIDs.error (elementIDs f)) e <> Throws err) ->
  exists xs,
    Env.trace (fail log report state text err f e)
    = Env.trace e ++ xs ++ [Emit (js "payment_failure") (PaymentFailure (js "stripe") err)]
    /\ Forall (fun x => success_effect x = false) xs
    /\ Env.cookies (fail log report state text err f e) = Env.cookies e.
Proof.
  intros Hq. unfold fail, displayError_then.
  set (e1 := Env.logError log report e).
  destruct (setButtonState_trace state f e1) as (x & Hx & Hxs & Hxc & Hxp).
  set (e2 := setButtonState state f e1) in *.
  destruct (displayError_trace text f e2) as (e3 & ys & -> & Hy & Hys & Hyc).
  { intros err'. rewrite (querySelector_page _ e e2); [apply Hq|]. by rewrite Hxp. }
  exists ([LogError (Msg (js log)) report; x] ++ ys). split; [|split].
  - unfold Env.does. simpl. rewrite Hy, Hx. subst e1. simpl.
    by rewrite <- !app_assoc.
  - apply Forall_app. split; [|done]. by repeat constructor.
  - simpl. by rewrite Hyc, Hxc.
Qed.

(** The success handling: its effects, in order. *)
Lemma handleSuccessfulPayment_trace base options f e :
  exists xs redirect,
    Env.trace (handleSuccessfulPayment base options f e)
    = Env.trace e ++ xs ++ [SetTimeout redirect]
    /\ SetCookie PaymentProviderKey (Text (js "stripe")) ∈ xs
    /\ Env.getCookie PaymentProviderKey (handleSuccessfulPayment base options f e)
       = Some (Text (js "stripe")).
Proof.
  unfold handleSuccessfulPayment.
  destruct (subscription f) as [s|]; simpl.
  - destruct (truthy (Subscription.deep_link s)); simpl.
    + eexists [_; _; _], _. rewrite <- !app_assoc. simpl.
      split; [reflexivity|]. split; [set_solver|].
      unfold Env.getCookie, Cookies.getCookie, Cookies.setCookie. simpl.
      apply lookup_insert_eq.
    + eexists [_; _], _. rewrite <- !app_assoc. simpl.
      split; [reflexivity|]. split; [set_solver|].
      unfold Env.getCookie, Cookies.getCookie, Cookies.setCookie. simpl.
      apply lookup_insert_eq.
  - eexists [_], _. rewrite <- !app_assoc. simpl.
    split; [reflexivity|]. split; [set_solver|].
    unfold Env.getCookie, Cookies.getCookie, Cookies.setCookie. simpl.
    apply lookup_insert_eq.
Qed.

(** C5. In the submit handler of the card form, when the subscription
    request answers with a subscription carrying a (non-empty)
    client_secret, [confirmCardPayment] is called with that secret before
    any success handling: nothing of the success handling (the event
    [payment_success], cookie writes, the purchase event, the scheduled
    redirect) happens before the call. If the confirmation fails, the
    handler ends by emitting [payment_failure] with the confirmation
    error, and nothing of the success handling happens: no
    [payment_success], no cookie is written and no redirect is scheduled.
    If it succeeds, the success handling follows the call and ends with
    the scheduled redirect. The form is one whose handler can be there:
    the library and its elements are initialised, the customer is
    created, and the lookup of the error element does not throw. *)
Theorem confirmation_precedes_success base options paymentMethod s secret r_confirm f e :
  stripe f = true -> elements f = true -> is_Some (customer f) ->
  (forall err, Env.querySelector (ElementIDs.error (elementIDs f)) e <> Throws err) ->
  Subscription.client_secret s = Some secret -> secret <> [] ->
  let e' := snd (submitHandler_run base options (SetupIntent paymentMethod)
                   (Fulfilled (Some s)) r_confirm f e) in
  exists before after,
    Env.trace e' = Env.trace e ++ before ++ Call (ConfirmCardPayment secret) :: after
    /\ Forall (fun x => success_effect x = false) before
    /\ match r_confirm with
       | Some confirmError =>
           Forall (fun x => success_effect x = false) after
           /\ last after = Some (Emit (js "payment_failure")
                                   (PaymentFailure (js "stripe") confirmError))
           /\ Env.cookies e' = Env.cookies e
       | None =>
           exists redirect, last after = Some (SetTimeout redirect)
                            /\ Env.getCookie PaymentProviderKey e' = Some (Text (js "stripe"))
       end.
Proof.
  intros Hstripe Helements [c Hc] Hquery Hsecret Hne.
  unfold submitHandler_run. rewrite Hstripe, Helements, Hc. cbn [negb].
  destruct (setButtonState_trace Processing f e) as (x & Hx & Hxs & Hxc & Hxp).
  set (e1 := setButtonState Processing f e) in *.
  unfold createSubscription. cbn [subscription set_subscription].
  assert (Htruthy : truthy (Subscription.client_secret s) = true).
  { rewrite Hsecret. by destruct secret. }
  rewrite Htruthy, Hsecret. change (default [] (Some secret)) with secret.
  set (called := Call (CreateSubscription _ _ _ _ _ _)).
  set (f2 := set_subscription (Some s) f).
  set (e2 := Env.does (Call (ConfirmCardPayment secret))
               (Env.does called (Env.does (Call ConfirmSetup) e1))).
  assert (He2 : Env.trace e2
                = Env.trace e ++ [x; Call ConfirmSetup; called]
                  ++ [Call (ConfirmCardPayment secret)]).
  { subst e2. simpl. rewrite Hx. by rewrite <- !app_assoc. }
  assert (Hc2 : Env.cookies e2 = Env.cookies e) by (subst e2; simpl; exact Hxc).
  assert (Hp2 : Env.page e2 = Env.page e) by (subst e2; exact Hxp).
  exists [x; Call ConfirmSetup; called].
  destruct r_confirm as [confirmError|]; cbn [snd].
  - destruct (fail_trace "Failed to confirm card payment" true ErrorState
                "Failed to confirm payment. Please try again." confirmError f2 e2)
      as (xs & Hxs' & Hfs & Hfc).
    { intros err. subst f2. cbn [elementIDs set_subscription].
      rewrite (querySelector_page _ e e2 Hp2). apply Hquery. }
    exists (xs ++ [Emit (js "payment_failure") (PaymentFailure (js "stripe") confirmError)]).
    split; [|split; [|split; [|split]]].
    + rewrite Hxs', He2. rewrite <- !app_assoc. reflexivity.
    + subst called. by repeat constructor.
    + apply Forall_app. split; [done|]. by repeat constructor.
    + by rewrite last_snoc.
    + by rewrite Hfc.
  - destruct (handleSuccessfulPayment_trace base options f2 e2)
      as (xs & redirect & Hxs' & _ & Hcookie).
    exists (xs ++ [SetTimeout redirect]).
    split; [|split].
    + rewrite Hxs', He2. rewrite <- !app_assoc. reflexivity.
    + subst called. by repeat constructor.
    + exists redirect. split; [by rewrite last_snoc|done].
Qed.

Lemma confirmation_precedes_success_witness :
  let f := Sample.shown Sample.full in
  let e := Env.initial Sample.page in
  let confirmError := Error (js "card_declined") in
  stripe f = true /\ elements f = true /\ is_Some (customer f)
  /\ Env.querySelector (ElementIDs.error (elementIDs f)) e = Returns (Some (js "error-message"))
  /\ Subscription.client_secret Sample.subscription = Some (js "cs_x") /\ js "cs_x" <> []
  /\ exists before after,
       Env.trace (snd (submitHandler_run (js "https://getapp.apphud.com") Options.empty
                         (SetupIntent (js "pm_1")) (Fulfilled (Some Sample.subscription))
                         (Some confirmError) f e))
       = Env.trace e ++ before ++ Call (ConfirmCardPayment (js "cs_x")) :: after
       /\ last after = Some (Emit (js "payment_failure")
                               (PaymentFailure (js "stripe") confirmError)).
Proof.
  intros f e confirmError.
  assert (H1 : stripe f = true) by reflexivity.
  assert (H2 : elements f = true) by reflexivity.
  assert (H3 : is_Some (customer f)) by (by eexists).
  assert (Hq : Env.querySelector (ElementIDs.error (elementIDs f)) e
               = Returns (Some (js "error-message"))) by (vm_compute; reflexivity).
  assert (Hq' : forall err,
             Env.querySelector (ElementIDs.error (elementIDs f)) e <> Throws err).
  { intros err. rewrite Hq. discriminate. }
  assert (H4 : Subscription.client_secret Sample.subscription = Some (js "cs_x"))
    by reflexivity.
  assert (H5 : js "cs_x" <> []) by discriminate.
  split; [exact H1|]. split; [exact H2|]. split; [exact H3|]. split; [exact Hq|].
  split; [exact H4|]. split; [exact H5|].
  destruct (confirmation_precedes_success (js "https://getapp.apphud.com") Options.empty
              (js "pm_1") Sample.subscription (js "cs_x") (Some confirmError) f e
              H1 H2 H3 Hq' H4 H5) as (before & after & Htrace & _ & _ & Hlast & _).
  exists before, after. split; [exact Htrace | exact Hlast].
Defined.

Example confirmed_payment_run :
  Env.trace (snd (submitHandler_run (js "https://getapp.apphud.com") Options.empty
                    (SetupIntent (js "pm_1")) (Fulfilled (Some Sample.subscription)) None
                    (Sample.shown Sample.full) (Env.initial Sample.page)))
  = [ButtonState false Processing;
     Call ConfirmSetup;
     Call (CreateSubscription (js "pp_1") (js "price_monthly") (Some (js "pw1"))
             (Some (js "pl1")) (Some (js "cus_1")) (Some (js "pm_1")));
     Call (ConfirmCardPayment (js "cs_x"));
     SetCookie DeepLinkURL (Text (js "link"));
     SetCookie PaymentProviderKey (Text (js "stripe"));
     FacebookPurchase Sample.subscription;
     SetTimeout (Navigate (js "https://getapp.apphud.com/link"))].
Proof. vm_compute. reflexivity. Qed.

End StripeFacts.

(* ===================================================================== *)
(** * Apple Pay *)
(* ===================================================================== *)

Module ApplePayFacts.
Import Stripe.

(** Where the code does fail closed: the bundle has a property map and
    the price macro resolves to nothing in it. No payment request is
    made and an error is logged. *)
Lemma apple_pay_fails_closed_on_unresolved_macro u options f e bundle properties :
  stripe f = true -> productBundle f = Some bundle ->
  Options.applePayConfig options ≫= ApplePayConfig.staticPrice = None ->
  ProductBundle.properties bundle = Some properties ->
  (forall path, truthy (Utils.getValueByPath u properties path) = false) ->
  initializeApplePay u options f e
  = (f, Env.logError "No price found for macro in bundle properties" true e).
Proof.
  intros Hs Hb Hp Hprops Hnone. unfold initializeApplePay.
  rewrite Hs, Hb, Hp, Hprops. cbn [negb]. by rewrite Hnone.
Qed.

(** C6, the code at the failing input. Apple Pay is requested without a
    static price for a bundle that has no property map, on a page with
    the Apple Pay button. Whatever the helpers of utils/ are, [show] ends
    with a payment request made for the amount 0 in "usd" and no error
    logged; and once Apple Pay is found available, the button is revealed
    and wired. *)
Theorem apple_pay_request_made_without_price u :
  let w := Sample.apple_pay_shown u Sample.bare in
  let request := {| PaymentRequest.country := js "US"; PaymentRequest.currency := js "usd";
                    PaymentRequest.label := js "Yearly"; PaymentRequest.amount := 0 |} in
  ProductBundle.properties Sample.bare = None
  /\ Options.applePayConfig Sample.applePay = None
  /\ exists f,
       Builder.forms w !! 0%nat = Some (Builder.StripeForm f)
       /\ paymentRequest f = Some request
       /\ Env.trace (Builder.env w)
          = [Emit (js "payment_form_initialized")
               (FormInitialized (js "stripe") (js "#apphud-stripe-payment-form"));
             Call (CreateCustomer (js "pp_1") (js "u1") false);
             Call (StripePaymentRequest request)]
       /\ let '(f', e') := canMakePayment_then true f (Builder.env w) in
          Reveal (js "apphud-apple-pay-button") ∈ Env.trace e'
          /\ Env.listeners e' = [Listener (js "apphud-apple-pay-button") (js "click") 0].
Proof.
  vm_compute. split; [reflexivity|]. split; [reflexivity|].
  eexists. split; [reflexivity|]. split; [reflexivity|]. split; [reflexivity|].
  split; [|reflexivity].
  apply list_elem_of_In. simpl. tauto.
Qed.

(** The same flow for a bundle whose property map has the price: the
    amount is resolved from it. *)
Example apple_pay_request_with_price :
  exists f,
    Builder.forms (Sample.apple_pay_shown Sample.utils Sample.full) !! 0%nat
    = Some (Builder.StripeForm f)
    /\ PaymentRequest.amount <$> paymentRequest f = Some 999%Z.
Proof. vm_compute. eexists. split; reflexivity. Qed.

End ApplePayFacts.

(* ===================================================================== *)
(** * The public paymentForm entry point *)
(* ===================================================================== *)

Module PaymentFormFacts.
Import SDK.

(** C8, the code at the failing input. On a ready instance with a Stripe
    product selected, [paymentForm()] is called and the customer request
    of the form is rejected. The rejection passes through
    [StripeForm.show], [FormBuilder.show] and the closure of
    [paymentForm], none of which catches it: it ends as an unhandled
    rejection on the page, with no error logged and no lifecycle event
    emitted for it. *)
Theorem rejected_customer_request_escapes :
  let g := Sample.ready [Sample.stripe] in
  let g1 := paymentForm Options.empty None g in
  let networkError := Error (js "Failed to fetch") in
  let g2 := paymentForm_resume Sample.utils 0 Options.empty
              (Builder.Customer (Rejected networkError)) g1 in
  last (added g g1) = Some (Call (CreateCustomer (js "pp_1") (js "u1") true))
  /\ added g1 g2 = [UnhandledRejection networkError].
Proof. vm_compute. split; reflexivity. Qed.

(** The same with a provider of a kind the orchestrator does not know:
    the error thrown by [FormBuilder.show] is not caught either. *)
Example unsupported_provider_kind_escapes :
  let paypalProduct :=
    {| Product.id := js "p9"; Product.product_id := js "prod"; Product.base_plan_id := js "plan";
       Product.name := js "PayPal plan"; Product.store := js "paypal" |} in
  let g := {| Gate.isReady := true; Gate.queue := [];
              Gate.self :=
                set_currentPlacement (Some Sample.main)
                  (set_currentPaywall (Some Sample.paywall)
                     (set_maps [(js "paypal", paypalProduct)] [(js "paypal", Sample.paypal)]
                        (Sample.fetched Sample.page [Sample.paypal]))) |} in
  last (added g (paymentForm Options.empty None g))
  = Some (UnhandledRejection (Error (js "Unsupported type paypal"))).
Proof. vm_compute. reflexivity. Qed.

(** When the customer request succeeds, the same call ends with the
    submit listener attached and nothing unhandled. *)
Example customer_created_form_set_up :
  let g1 := paymentForm Options.empty None (Sample.ready [Sample.stripe]) in
  let g2 := paymentForm_resume Sample.utils 0 Options.empty
              (Builder.Customer (Fulfilled (Some Sample.customer))) g1 in
  Env.listeners (env (Gate.self g2)) = [Listener (js "apphud-payment-form") (js "submit") 0].
Proof. vm_compute. reflexivity. Qed.

End PaymentFormFacts.

(* ===================================================================== *)
(** * The payment form orchestrator *)
(* ===================================================================== *)

Module JSMapFacts.

Lemma get_set_eq {V} (m : JSMap.t V) k v : JSMap.get (JSMap.set m k v) k = Some v.
Proof.
  unfold JSMap.get, dict_get. induction m as [|[k' v'] r IH]; simpl.
  - by rewrite bool_decide_eq_true_2.
  - case_bool_decide as E; simpl.
    + by rewrite bool_decide_eq_true_2.
    + by rewrite bool_decide_eq_false_2.
Qed.

Lemma get_set_ne {V} (m : JSMap.t V) k k' v :
  k <> k' -> JSMap.get (JSMap.set m k v) k' = JSMap.get m k'.
Proof.
  intros Hne. unfold JSMap.get, dict_get. induction m as [|[k0 v0] r IH]; simpl.
  - by rewrite bool_decide_eq_false_2.
  - case_bool_decide as E; simpl.
    + subst k0. by rewrite !bool_decide_eq_false_2.
    + case_bool_decide; [done|]. exact IH.
Qed.

Lemma get_delete_eq {V} (m : JSMap.t V) k : JSMap.get (JSMap.delete m k) k = None.
Proof.
  unfold JSMap.get, JSMap.delete, dict_get. induction m as [|[k0 v0] r IH]; [done|].
  rewrite filter_cons. case_decide as E; simpl in *; [|exact IH].
  by rewrite bool_decide_eq_false_2.
Qed.

Lemma get_delete_ne {V} (m : JSMap.t V) k k' :
  k <> k' -> JSMap.get (JSMap.delete m k) k' = JSMap.get m k'.
Proof.
  intros Hne. unfold JSMap.get, JSMap.delete, dict_get.
  induction m as [|[k0 v0] r IH]; [done|].
  rewrite filter_cons. case_decide as E; simpl in *.
  - case_bool_decide; [done|]. exact IH.
  - simpl in E. subst k0. by rewrite bool_decide_eq_false_2.
Qed.

Lemma get_delete_Some {V} (m : JSMap.t V) k k' v :
  JSMap.get (JSMap.delete m k) k' = Some v -> k <> k' /\ JSMap.get m k' = Some v.
Proof.
  intros H. destruct (decide (k = k')) as [->|Hne].
  - by rewrite get_delete_eq in H.
  - by rewrite get_delete_ne in H.
Qed.

End JSMapFacts.

Module OrchestrationFacts.
Import Builder Orchestration JSMapFacts EnvFacts.

Lemma detect_page options f e e' :
  Env.page e' = Env.page e -> Stripe.detect options f e' = Stripe.detect options f e.
Proof. intros H. unfold Stripe.detect. by rewrite (getElementById_page _ _ _ H). Qed.

Lemma held_length key b w : (length (held key b w) <= 1)%nat.
Proof.
  unfold held. destruct (JSMap.get _ _); [|simpl; lia].
  destruct (forms w !! _) as [[f|f]|]; simpl; try lia.
  unfold owned_by. destruct (Stripe.formElement f), (Stripe.submitHandler f); simpl; lia.
Qed.

Lemma owned_by_length f : (length (owned_by f) <= 1)%nat.
Proof. unfold owned_by. destruct (Stripe.formElement f), (Stripe.submitHandler f); simpl; lia. Qed.

Lemma owned_length b w : (length (owned b w) <= 1)%nat.
Proof.
  unfold owned, held. destruct (JSMap.get _ _); [|simpl; lia].
  destruct (forms w !! _) as [[f|f]|]; simpl; try lia. apply owned_by_length.
Qed.

Lemma submits_remove_click (ls : list listener) el h :
  filter (fun l => type l = js "submit") (filter (fun l => l <> Listener el (js "click") h) ls)
  = filter (fun l => type l = js "submit") ls.
Proof.
  induction ls as [|l ls IH]; [done|].
  rewrite !filter_cons. case_decide as Hne.
  - rewrite filter_cons. case_decide; by rewrite IH.
  - subst l. rewrite decide_False by discriminate. exact IH.
Qed.

Lemma filter_all {A} (P : A -> Prop) `{!forall x, Decision (P x)} (l : list A) :
  (forall x, P x) -> filter P l = l.
Proof.
  intros Hall. induction l as [|x l IH]; [done|].
  by rewrite filter_cons_True, IH.
Qed.

(** [cleanupFormListeners] takes the submit listener of the form off the
    page and leaves the form holding none. *)
Lemma cleanupFormListeners_submits f e :
  let '(f', e') := Stripe.cleanupFormListeners f e in
  owned_by f' = []
  /\ submits e' = filter (fun l => l ∉ owned_by f) (submits e)
  /\ Env.page e' = Env.page e
  /\ Env.closures e' = Env.closures e
  /\ Stripe.isActive f' = Stripe.isActive f
  /\ Stripe.elementIDs f' = Stripe.elementIDs f.
Proof.
  unfold Stripe.cleanupFormListeners, owned_by, submits.
  destruct (Stripe.formElement f) as [el|] eqn:Hel;
    destruct (Stripe.submitHandler f) as [h|] eqn:Hh; simpl.
  all: destruct (Stripe.applePayButton f) as [b|];
    destruct (Stripe.applePayButtonHandler f) as [h'|]; simpl.
  all: rewrite ?Hel, ?Hh; simpl.
  all: rewrite ?submits_remove_click.
  all: repeat split; try done.
  all: try (rewrite !list_filter_filter; apply list_filter_iff; intros l;
            rewrite list_elem_of_singleton; tauto).
  all: symmetry; apply filter_all; intros l; apply not_elem_of_nil.
Qed.


Lemma filter_not_elem_self (xs : list listener) : filter (fun l => l ∉ xs) xs = [].
Proof.
  assert (H : forall ys : list listener, (forall y, y ∈ ys -> y ∈ xs) ->
            filter (fun l => l ∉ xs) ys = []).
  { induction ys as [|y ys IH]; intros Hsub; [done|].
    rewrite filter_cons_False.
    - apply IH. intros z Hz. apply Hsub. by right.
    - intros Hy. apply Hy, Hsub. by left. }
  by apply H.
Qed.

Lemma submitListeners_put ref F e w :
  submitListeners (put_form ref F (set_env e w)) = submits e.
Proof. reflexivity. Qed.

Lemma forms_put ref F e w : forms (put_form ref F (set_env e w)) = <[ref := F]> (forms w).
Proof. reflexivity. Qed.

(** Replacing a form other than the one kept under [defaultKey], by a
    form that holds no submit listener, on a page with the same submit
    listeners. *)
Lemma settled_put_other b w ref F e' :
  settled_state b w ->
  submits e' = submits (env w) ->
  JSMap.get (currentForms b) defaultKey <> Some ref ->
  (forall f, F = StripeForm f -> owned_by f = []) ->
  settled_state b (put_form ref F (set_env e' w)).
Proof.
  intros [Hown Hothers Halive Hapart] Hsub Hnot HF. split.
  - rewrite submitListeners_put, Hsub.
    change (submits (env w)) with (submitListeners w).
    rewrite Hown. unfold owned, held. destruct (JSMap.get _ defaultKey) as [rd|]; [|done].
    rewrite forms_put, list_lookup_insert_ne; [done|]. intros ->. by apply Hnot.
  - intros key ref' f Hkey Hget Hform. rewrite forms_put in Hform.
    destruct (decide (ref = ref')) as [->|Hne].
    + destruct (decide (ref' < length (forms w))%nat) as [Hlt|Hge].
      * rewrite list_lookup_insert_eq in Hform by done. injection Hform as HFeq. by apply HF.
      * rewrite list_insert_ge in Hform by lia.
        apply lookup_lt_Some in Hform. lia.
    + rewrite list_lookup_insert_ne in Hform by done. by eapply Hothers.
  - intros key ref' Hget. rewrite forms_put, length_insert. by eapply Halive.
  - exact Hapart.
Qed.

(** Replacing the form kept under [defaultKey], on a page whose submit
    listeners are those of the new form. *)
Lemma settled_put_default b w ref f' e' :
  settled_state b w ->
  JSMap.get (currentForms b) defaultKey = Some ref ->
  submits e' = owned_by f' ->
  settled_state b (put_form ref (StripeForm f') (set_env e' w)).
Proof.
  intros [Hown Hothers Halive Hapart] Hget Hsub. split.
  - rewrite submitListeners_put, Hsub. unfold owned, held. rewrite Hget, forms_put.
    rewrite list_lookup_insert_eq; [done|]. by eapply Halive.
  - intros key ref' f Hkey Hget' Hform. rewrite forms_put in Hform.
    rewrite list_lookup_insert_ne in Hform; [by eapply Hothers|].
    intros ->. apply Hkey. by eapply Hapart.
  - intros key ref' Hget'. rewrite forms_put, length_insert. by eapply Halive.
  - exact Hapart.
Qed.

(** Keeping a new form, which holds no submit listener, under a key that
    is free. *)
Lemma settled_register b w key F :
  settled_state b w ->
  JSMap.get (currentForms b) key = None ->
  (forall f, F = StripeForm f -> owned_by f = []) ->
  (key = defaultKey -> submitListeners w = []) ->
  settled_state (set_currentForms (JSMap.set (currentForms b) key (length (forms w))) b)
    (snd (new_form F w)).
Proof.
  intros [Hown Hothers Halive Hapart] Hfree HF Hclean. split; simpl.
  - change (submitListeners {| env := env w; forms := forms w ++ [F] |})
      with (submitListeners w).
    unfold owned, held. simpl. destruct (decide (key = defaultKey)) as [->|Hne].
    + rewrite get_set_eq. rewrite Hclean by done.
      rewrite lookup_app_r by lia. rewrite Nat.sub_diag. simpl.
      destruct F as [f|f]; [|done]. symmetry. by apply HF.
    + rewrite get_set_ne by done. rewrite Hown. unfold owned, held.
      destruct (JSMap.get _ defaultKey) as [rd|] eqn:Hrd; [|done].
      rewrite lookup_app_l; [done|]. by eapply Halive.
  - intros key' ref f Hkey' Hget Hform.
    destruct (decide (key = key')) as [<-|Hne].
    + rewrite get_set_eq in Hget. injection Hget as <-.
      rewrite lookup_app_r in Hform by lia. rewrite Nat.sub_diag in Hform.
      simpl in Hform. injection Hform as HFeq. by apply HF.
    + rewrite get_set_ne in Hget by done.
      rewrite lookup_app_l in Hform by (by eapply Halive). by eapply Hothers.
  - intros key' ref Hget. rewrite length_app. simpl.
    destruct (decide (key = key')) as [<-|Hne].
    + rewrite get_set_eq in Hget. injection Hget as <-. lia.
    + rewrite get_set_ne in Hget by done. apply Halive in Hget. lia.
  - intros k1 k2 ref H1 H2.
    destruct (decide (key = k1)) as [<-|Hne1]; destruct (decide (key = k2)) as [<-|Hne2].
    + done.
    + rewrite get_set_eq in H1. injection H1 as <-.
      rewrite get_set_ne in H2 by done. apply Halive in H2. lia.
    + rewrite get_set_eq in H2. injection H2 as <-.
      rewrite get_set_ne in H1 by done. apply Halive in H1. lia.
    + rewrite get_set_ne in H1, H2 by done. by eapply Hapart.
Qed.

(** [cleanup(formKey)]: the key is free afterwards, and the submit
    listener of the form that was kept under it is off the page. *)
Lemma cleanup_settled key b w :
  settled_state b w ->
  let '(b', w') := cleanup key b w in
  settled_state b' w'
  /\ JSMap.get (currentForms b') key = None
  /\ (key = defaultKey -> submitListeners w' = [])
  /\ length (forms w') = length (forms w)
  /\ Env.page (env w') = Env.page (env w)
  /\ provider b' = provider b /\ user b' = user b
  /\ (key <> defaultKey -> submitListeners w' = submitListeners w).
Proof.
  intros Hs. pose proof Hs as [Hown Hothers Halive Hapart]. unfold cleanup.
  destruct (JSMap.get (currentForms b) key) as [ref|] eqn:Hget.
  2:{ split; [done|]. split; [done|]. split; [|done].
      intros ->. rewrite Hown. unfold owned, held. by rewrite Hget. }
  assert (Hkept : forall w',
            submitListeners w' = (if decide (key = defaultKey) then [] else owned b w) ->
            key <> defaultKey -> submitListeners w' = submitListeners w).
  { intros w' Hsub Hk. rewrite Hsub, decide_False by done. by rewrite Hown. }
  assert (Hdeleted : forall w',
            submitListeners w' = (if decide (key = defaultKey) then [] else owned b w) ->
            (forall r, r <> ref -> forms w' !! r = forms w !! r) ->
            (forall f, forms w' !! ref = Some (StripeForm f) -> owned_by f = []) ->
            length (forms w') = length (forms w) ->
            settled_state (set_currentForms (JSMap.delete (currentForms b) key) b) w').
  { intros w' Hsub Hsame Href Hlen. split; simpl.
    - rewrite Hsub. unfold owned, held. simpl. case_decide as Hk.
      + subst key. by rewrite get_delete_eq.
      + rewrite get_delete_ne by done.
        destruct (JSMap.get _ defaultKey) as [rd|] eqn:Hrd; [|done].
        rewrite Hsame; [done|]. intros ->. apply Hk. by eapply Hapart.
    - intros key' ref' f Hkey' Hget' Hform.
      apply get_delete_Some in Hget' as [Hne Hget'].
      rewrite Hsame in Hform; [by eapply Hothers|].
      intros ->. apply Hne. by eapply Hapart.
    - intros key' ref' Hget'. apply get_delete_Some in Hget' as [_ Hget'].
      rewrite Hlen. by eapply Halive.
    - intros k1 k2 r H1 H2. apply get_delete_Some in H1 as [_ H1].
      apply get_delete_Some in H2 as [_ H2]. by eapply Hapart. }
  destruct (forms w !! ref) as [[f|f]|] eqn:Hform.
  - pose proof (cleanupFormListeners_submits f (env w)) as Hc.
    destruct (Stripe.cleanupFormListeners f (env w)) as [f' e'].
    destruct Hc as (Hf' & Hsub & Hdoc & _).
    assert (Hlt : (ref < length (forms w))%nat) by (by eapply Halive).
    assert (Hsub' : submitListeners (put_form ref (StripeForm f') (set_env e' w))
                    = if decide (key = defaultKey) then [] else owned b w).
    { rewrite submitListeners_put, Hsub.
      change (submits (env w)) with (submitListeners w).
      rewrite Hown. case_decide as Hk.
      - subst key. unfold owned, held. rewrite Hget, Hform. apply filter_not_elem_self.
      - rewrite (Hothers key ref f Hk Hget Hform).
        apply filter_all. intros l. apply not_elem_of_nil. }
    split; [|split; [|split; [|split; [|split; [|split; [|split]]]]]].
    + apply Hdeleted; [exact Hsub'| | |].
      * intros r Hr. rewrite forms_put. by rewrite list_lookup_insert_ne.
      * intros g Hg. rewrite forms_put, list_lookup_insert_eq in Hg by done.
        by injection Hg as <-.
      * by rewrite forms_put, length_insert.
    + simpl. apply get_delete_eq.
    + intros Hk. rewrite Hsub'. by rewrite decide_True.
    + by rewrite forms_put, length_insert.
    + exact Hdoc.
    + done.
    + done.
    + by apply Hkept.
  - assert (Hsub' : submitListeners w
                    = if decide (key = defaultKey) then [] else owned b w).
    { rewrite Hown. case_decide as Hk; [|done].
      subst key. unfold owned, held. by rewrite Hget, Hform. }
    split; [|split; [|split; [|split; [|split; [|split; [|split]]]]]]; try done.
    + apply Hdeleted; [exact Hsub'|done| |done].
      intros g Hg. rewrite Hform in Hg. discriminate Hg.
    + simpl. apply get_delete_eq.
    + intros ->. rewrite Hown. unfold owned, held. by rewrite Hget, Hform.
  - assert (Hsub' : submitListeners w
                    = if decide (key = defaultKey) then [] else owned b w).
    { rewrite Hown. case_decide as Hk; [|done].
      subst key. unfold owned, held. by rewrite Hget, Hform. }
    split; [|split; [|split; [|split; [|split; [|split; [|split]]]]]]; try done.
    + apply Hdeleted; [exact Hsub'|done| |done].
      intros g Hg. rewrite Hform in Hg. discriminate Hg.
    + simpl. apply get_delete_eq.
    + intros ->. rewrite Hown. unfold owned, held. by rewrite Hget, Hform.
Qed.


Lemma getFormKey_default kind options :
  getFormKey kind options = defaultKey <-> kind = js "stripe" /\ Options.applePay options = false.
Proof.
  unfold getFormKey, defaultKey. split.
  - case_bool_decide as Hk; simpl.
    + subst kind. destruct (Options.applePay options); [discriminate|done].
    + intros H. exfalso. apply Hk.
      change (js "stripe:default") with (js "stripe" ++ js ":" ++ js "default") in H.
      by apply app_inv_tail in H.
  - intros [-> ->]. reflexivity.
Qed.

Lemma setButtonState_env state f e :
  Env.listeners (Stripe.setButtonState state f e) = Env.listeners e
  /\ Env.page (Stripe.setButtonState state f e) = Env.page e
  /\ Env.closures (Stripe.setButtonState state f e) = Env.closures e.
Proof.
  unfold Stripe.setButtonState. destruct (Stripe.submit f); [|done].
  by destruct (_ && _).
Qed.

(** [displayError] returns when the id of the error element is a plain
    identifier, and attaches nothing when it returns. *)
Lemma displayError_env text f e :
  match Stripe.displayError text f e with
  | Returns e' =>
      Env.listeners e' = Env.listeners e /\ Env.page e' = Env.page e
      /\ Env.closures e' = Env.closures e
  | Throws _ =>
      CSS.plain_identifier (Stripe.ElementIDs.error (Stripe.elementIDs f)) = false
  end.
Proof.
  unfold Stripe.displayError, Env.querySelector.
  destruct (CSS.plain_identifier _); [by destruct (Env.getElementById _ _)|].
  by destruct (Env.selectors e _) as [[el|]|err].
Qed.

(** The first task of [StripeForm.show] attaches nothing. *)
Lemma Stripe_show_start_facts productId paywallId placementId options bundle f0 e :
  let '(f, e', p) :=
    Stripe.show_start productId paywallId placementId options bundle f0 e in
  Env.listeners e' = Env.listeners e
  /\ Env.page e' = Env.page e
  /\ owned_by f = owned_by f0
  /\ Stripe.isActive f = Stripe.isActive f0
  /\ Stripe.elementIDs f = Stripe.detect options f0 e
  /\ (Options.applePay options = false ->
      CSS.plain_identifier (Stripe.ElementIDs.submit (Stripe.detect options f0 e)) = true ->
      Stripe.ElementIDs.submit (Stripe.detect options f0 e) ∈ Env.document e ->
      p = None)
  /\ (Options.applePay options = true -> p = None).
Proof.
  unfold Stripe.show_start. cbv zeta.
  set (f1 := Stripe.set_elementIDs _ _).
  set (e1 := Env.does _ e).
  assert (Hids : Stripe.elementIDs f1 = Stripe.detect options f0 e) by reflexivity.
  destruct (Options.applePay options); cbn [negb].
  - repeat split; try done.
  - rewrite Hids.
    assert (Hfound : CSS.plain_identifier
                       (Stripe.ElementIDs.submit (Stripe.detect options f0 e)) = true ->
                     Stripe.ElementIDs.submit (Stripe.detect options f0 e) ∈ Env.document e ->
                     Env.querySelector (Stripe.ElementIDs.submit (Stripe.detect options f0 e)) e1
                     = Returns (Some (Stripe.ElementIDs.submit (Stripe.detect options f0 e)))).
    { intros Hp Hin. by apply querySelector_plain. }
    destruct (Env.querySelector _ e1) as [[button|]|err].
    + destruct (setButtonState_env Loading (Stripe.set_submit (Some button) f1) e1)
        as (Hl & Hd & _).
      repeat split; try done.
    + repeat split; try done. intros _ Hp Hin. specialize (Hfound Hp Hin). discriminate Hfound.
    + repeat split; try done. intros _ Hp Hin. specialize (Hfound Hp Hin). discriminate Hfound.
Qed.

Lemma initStripe_failed_facts log f e :
  let '(f', e', thrown) := Stripe.initStripe_failed log f e in
  Env.listeners e' = Env.listeners e
  /\ Env.page e' = Env.page e
  /\ f' = f
  /\ (CSS.plain_identifier (Stripe.ElementIDs.error (Stripe.elementIDs f)) = true ->
      thrown = None).
Proof.
  unfold Stripe.initStripe_failed.
  pose proof (displayError_env "Failed to initialize payment form. Please try again." f
                (Env.logError log true e)) as Hd.
  destruct (Stripe.displayError _ f _) as [e1|err].
  - destruct Hd as (Hl & Hp & _).
    destruct (setButtonState_env ErrorState f e1) as (Hl' & Hp' & _).
    rewrite Hl', Hp', Hl, Hp. done.
  - repeat split; try done. intros H. rewrite H in Hd. discriminate Hd.
Qed.

Lemma initStripe_facts f e :
  let '(f', e', thrown) := Stripe.initStripe f e in
  Env.listeners e' = Env.listeners e
  /\ Env.page e' = Env.page e
  /\ owned_by f' = owned_by f
  /\ Stripe.isActive f' = Stripe.isActive f
  /\ Stripe.elementIDs f' = Stripe.elementIDs f
  /\ (CSS.plain_identifier (Stripe.ElementIDs.error (Stripe.elementIDs f)) = true ->
      thrown = None).
Proof.
  unfold Stripe.initStripe.
  destruct (Stripe.stripe f); cbn [negb].
  - destruct (Stripe.customer f).
    + by destruct (Env.getElementById _ _).
    + pose proof (initStripe_failed_facts
                    "Failed to initialize Stripe, customer not initialized" f e) as H.
      destruct (Stripe.initStripe_failed _ f e) as [[f' e'] thrown].
      destruct H as (Hl & Hp & -> & Ht). done.
  - pose proof (initStripe_failed_facts "Failed to initialize Stripe" f e) as H.
    destruct (Stripe.initStripe_failed _ f e) as [[f' e'] thrown].
    destruct H as (Hl & Hp & -> & Ht). done.
Qed.

Lemma initializeApplePay_facts u options f e :
  let '(f', e') := Stripe.initializeApplePay u options f e in
  Env.listeners e' = Env.listeners e
  /\ Env.page e' = Env.page e
  /\ owned_by f' = owned_by f.
Proof.
  unfold Stripe.initializeApplePay.
  destruct (Stripe.stripe f); cbn [negb]; [|done].
  destruct (Stripe.productBundle f) as [bundle|]; [|done].
  destruct (Options.applePayConfig options ≫= ApplePayConfig.staticPrice) as [[c a]|];
    [done|].
  destruct (ProductBundle.properties bundle) as [properties|]; [|done].
  destruct (truthy (Utils.getValueByPath u properties _)); [|done].
  by destruct (Utils.priceInCents u _).
Qed.

(** [setupForm] on a form that holds no submit listener, on a page
    without submit listeners: afterwards the submit listeners of the page
    are those of the form. *)
Lemma setupForm_facts f e :
  owned_by f = [] -> submits e = [] ->
  let '(f', e') := Stripe.setupForm f e in
  Env.page e' = Env.page e
  /\ submits e' = owned_by f'
  /\ (Stripe.isActive f = true ->
      CSS.plain_identifier (Stripe.ElementIDs.form (Stripe.elementIDs f)) = true ->
      Stripe.ElementIDs.form (Stripe.elementIDs f) ∈ Env.document e ->
      length (owned_by f') = 1%nat).
Proof.
  intros Hf He. unfold Stripe.setupForm.
  destruct (Stripe.isActive f); cbn [negb].
  2:{ split; [done|]. split; [by rewrite Hf|]. intros H. discriminate H. }
  pose proof (cleanupFormListeners_submits f e) as Hc.
  destruct (Stripe.cleanupFormListeners f e) as [f1 e1].
  destruct Hc as (Hf1 & Hsub & Hpage & _ & _ & Hids).
  rewrite He in Hsub. simpl in Hsub.
  rewrite Hids, (querySelector_page _ _ _ Hpage).
  assert (Hfound : CSS.plain_identifier (Stripe.ElementIDs.form (Stripe.elementIDs f)) = true ->
                   Stripe.ElementIDs.form (Stripe.elementIDs f) ∈ Env.document e ->
                   Env.querySelector (Stripe.ElementIDs.form (Stripe.elementIDs f)) e
                   = Returns (Some (Stripe.ElementIDs.form (Stripe.elementIDs f)))).
  { intros Hp Hin. by apply querySelector_plain. }
  destruct (Env.querySelector _ e) as [[form|]|err].
  - set (l := Listener form (js "submit") (Env.closures e1)).
    assert (Hfresh : l ∉ Env.listeners (Env.set_closures (S (Env.closures e1)) e1)).
    { simpl. intros Hl. assert (Hl' : l ∈ submits e1).
      { unfold submits. apply list_elem_of_filter. by split. }
      rewrite Hsub in Hl'. by apply not_elem_of_nil in Hl'. }
    cbn [Env.closure]. unfold Env.addEventListener.
    rewrite bool_decide_eq_false_2 by exact Hfresh.
    split; [by rewrite <- Hpage|]. split; [|done].
    unfold submits. simpl. rewrite filter_app.
    change (filter _ (Env.listeners e1)) with (submits e1). rewrite Hsub.
    reflexivity.
  - split; [by rewrite <- Hpage|]. split; [by rewrite Hf1|].
    intros _ Hp Hin. specialize (Hfound Hp Hin). discriminate Hfound.
  - split; [by rewrite <- Hpage|]. split; [by rewrite Hf1|].
    intros _ Hp Hin. specialize (Hfound Hp Hin). discriminate Hfound.
Qed.

(** The second task of [StripeForm.show], for a form that holds no
    submit listener yet. *)
Lemma Stripe_show_resume_facts u options r f e :
  owned_by f = [] ->
  (Options.applePay options = false -> submits e = []) ->
  let '(f', e', s) := Stripe.show_resume u options r f e in
  Env.page e' = Env.page e
  /\ (if Options.applePay options
      then submits e' = submits e /\ owned_by f' = []
      else submits e' = owned_by f')
  /\ (Options.applePay options = false -> Stripe.isActive f = true ->
      CSS.plain_identifier (Stripe.ElementIDs.error (Stripe.elementIDs f)) = true ->
      CSS.plain_identifier (Stripe.ElementIDs.form (Stripe.elementIDs f)) = true ->
      Stripe.ElementIDs.form (Stripe.elementIDs f) ∈ Env.document e ->
      (exists c, r = Fulfilled c) -> length (owned_by f') = 1%nat).
Proof.
  intros Hf He. unfold Stripe.show_resume.
  destruct r as [c|err].
  2:{ split; [done|]. split.
      - destruct (Options.applePay options); [done|]. by rewrite He, Hf.
      - intros _ _ _ _ _ [c Hc]. discriminate Hc. }
  set (f1 := Stripe.set_customer c f).
  set (e1 := match c with Some _ => e | None => _ end).
  assert (He1 : Env.listeners e1 = Env.listeners e /\ Env.page e1 = Env.page e).
  { subst e1. by destruct c. }
  destruct He1 as [Hl1 Hd1].
  assert (Hs1 : submits e1 = submits e) by (unfold submits; by rewrite Hl1).
  change (Stripe.isActive f1) with (Stripe.isActive f).
  destruct (Stripe.isActive f) eqn:Hact; cbn [negb].
  2:{ split; [done|]. split.
      - destruct (Options.applePay options); [done|].
        rewrite Hs1, He by done. symmetry. exact Hf.
      - intros _ H. discriminate H. }
  destruct (Options.applePay options) eqn:Hap; cbn [negb].
  - pose proof (initializeApplePay_facts u options f1 e1) as Hi.
    destruct (Stripe.initializeApplePay u options f1 e1) as [f2 e2].
    destruct Hi as (Hl2 & Hd2 & Ho2).
    split; [by rewrite Hd2|]. split; [|intros H; discriminate H].
    split; [unfold submits; by rewrite Hl2, Hl1|by rewrite Ho2].
  - pose proof (initStripe_facts f1 e1) as Hi.
    destruct (Stripe.initStripe f1 e1) as [[f2 e2] thrown].
    destruct Hi as (Hl2 & Hd2 & Ho2 & Ha2 & Hids2 & Hthrown).
    assert (Hs2 : submits e2 = []).
    { unfold submits. rewrite Hl2. fold (submits e1). rewrite Hs1. by apply He. }
    destruct thrown as [err|].
    { split; [by rewrite Hd2|]. split; [rewrite Hs2, Ho2; symmetry; exact Hf|].
      intros _ _ Hp _ _ _. specialize (Hthrown Hp). discriminate Hthrown. }
    pose proof (setupForm_facts f2 e2 (eq_trans Ho2 Hf) Hs2) as Hsf.
    destruct (Stripe.setupForm f2 e2) as [f3 e3].
    destruct Hsf as (Hd3 & Hs3 & Hone).
    split; [by rewrite Hd3, Hd2|]. split; [exact Hs3|].
    intros _ _ _ Hp Hin _. apply Hone.
    + by rewrite Ha2.
    + by rewrite Hids2.
    + rewrite Hids2, (page_document _ _ Hd2), (page_document _ _ Hd1). exact Hin.
Qed.

Lemma insert_last {A} (l : list A) x y : <[length l := x]> (l ++ [y]) = l ++ [x].
Proof.
  rewrite insert_app_r_alt by lia. by rewrite Nat.sub_diag.
Qed.

(** What the first task of [FormBuilder.show] establishes: the key of
    the call is cleaned up (for the card form: the page is left without
    submit listener), and the new form is kept under it. *)
Lemma show_start_settled productId paywallId placementId options bundle b w :
  settled_state b w ->
  let '(b1, w1, p) := show_start productId paywallId placementId options bundle b w in
  let kind := PaymentProvider.kind (provider b) in
  let key := getFormKey kind options in
  settled_state b1 w1
  /\ (key = defaultKey -> submitListeners w1 = [])
  /\ (key <> defaultKey -> submitListeners w1 = submitListeners w)
  /\ Env.page (env w1) = Env.page (env w)
  /\ provider b1 = provider b /\ user b1 = user b
  /\ match p with
     | Settled _ => kind <> js "stripe" \/ Options.applePay options = false
     | Awaiting ref =>
         JSMap.get (currentForms b1) key = Some ref
         /\ match forms w1 !! ref with
            | Some (StripeForm f) =>
                kind = js "stripe" /\ owned_by f = [] /\ Stripe.isActive f = true
                /\ Stripe.elementIDs f
                   = Stripe.detect options (Stripe.new (user b) (provider b)) (env w)
            | Some (PaddleForm _) => kind <> js "stripe"
            | None => False
            end
     end
  /\ (kind = js "stripe" -> Options.applePay options = false ->
      CSS.plain_identifier
        (Stripe.ElementIDs.submit
           (Stripe.detect options (Stripe.new (user b) (provider b)) (env w))) = true ->
      Stripe.ElementIDs.submit
        (Stripe.detect options (Stripe.new (user b) (provider b)) (env w))
        ∈ Env.document (env w) ->
      exists ref, p = Awaiting ref).
Proof.
  intros Hs. unfold show_start.
  set (kind := PaymentProvider.kind (provider b)).
  set (key := getFormKey kind options).
  pose proof (cleanup_settled key b w Hs) as Hc.
  destruct (cleanup key b w) as [b1 w1].
  destruct Hc as (Hs1 & Hfree & Hclean & Hlen & Hpage & Hp & Hu & Hkept).
  pose proof (page_document _ _ Hpage) as Hdoc.
  case_bool_decide as Hstripe.
  - (* a Stripe form *)
    cbn [new_form set_currentForms user provider]. rewrite !Hu, !Hp.
    set (f0 := Stripe.new (user b) (provider b)).
    pose proof (Stripe_show_start_facts productId paywallId placementId options bundle f0
                  (env w1)) as Hst.
    change (env {| env := env w1; forms := forms w1 ++ [StripeForm f0] |}) with (env w1).
    destruct (Stripe.show_start productId paywallId placementId options bundle f0 (env w1))
      as [[f e] p].
    destruct Hst as (Hl & Hd & Ho & Ha & Hids & Hawait & Hawait').
    pose proof (settled_register b1 w1 key (StripeForm f0) Hs1 Hfree) as Hreg.
    cbn [new_form snd] in Hreg.
    assert (Hreg' : settled_state
                      (set_currentForms (JSMap.set (currentForms b1) key (length (forms w1))) b1)
                      {| env := env w1; forms := forms w1 ++ [StripeForm f0] |}).
    { apply Hreg; [|exact Hclean]. intros g Hg. by injection Hg as <-. }
    set (b2 := set_currentForms _ b1) in *.
    set (w2 := {| env := env w1; forms := forms w1 ++ [StripeForm f0] |}) in *.
    assert (Hget2 : JSMap.get (currentForms b2) key = Some (length (forms w1))).
    { subst b2. simpl. apply JSMapFacts.get_set_eq. }
    assert (Hsub : submits e = submits (env w2)).
    { unfold submits. by rewrite Hl. }
    assert (Hs3 : settled_state b2 (put_form (length (forms w1)) (StripeForm f) (set_env e w2))).
    { destruct (decide (key = defaultKey)) as [Hk|Hk].
      - apply settled_put_default; [done|by rewrite <- Hk|].
        rewrite Hsub. change (submits (env w2)) with (submitListeners w1).
        rewrite (Hclean Hk). by rewrite Ho.
      - apply settled_put_other; [done|done| |].
        + intros Hd'. apply Hk. by eapply (refs_apart _ _ Hreg').
        + intros g Hg. injection Hg as <-. by rewrite Ho. }
    assert (Hforms : forms (put_form (length (forms w1)) (StripeForm f) (set_env e w2))
                     !! length (forms w1) = Some (StripeForm f)).
    { rewrite forms_put. subst w2. cbn [forms]. rewrite insert_last.
      rewrite lookup_app_r by lia. by rewrite Nat.sub_diag. }
    cbn beta iota zeta.
    split; [exact Hs3|]. split.
    { intros Hk. rewrite submitListeners_put, Hsub.
      change (submits (env w2)) with (submitListeners w1). by apply Hclean. }
    split.
    { intros Hk. rewrite submitListeners_put, Hsub.
      change (submits (env w2)) with (submitListeners w1). by apply Hkept. }
    split; [simpl; by rewrite Hd, Hpage|]. split; [done|]. split; [done|]. split.
    + destruct p as [r|].
      * destruct (Options.applePay options) eqn:Hap; [|by right].
        specialize (Hawait' eq_refl). discriminate Hawait'.
      * split; [exact Hget2|]. rewrite Hforms.
        split; [done|]. split; [by rewrite Ho|]. split; [by rewrite Ha|].
        rewrite Hids. by apply detect_page.
    + intros _ Hap Hplain Hin. destruct p as [r|]; [|by eexists].
      exfalso. assert (Hnone : Some r = None); [|discriminate Hnone].
      rewrite <- (detect_page options f0 (env w) (env w1) Hpage) in Hplain, Hin.
      apply Hawait; [done|done|]. by rewrite Hdoc.
  - case_bool_decide as Hpaddle.
    + (* a Paddle form *)
      cbn [new_form set_currentForms user provider]. rewrite !Hu, !Hp.
      set (f0 := Paddle.new (user b) (provider b)).
      change (env {| env := env w1; forms := forms w1 ++ [PaddleForm f0] |}) with (env w1).
      set (fe := Paddle.show_start productId paywallId placementId options f0 (env w1)).
      assert (Hfe : Env.listeners (snd fe) = Env.listeners (env w1)
                    /\ Env.page (snd fe) = Env.page (env w1)) by done.
      destruct fe as [f e]. destruct Hfe as [Hl Hd]. cbn [snd] in Hl, Hd.
      pose proof (settled_register b1 w1 key (PaddleForm f0) Hs1 Hfree) as Hreg.
      cbn [new_form snd] in Hreg.
      assert (Hreg' : settled_state
                        (set_currentForms (JSMap.set (currentForms b1) key (length (forms w1))) b1)
                        {| env := env w1; forms := forms w1 ++ [PaddleForm f0] |}).
      { apply Hreg; [|exact Hclean]. intros g Hg. discriminate Hg. }
      set (b2 := set_currentForms _ b1) in *.
      set (w2 := {| env := env w1; forms := forms w1 ++ [PaddleForm f0] |}) in *.
      assert (Hkey : key <> defaultKey).
      { intros Hk. apply getFormKey_default in Hk as [Hk _]. by apply Hstripe. }
      assert (Hget2 : JSMap.get (currentForms b2) key = Some (length (forms w1))).
      { subst b2. simpl. apply JSMapFacts.get_set_eq. }
      assert (Hs3 : settled_state b2
                      (put_form (length (forms w1)) (PaddleForm f) (set_env e w2))).
      { apply settled_put_other; [done| | |].
        - unfold submits. by rewrite Hl.
        - intros Hd'. apply Hkey. by eapply (refs_apart _ _ Hreg').
        - intros g Hg. discriminate Hg. }
      cbn beta iota zeta.
      split; [exact Hs3|]. split; [done|]. split.
      { intros _. rewrite submitListeners_put. unfold submits. rewrite Hl.
        change (filter _ (Env.listeners (env w1))) with (submitListeners w1). by apply Hkept. }
      split; [simpl; by rewrite Hd, Hpage|]. split; [done|]. split; [done|]. split.
      * split; [exact Hget2|]. rewrite forms_put. subst w2. cbn [forms].
        rewrite insert_last, lookup_app_r by lia. by rewrite Nat.sub_diag.
      * intros Hk. done.
    + (* a kind the orchestrator does not know *)
      cbn beta iota zeta.
      split; [exact Hs1|]. split; [exact Hclean|]. split; [exact Hkept|].
      split; [exact Hpage|].
      split; [done|]. split; [done|]. split; [by left|]. intros Hk. done.
Qed.

Lemma Paddle_show_resume_facts r initialized f e :
  let '(f', e', s) := Paddle.show_resume r initialized f e in
  Env.listeners e' = Env.listeners e /\ Env.page e' = Env.page e.
Proof.
  unfold Paddle.show_resume. destruct r as [[s|]|err]; [|done|done].
  cbv zeta. destruct (negb _); [done|]. destruct (negb _); [done|].
  unfold Paddle.setButtonState. cbn [Paddle.currentOptions].
  destruct (Paddle.currentOptions f) as [o|]; [|done].
  by destruct (Options.buttonStateSetter o).
Qed.

Lemma loaded_facts f :
  owned_by (Stripe.loaded f) = owned_by f
  /\ Stripe.isActive (Stripe.loaded f) = Stripe.isActive f
  /\ Stripe.elementIDs (Stripe.loaded f) = Stripe.elementIDs f.
Proof. unfold Stripe.loaded. by destruct (truthy _). Qed.

(** The arrival of the library changes neither the page nor what the
    forms hold. *)
Lemma stripe_loaded_settled b w key ref f :
  settled_state b w ->
  JSMap.get (currentForms b) key = Some ref ->
  forms w !! ref = Some (StripeForm f) ->
  owned_by f = [] ->
  settled_state b (stripe_loaded ref w)
  /\ env (stripe_loaded ref w) = env w
  /\ forms (stripe_loaded ref w) !! ref = Some (StripeForm (Stripe.loaded f)).
Proof.
  intros Hs Hget Hform Ho. unfold stripe_loaded. rewrite Hform.
  destruct (loaded_facts f) as (Hol & _ & _).
  assert (Hlt : (ref < length (forms w))%nat) by (by eapply (refs_alive _ _ Hs)).
  split; [|split; [reflexivity|]].
  - change (put_form ref (StripeForm (Stripe.loaded f)) w)
      with (put_form ref (StripeForm (Stripe.loaded f)) (set_env (env w) w)).
    destruct (decide (key = defaultKey)) as [Hk|Hk].
    + apply settled_put_default; [done|by rewrite <- Hk|].
      change (submits (env w)) with (submitListeners w).
      rewrite (listeners_owned _ _ Hs). unfold owned, held.
      rewrite <- Hk, Hget, Hform. by rewrite Hol.
    + apply settled_put_other; [done|done| |].
      * intros Hd. apply Hk. by eapply (refs_apart _ _ Hs).
      * intros g Hg. injection Hg as <-. by rewrite Hol.
  - cbn [put_form forms]. by rewrite list_lookup_insert_eq.
Qed.

(** An awaited call of [show] takes a settled orchestrator to a settled
    one. It leaves exactly one submit listener when the card form of
    Stripe is shown on a page that carries it and the customer request
    is answered; it leaves the submit listeners of the page as they are
    when it is not the card form of Stripe that is shown. *)
Lemma show_settled u productId paywallId placementId options bundle loaded r b w :
  settled_state b w ->
  let '(b', w', _) :=
    show u productId paywallId placementId options bundle loaded r b w in
  settled_state b' w'
  /\ Env.page (env w') = Env.page (env w)
  /\ provider b' = provider b /\ user b' = user b
  /\ (getFormKey (PaymentProvider.kind (provider b)) options <> defaultKey ->
      submitListeners w' = submitListeners w)
  /\ (PaymentProvider.kind (provider b) = js "stripe" ->
      Options.applePay options = false ->
      card_form_on_page (provider b) (user b) options (env w) ->
      (exists c, r = Customer (Fulfilled c)) ->
      length (submitListeners w') = 1%nat).
Proof.
  intros Hs. unfold show.
  pose proof (show_start_settled productId paywallId placementId options bundle b w Hs) as H1.
  destruct (show_start productId paywallId placementId options bundle b w) as [[b1 w1] p].
  cbv zeta in H1.
  set (kind := PaymentProvider.kind (provider b)) in *.
  set (key := getFormKey kind options) in *.
  destruct H1 as (Hs1 & Hclean & Hkept & Hpage & Hp & Hu & Hform & Hawait).
  destruct p as [s0|ref].
  { split; [done|]. split; [done|]. split; [done|]. split; [done|]. split; [done|].
    intros Hk Hap (Hplain & _ & _ & Hsubmit & _) _.
    destruct (Hawait Hk Hap Hplain Hsubmit) as [ref Href]. discriminate Href. }
  destruct Hform as [Hget Hform].
  destruct (forms w1 !! ref) as [[f|f]|] eqn:Hlook; [| |done].
  - destruct Hform as (Hk & Ho & Hact & Hids).
    (* the library arrives, or not *)
    set (w1' := if loaded then stripe_loaded ref w1 else w1).
    assert (Hw1' : exists f', settled_state b1 w1' /\ env w1' = env w1
                              /\ forms w1' !! ref = Some (StripeForm f')
                              /\ owned_by f' = [] /\ Stripe.isActive f' = true
                              /\ Stripe.elementIDs f' = Stripe.elementIDs f).
    { subst w1'. destruct loaded.
      - destruct (stripe_loaded_settled b1 w1 key ref f Hs1 Hget Hlook Ho) as (Hsl & He & Hf).
        destruct (loaded_facts f) as (Hol & Hal & Hil).
        exists (Stripe.loaded f). rewrite Hol, Hal, Hil. done.
      - exists f. done. }
    destruct Hw1' as (f' & Hs1' & Henv & Hlook' & Ho' & Hact' & Hids').
    clearbody w1'. unfold show_resume. rewrite Hlook'.
    destruct r as [rc|rs initialized].
    2:{ split; [done|]. split; [by rewrite Henv|]. split; [done|]. split; [done|]. split.
        - intros Hkey. unfold submitListeners. rewrite Henv. by apply Hkept.
        - intros _ _ _ [c Hc]. discriminate Hc. }
    assert (Hnone : Options.applePay options = false -> submits (env w1') = []).
    { intros Hap. rewrite Henv. apply Hclean. apply getFormKey_default. done. }
    pose proof (Stripe_show_resume_facts u options rc f' (env w1') Ho' Hnone) as Hr.
    destruct (Stripe.show_resume u options rc f' (env w1')) as [[f'' e''] s].
    destruct Hr as (Hd' & Hsub & Hone).
    split; [|split; [|split; [|split; [|split]]]].
    + destruct (Options.applePay options) eqn:Hap.
      * destruct Hsub as [Hsub Ho''].
        apply settled_put_other; [done|done| |].
        -- intros Hd. assert (Hkey : defaultKey = key) by (by eapply (refs_apart _ _ Hs1')).
           symmetry in Hkey. apply getFormKey_default in Hkey as [_ Hkey].
           rewrite Hap in Hkey. discriminate Hkey.
        -- intros g Hg. by injection Hg as <-.
      * apply settled_put_default; [done| |done].
        assert (Hkey : key = defaultKey) by (by apply getFormKey_default).
        by rewrite <- Hkey.
    + simpl. by rewrite Hd', Henv, Hpage.
    + done.
    + done.
    + intros Hkey. rewrite submitListeners_put.
      destruct (Options.applePay options) eqn:Hap.
      * destruct Hsub as [-> _]. rewrite Henv. by apply Hkept.
      * exfalso. apply Hkey. by apply getFormKey_default.
    + intros _ Hap (_ & Hpf & Hpe & _ & Hin) [c Hc]. rewrite submitListeners_put.
      rewrite Hap in Hsub. rewrite Hsub.
      apply Hone; [done|done| | | |].
      * by rewrite Hids', Hids.
      * by rewrite Hids', Hids.
      * rewrite Hids', Hids, Henv, (page_document _ _ Hpage). exact Hin.
      * injection Hc as ->. by eexists.
  - assert (Hsame : (if loaded then stripe_loaded ref w1 else w1) = w1).
    { destruct loaded; [|done]. unfold stripe_loaded. by rewrite Hlook. }
    rewrite Hsame. unfold show_resume. rewrite Hlook.
    destruct r as [rc|rs initialized].
    { split; [done|]. split; [done|]. split; [done|]. split; [done|]. split; [done|].
      intros Hk. done. }
    pose proof (Paddle_show_resume_facts rs initialized f (env w1)) as Hr.
    destruct (Paddle.show_resume rs initialized f (env w1)) as [[f' e'] s].
    destruct Hr as [Hl Hd'].
    split; [|split; [|split; [|split; [|split]]]].
    + apply settled_put_other; [done| | |].
      * unfold submits. by rewrite Hl.
      * intros Hd. assert (Hkey : defaultKey = key) by (by eapply (refs_apart _ _ Hs1)).
        symmetry in Hkey. apply getFormKey_default in Hkey as [Hkey _]. done.
      * intros g Hg. discriminate Hg.
    + simpl. by rewrite Hd', Hpage.
    + done.
    + done.
    + intros Hkey. rewrite submitListeners_put. unfold submits. rewrite Hl.
      by apply Hkept.
    + intros Hk. done.
Qed.

Lemma new_settled p usr doc :
  settled_state (Builder.new p usr) (World (Env.initial doc) []).
Proof. split; simpl; try done. Qed.

(** A form kept under another key than that of the card form holds no
    submit listener. *)
Lemma held_other key b w : settled_state b w -> key <> defaultKey -> held key b w = [].
Proof.
  intros Hs Hk. unfold held.
  destruct (JSMap.get (currentForms b) key) as [ref|] eqn:Hget; [|done].
  destruct (forms w !! ref) as [[f|f]|] eqn:Hform; [|done|done].
  by eapply (others_hold_none _ _ Hs).
Qed.

(** C1, as amended. For every orchestrator and every variant key, two
    calls of [show] in a row with the same arguments, each awaited before
    the next call, leave at most one submit listener on the page, and it
    is the one held by the form kept under the key of the card form. The
    second call cleans up before it constructs and registers the new
    form: for the key of the card form, the page is without submit
    listener at that point. Exactly one submit listener is left for the
    key when the provider is Stripe, the card form is asked for (not
    Apple Pay), the page carries the submit button and the form element
    under ids that are plain identifiers, and the customer request of the
    second call is answered; this holds whether or not the Stripe library
    arrives while a request is in flight. A Paddle form and an Apple Pay
    form attach no submit listener: the form kept under their key holds
    none, and the submit listeners of the page are as they were before
    the two calls. *)
Theorem show_twice_at_most_one_submit_listener
    u productId paywallId placementId options bundle loaded1 loaded2 r1 r2 b w :
  settled_state b w ->
  let kind := PaymentProvider.kind (provider b) in
  let key := getFormKey kind options in
  let '(b1, w1, _) :=
    show u productId paywallId placementId options bundle loaded1 r1 b w in
  let '(_, cleaned, _) := show_start productId paywallId placementId options bundle b1 w1 in
  let '(b2, w2, _) :=
    show u productId paywallId placementId options bundle loaded2 r2 b1 w1 in
  ((length (submitListeners w2) <= 1)%nat /\ submitListeners w2 = held defaultKey b2 w2)
  /\ (key = defaultKey -> submitListeners cleaned = [])
  /\ (kind = js "stripe" ->
      Options.applePay options = false ->
      card_form_on_page (provider b) (user b) options (env w) ->
      (exists c, r2 = Customer (Fulfilled c)) ->
      length (held key b2 w2) = 1%nat /\ submitListeners w2 = held key b2 w2)
  /\ (kind <> js "stripe" \/ Options.applePay options = true ->
      held key b2 w2 = [] /\ submitListeners w2 = submitListeners w).
Proof.
  intros Hs kind key.
  pose proof (show_settled u productId paywallId placementId options bundle loaded1 r1 b w Hs)
    as H1.
  destruct (show u productId paywallId placementId options bundle loaded1 r1 b w)
    as [[b1 w1] s1].
  destruct H1 as (Hs1 & Hpage1 & Hp1 & Hu1 & Hkept1 & _).
  pose proof (show_start_settled productId paywallId placementId options bundle b1 w1 Hs1)
    as Hmid.
  destruct (show_start productId paywallId placementId options bundle b1 w1)
    as [[bm cleaned] pm].
  cbv zeta in Hmid. destruct Hmid as (_ & Hclean & _).
  pose proof (show_settled u productId paywallId placementId options bundle loaded2 r2 b1 w1
                Hs1) as H2.
  destruct (show u productId paywallId placementId options bundle loaded2 r2 b1 w1)
    as [[b2 w2] s2].
  destruct H2 as (Hs2 & Hpage2 & Hp2 & Hu2 & Hkept2 & Hone).
  assert (Hall : submitListeners w2 = held defaultKey b2 w2)
    by exact (listeners_owned _ _ Hs2).
  split; [|split; [|split]].
  - split; [|exact Hall]. rewrite Hall. apply held_length.
  - subst key kind. rewrite <- Hp1. exact Hclean.
  - intros Hk Hap Hform Hr.
    assert (Hkey : key = defaultKey) by (by apply getFormKey_default).
    rewrite Hkey, <- Hall. split; [|reflexivity].
    rewrite Hp1, Hu1 in Hone. apply Hone; try done.
    destruct Hform as (H1' & H2' & H3' & H4' & H5').
    unfold card_form_on_page.
    rewrite (detect_page _ _ _ _ Hpage1), (page_document _ _ Hpage1). done.
  - intros Hother.
    assert (Hkey : key <> defaultKey).
    { intros Hk. apply getFormKey_default in Hk as [Hk Hap].
      destruct Hother as [Hn|Ht]; [done|]. rewrite Hap in Ht. discriminate Ht. }
    split; [by apply held_other|].
    rewrite Hp1 in Hkept2. rewrite (Hkept2 Hkey). by apply Hkept1.
Qed.

(** The statement at the sample page: a fresh Stripe orchestrator, the
    card form shown twice with the customer request answered each time,
    the library arriving during the second call only. *)
Lemma show_twice_at_most_one_submit_listener_witness :
  let b := Builder.new Sample.stripe (Sample.visitor [Sample.stripe]) in
  let w := World (Env.initial Sample.page) [] in
  let r := Customer (Fulfilled (Some Sample.customer)) in
  let shown loaded b w :=
    show Sample.utils (js "price_monthly") (Some (js "pw1")) (Some (js "pl1"))
      Options.empty (Some Sample.full) loaded r b w in
  settled_state b w
  /\ card_form_on_page (provider b) (user b) Options.empty (env w)
  /\ length (submitListeners (snd (fst (shown true (fst (fst (shown false b w)))
                                           (snd (fst (shown false b w))))))) = 1%nat.
Proof.
  intros b w r shown.
  assert (Hs : settled_state b w) by apply new_settled.
  assert (Hpage : card_form_on_page (provider b) (user b) Options.empty (env w)).
  { split; [vm_compute; reflexivity|]. split; [vm_compute; reflexivity|].
    split; [vm_compute; reflexivity|].
    split; apply (@bool_decide_unpack _ (elem_of_dec_slow _ _)); vm_compute; exact I. }
  split; [exact Hs|]. split; [exact Hpage|].
  pose proof (show_twice_at_most_one_submit_listener Sample.utils (js "price_monthly")
                (Some (js "pw1")) (Some (js "pl1")) Options.empty (Some Sample.full)
                false true r r b w Hs)
    as H.
  cbv zeta in H. subst shown. cbv beta.
  destruct (show Sample.utils (js "price_monthly") (Some (js "pw1")) (Some (js "pl1"))
              Options.empty (Some Sample.full) false r b w) as [[b1 w1] s1].
  destruct (show_start (js "price_monthly") (Some (js "pw1")) (Some (js "pl1"))
              Options.empty (Some Sample.full) b1 w1) as [[bm cleaned] pm].
  cbn [fst snd].
  destruct (show Sample.utils (js "price_monthly") (Some (js "pw1")) (Some (js "pl1"))
              Options.empty (Some Sample.full) true r b1 w1) as [[b2 w2] s2].
  destruct H as (_ & _ & Hone & _). cbn [fst snd].
  destruct Hone as [Hlen Heq]; [reflexivity|reflexivity|exact Hpage|by eexists|].
  rewrite Heq. exact Hlen.
Defined.

(** C1, as stated, fails: an orchestrator for Paddle attaches no submit
    listener, so two calls of [show] in a row leave none. *)
Lemma paddle_show_twice_leaves_no_listener : ~ show_twice_leaves_one_listener.
Proof.
  intros H.
  specialize (H Sample.utils (Builder.new Sample.paddle (Sample.visitor [Sample.paddle]))
                (World (Env.initial Sample.page) [])
                (js "pri_1") (Some (js "pw1")) (Some (js "pl1")) Options.empty
                (Some Sample.full) false false
                (Subscribed (Fulfilled (Some Sample.subscription)) true)
                (Subscribed (Fulfilled (Some Sample.subscription)) true)
                (new_settled _ _ _)).
  vm_compute in H. discriminate H.
Qed.

(** Outside the exactly-one clause: ids that are not plain identifiers.
    With [options.id = "1x"] the lookup of the submit button throws a
    SyntaxError: [show] is rejected and attaches nothing, although the
    page has elements with the ids [show] settles on. *)
Example show_rejected_when_id_is_no_identifier :
  let options :=
    {| Options.paymentProvider := None; Options.successUrl := None;
       Options.onSuccess := false; Options.id := Some (js "1x");
       Options.buttonStateSetter := false; Options.applePay := false;
       Options.applePayConfig := None |} in
  let b := Builder.new Sample.stripe (Sample.visitor [Sample.stripe]) in
  let w := World (Env.initial {[ js "1x-stripe-submit"; js "1x-apphud-stripe-payment-form";
                                 js "1x-stripe-error-message" ]}) [] in
  let '(_, w', s) :=
    show Sample.utils (js "price_monthly") (Some (js "pw1")) (Some (js "pl1"))
      options (Some Sample.full) true (Customer (Fulfilled (Some Sample.customer))) b w in
  s = Rejected (Error (js "SyntaxError")) /\ submitListeners w' = [].
Proof. vm_compute. auto. Qed.

(** Outside the amended statement: a second call of [show] made while the
    customer request of the first is still in flight. The first form has
    no listener yet when the second call cleans up, and nothing cancels
    it: both forms attach their submit listener once their customer
    requests are answered. *)
Example overlapping_shows_leave_two_listeners :
  let b := Builder.new Sample.stripe (Sample.visitor [Sample.stripe]) in
  let w := World (Env.initial Sample.page) [] in
  let r := Customer (Fulfilled (Some Sample.customer)) in
  let start b w := show_start (js "price_monthly") (Some (js "pw1")) (Some (js "pl1"))
                     Options.empty (Some Sample.full) b w in
  let '(b1, w1, _) := start b w in
  let '(b2, w2, _) := start b1 w1 in
  let w3 := fst (show_resume Sample.utils 0 Options.empty r w2) in
  let w4 := fst (show_resume Sample.utils 1 Options.empty r w3) in
  submitListeners w4
  = [Listener (js "apphud-payment-form") (js "submit") 0;
     Listener (js "apphud-payment-form") (js "submit") 1].
Proof. vm_compute. reflexivity. Qed.

End OrchestrationFacts.

(* ===================================================================== *)
(** * Properties of the provider maps *)
(* ===================================================================== *)

Module ProviderMapFacts.
Import SDK Selection.

Lemma keys_set {V} (m : JSMap.t V) k v :
  JSMap.keys (JSMap.set m k v)
  = if bool_decide (k ∈ JSMap.keys m) then JSMap.keys m else JSMap.keys m ++ [k].
Proof.
  induction m as [|[k' v'] r IH]; simpl.
  { done. }
  destruct (decide (k' = k)) as [->|Hne].
  - rewrite bool_decide_eq_true_2 by done. simpl.
    rewrite bool_decide_eq_true_2; [done|apply list_elem_of_here].
  - rewrite (bool_decide_eq_false_2 (k' = k)) by done. simpl.
    unfold JSMap.keys in *. rewrite IH.
    destruct (decide (k ∈ r.*1)) as [Hin|Hin].
    + rewrite !bool_decide_eq_true_2; [done|by apply list_elem_of_further|done].
    + rewrite !bool_decide_eq_false_2; [done| |done].
      intros [Heq|Hr]%elem_of_cons; [by subst|done].
Qed.

Lemma keys_set_NoDup {V} (m : JSMap.t V) k v :
  NoDup (JSMap.keys m) -> NoDup (JSMap.keys (JSMap.set m k v)).
Proof.
  intros H. rewrite keys_set. case_bool_decide as Hin; [done|].
  apply NoDup_app. split; [done|]. split; [|apply NoDup_singleton].
  intros x Hx ->%list_elem_of_singleton. done.
Qed.

Lemma processProduct_products providers d product k :
  JSMap.get (_currentProducts (processProduct providers d product)) k
  = match provider_for providers (Product.store product) with
    | Some _ => if bool_decide (Product.store product = k) then Some product
                else JSMap.get (_currentProducts d) k
    | None => JSMap.get (_currentProducts d) k
    end.
Proof.
  unfold processProduct. destruct (List.find _ _); [|done]. simpl.
  case_bool_decide as Hk.
  - subst. apply JSMapFacts.get_set_eq.
  - by apply JSMapFacts.get_set_ne.
Qed.

Lemma processProduct_providers providers d product k :
  JSMap.get (currentPaymentProviders (processProduct providers d product)) k
  = match provider_for providers (Product.store product) with
    | Some provider => if bool_decide (Product.store product = k) then Some provider
                       else JSMap.get (currentPaymentProviders d) k
    | None => JSMap.get (currentPaymentProviders d) k
    end.
Proof.
  unfold processProduct. destruct (List.find _ _); [|done]. simpl.
  case_bool_decide as Hk.
  - subst. apply JSMapFacts.get_set_eq.
  - by apply JSMapFacts.get_set_ne.
Qed.

Lemma fold_products providers products k : forall d,
  JSMap.get (_currentProducts (fold_left (processProduct providers) products d)) k
  = match provider_for providers k,
          last (filter (fun product => Product.store product = k) products) with
    | Some _, Some product => Some product
    | _, _ => JSMap.get (_currentProducts d) k
    end.
Proof.
  induction products as [|p ps IH]; intros d; simpl.
  - by destruct (List.find _ _).
  - rewrite IH, processProduct_products, filter_cons.
    case_decide as Hk; case_bool_decide; try done.
    + subst k. destruct (List.find _ _); [|done].
      destruct (filter _ ps) as [|q qs] eqn:E; [done|].
      change (p :: q :: qs) with ([p] ++ q :: qs).
      rewrite last_app. by destruct (last (q :: qs)).
    + destruct (List.find _ providers), (List.find _ providers); done.
Qed.

Lemma fold_providers providers products k : forall d,
  JSMap.get (currentPaymentProviders (fold_left (processProduct providers) products d)) k
  = match provider_for providers k with
    | Some provider =>
        if bool_decide (Exists (fun product => Product.store product = k) products)
        then Some provider else JSMap.get (currentPaymentProviders d) k
    | None => JSMap.get (currentPaymentProviders d) k
    end.
Proof.
  induction products as [|p ps IH]; intros d; simpl.
  - by destruct (List.find _ _).
  - rewrite IH, processProduct_providers.
    destruct (provider_for providers k) as [provider|] eqn:Ek.
    + case_bool_decide as Hps.
      * rewrite bool_decide_eq_true_2; [done|]. by apply Exists_cons_tl.
      * case_bool_decide as Hk.
        -- subst k. rewrite Ek. rewrite bool_decide_eq_true_2; [done|]. by apply Exists_cons_hd.
        -- rewrite bool_decide_eq_false_2.
           ++ by destruct (provider_for providers (Product.store p)).
           ++ intros [?|?]%Exists_cons; done.
    + destruct (provider_for providers (Product.store p)) eqn:Ep; [|done].
      case_bool_decide as Hk; [|done]. subst k. congruence.
Qed.

Lemma fold_keys providers products : forall d,
  JSMap.keys (_currentProducts d) = JSMap.keys (currentPaymentProviders d) ->
  NoDup (JSMap.keys (_currentProducts d)) ->
  let d' := fold_left (processProduct providers) products d in
  JSMap.keys (_currentProducts d') = JSMap.keys (currentPaymentProviders d')
  /\ NoDup (JSMap.keys (_currentProducts d')).
Proof.
  induction products as [|p ps IH]; intros d Hk Hnd; simpl; [done|].
  apply IH.
  - unfold processProduct. destruct (List.find _ _); [|done]. simpl.
    rewrite !keys_set. by rewrite Hk.
  - unfold processProduct. destruct (List.find _ _); [|done]. simpl.
    by apply keys_set_NoDup.
Qed.

Lemma snd_update bundle providers d :
  Selection.maps (snd (updateProductsAndProviders bundle providers d))
  = Selection.maps (fold_left (processProduct providers) (ProductBundle.products bundle)
                      (set_maps [] [] d)).
Proof.
  rewrite ResolverFacts.updateProductsAndProviders_unfold. cbv zeta.
  by destruct (_ =? _)%nat.
Qed.

Lemma get_In {V} (m : JSMap.t V) k v : JSMap.get m k = Some v -> (k, v) ∈ m.
Proof.
  unfold JSMap.get, dict_get. destruct (List.find _ m) as [[k' v']|] eqn:E; [|done].
  simpl. intros [= ->]. apply find_some in E as [Hin Hk].
  apply bool_decide_eq_true in Hk. simpl in Hk. subst. by apply list_elem_of_In.
Qed.

Lemma get_None_keys {V} (m : JSMap.t V) k : JSMap.get m k = None <-> k ∉ JSMap.keys m.
Proof.
  unfold JSMap.get, dict_get, JSMap.keys. split.
  - intros H Hin. apply list_elem_of_fmap in Hin as ([k' v] & -> & Hin).
    destruct (List.find _ m) eqn:E; [done|].
    apply list_elem_of_In in Hin.
    pose proof (find_none _ _ E _ Hin) as Hf. simpl in Hf.
    by apply bool_decide_eq_false in Hf.
  - intros H. destruct (List.find _ m) as [[k' v']|] eqn:E; [|done].
    apply find_some in E as [Hin Hk]. apply bool_decide_eq_true in Hk. simpl in Hk. subst.
    exfalso. apply H. apply list_elem_of_fmap. exists (k, v'). split; [done|].
    by apply list_elem_of_In.
Qed.

(** [updateProductsAndProviders] answers [true] exactly when some product
    of the bundle is sold through a store for which a payment provider
    is given. *)
Theorem providers_found_iff_some_store_served bundle providers d :
  fst (updateProductsAndProviders bundle providers d) = true
  <-> exists product provider,
        product ∈ ProductBundle.products bundle /\ provider ∈ providers
        /\ PaymentProvider.kind provider = Product.store product.
Proof.
  rewrite ResolverFacts.updateProductsAndProviders_answer.
  pose proof (snd_update bundle providers d) as Hm. unfold Selection.maps in Hm.
  injection Hm as _ Hm. rewrite Hm. clear Hm.
  set (d' := fold_left _ _ _).
  rewrite negb_true_iff, Nat.eqb_neq. unfold JSMap.size.
  split.
  - intros Hne. destruct (currentPaymentProviders d') as [|[k provider] r] eqn:E; [done|].
    assert (Hget : JSMap.get (currentPaymentProviders d') k = Some provider).
    { rewrite E. unfold JSMap.get, dict_get. simpl. by rewrite bool_decide_eq_true_2. }
    subst d'. rewrite fold_providers in Hget. simpl in Hget.
    destruct (provider_for providers k) as [provider'|] eqn:Ef; [|done].
    case_bool_decide as Hex; [|done].
    apply Exists_exists in Hex as (product & Hin & Hstore).
    apply find_some in Ef as [Hpin Hkind]. apply bool_decide_eq_true in Hkind.
    exists product, provider'. split; [done|]. split; [by apply list_elem_of_In|congruence].
  - intros (product & provider & Hin & Hpin & Hkind) Hlen.
    assert (Hget : JSMap.get (currentPaymentProviders d') (Product.store product) = None).
    { by destruct (currentPaymentProviders d'). }
    subst d'. rewrite fold_providers in Hget.
    destruct (provider_for providers (Product.store product)) eqn:Ef.
    + rewrite bool_decide_eq_true_2 in Hget; [done|].
      apply Exists_exists. by exists product.
    + apply list_elem_of_In in Hpin.
      pose proof (find_none _ _ Ef _ Hpin) as Hf. simpl in Hf.
      by apply bool_decide_eq_false in Hf.
Qed.

(** After [updateProductsAndProviders] the two maps have the same keys,
    in the same order and without repetition; the product kept under a
    key is a product of the bundle sold through that store, and the
    provider kept under it is one of the given providers, of that kind. *)
Theorem provider_maps_aligned bundle providers d :
  let d' := snd (updateProductsAndProviders bundle providers d) in
  JSMap.keys (_currentProducts d') = JSMap.keys (currentPaymentProviders d')
  /\ NoDup (JSMap.keys (_currentProducts d'))
  /\ (forall k product,
        JSMap.get (_currentProducts d') k = Some product ->
        product ∈ ProductBundle.products bundle /\ Product.store product = k)
  /\ (forall k provider,
        JSMap.get (currentPaymentProviders d') k = Some provider ->
        provider ∈ providers /\ PaymentProvider.kind provider = k).
Proof.
  intros d'.
  pose proof (snd_update bundle providers d) as Hm. unfold Selection.maps in Hm.
  injection Hm as Hp Hq. fold d' in Hp, Hq. rewrite Hp, Hq.
  destruct (fold_keys providers (ProductBundle.products bundle) (set_maps [] [] d))
    as [Hk Hnd]; [done|apply NoDup_nil_2|].
  split; [done|]. split; [done|]. split.
  - intros k product. rewrite fold_products. simpl.
    destruct (provider_for providers k); [|done].
    destruct (last _) as [q|] eqn:El; [|done]. intros [= ->].
    apply last_Some in El as [l' El].
    assert (Hin : product ∈ filter (fun product => Product.store product = k)
                              (ProductBundle.products bundle)).
    { rewrite El. apply elem_of_app. right. apply list_elem_of_here. }
    by apply list_elem_of_filter in Hin as [? ?].
  - intros k provider. rewrite fold_providers. simpl.
    destruct (provider_for providers k) as [provider'|] eqn:Ef; [|done].
    case_bool_decide; [|done]. intros [= ->].
    apply find_some in Ef as [Hin Hkind]. apply bool_decide_eq_true in Hkind.
    split; [by apply list_elem_of_In|done].
Qed.

(** When several products of the bundle are sold through the same store,
    the last one is kept; when several providers are of the same kind,
    the first one is. *)
Theorem last_product_first_provider_kept bundle providers d k :
  let d' := snd (updateProductsAndProviders bundle providers d) in
  let sold := filter (fun product => Product.store product = k)
                (ProductBundle.products bundle) in
  currentProductForProvider k d'
  = match provider_for providers k with Some _ => last sold | None => None end
  /\ JSMap.get (currentPaymentProviders d') k
     = match last sold with Some _ => provider_for providers k | None => None end.
Proof.
  intros d' sold. unfold currentProductForProvider.
  pose proof (snd_update bundle providers d) as Hm. unfold Selection.maps in Hm.
  injection Hm as Hp Hq. fold d' in Hp, Hq. rewrite Hp, Hq.
  rewrite fold_products, fold_providers. simpl. fold sold.
  split.
  - destruct (provider_for providers k); [|done]. by destruct (last sold).
  - destruct (provider_for providers k); [|by destruct (last sold)].
    case_bool_decide as Hex.
    + apply Exists_exists in Hex as (product & Hin & Hstore).
      assert (Hs : product ∈ sold) by (by apply list_elem_of_filter).
      destruct sold as [|x xs] eqn:E; [by apply elem_of_nil in Hs|].
      destruct (last (x :: xs)) eqn:El; [done|].
      by apply last_None in El.
    + destruct (last sold) as [q|] eqn:El; [|done].
      exfalso. apply Hex. apply last_Some in El as [l' El].
      assert (Hin : q ∈ sold) by (rewrite El; apply elem_of_app; right; apply list_elem_of_here).
      apply list_elem_of_filter in Hin as [? ?].
      apply Exists_exists. by exists q.
Qed.


(** ** A successful selection *)

Lemma setCurrentItems_selected id i d p pw pws b :
  List.find (fun elm => bool_decide (Placement.identifier elm = id)) (placements d) = Some p ->
  Placement.paywalls p = pw :: pws ->
  index (Paywall.items_v2 pw) i = Some b ->
  ProductBundle.products b <> [] ->
  let d' := setCurrentItems id i d in
  _currentPlacement d' = Some p /\ _currentPaywall d' = Some pw /\ _currentBundle d' = Some b
  /\ Selection.maps d'
     = Selection.maps (fold_left (processProduct (user_payment_providers d))
                         (ProductBundle.products b) (set_maps [] [] d))
  /\ Env.cookies (env d') = Env.cookies (env d)
  /\ placements d' = placements d.
Proof.
  intros Hfind Hpw Hi Hne d'.
  split; [|split; [|split; [|split; [|split]]]];
    [| | | |apply ResolverFacts.setCurrentItems_cookies|].
  all: subst d'; unfold setCurrentItems, findPlacementByID; rewrite Hfind, Hpw, Hi.
  all: set (d2 := match ProductBundle.properties b with Some _ => _ | None => _ end).
  all: assert (H2 : (_currentPlacement d2, _currentPaywall d2, _currentBundle d2, user d2)
                    = (Some p, Some pw, Some b, user d))
         by (subst d2; destruct (ProductBundle.properties b); [by destruct (existsb _ _)|done]).
  all: assert (H2p : placements d2 = placements d)
         by (subst d2; destruct (ProductBundle.properties b); [by destruct (existsb _ _)|done]).
  all: destruct (ProductBundle.products b) as [|x xs] eqn:Hb; [done|].
  all: pose proof (ResolverFacts.updateProductsAndProviders_frame b
                     (user_payment_providers d2) d2) as Hf.
  all: unfold Lifetime.outside_maps in Hf.
  all: injection H2 as H2a H2b H2c H2d.
  1-3: injection Hf as _ _ Hx Hy Hz _ _ _; congruence.
  2:{ injection Hf as Hx _ _ _ _ _ _ _. congruence. }
  rewrite snd_update.
  rewrite (ResolverFacts.fold_process_maps _ d). simpl.
  unfold user_payment_providers. by rewrite H2d, Hb.
Qed.

Lemma head_get {V} (m : JSMap.t V) v :
  head (JSMap.values m) = Some v -> exists k, JSMap.get m k = Some v.
Proof.
  destruct m as [|[k v'] r]; [done|]. simpl. intros [= ->]. exists k.
  unfold JSMap.get, dict_get. simpl. by rewrite bool_decide_eq_true_2.
Qed.

Lemma selection_succeeds d placementID bundleIndex :
  Selection.diagnose d placementID bundleIndex = None ->
  let d' := selectPlacementProduct placementID bundleIndex d in
  exists placement paywall bundle,
    List.find (fun elm => bool_decide (Placement.identifier elm = placementID)) (placements d)
    = Some placement
    /\ head (Placement.paywalls placement) = Some paywall
    /\ index (Paywall.items_v2 paywall) bundleIndex = Some bundle
    /\ _currentPlacement d' = Some placement
    /\ _currentPaywall d' = Some paywall
    /\ _currentBundle d' = Some bundle
    /\ (exists product,
          currentProduct d' = Some product /\ product ∈ ProductBundle.products bundle)
    /\ last (Env.trace (env d'))
       = Some (Emit (js "product_changed") (ProductChanged (currentProduct d')))
    /\ placements d' = placements d
    /\ Selection.maps d'
       = Selection.maps (fold_left (processProduct (user_payment_providers d))
                           (ProductBundle.products bundle) (set_maps [] [] d)).
Proof.
  intros Hd d'. subst d'. unfold selectPlacementProduct.
  pose proof (ResolverFacts.checkInitialization_outside_reports d) as H1.
  set (d1 := checkInitialization d) in *.
  pose proof (ResolverFacts.findPlacementByID_result placementID d1) as Hres.
  pose proof (ResolverFacts.findPlacementByID_frame placementID d1) as H2.
  destruct (findPlacementByID placementID d1) as [pl d2]. simpl in Hres, H2.
  rewrite H1 in H2.
  assert (Hpl : placements d1 = placements d) by (by injection H1).
  assert (Hu : user d2 = user d) by (by injection H2).
  assert (Hpl2 : placements d2 = placements d) by (by injection H2).
  rewrite Hpl in Hres. unfold Selection.diagnose in Hd. rewrite <- Hres in Hd.
  destruct pl as [p|]; [|done]. simpl.
  destruct (Placement.paywalls p) as [|pw pws] eqn:Hpw; [done|]. simpl.
  destruct (index (Paywall.items_v2 pw) bundleIndex) as [b|] eqn:Hi; [|done].
  destruct (existsb (Selection.compatible d) (ProductBundle.products b)) eqn:Hc; [|done].
  assert (Hne : ProductBundle.products b <> []).
  { intros E. rewrite E in Hc. done. }
  pose proof (ResolverFacts.updateProductsAndProviders_answer b
                (user_payment_providers d2) d2) as H4.
  pose proof (ResolverFacts.updateProductsAndProviders_frame b
                (user_payment_providers d2) d2) as Hf.
  assert (Hnz : currentPaymentProviders
                  (fold_left (processProduct (user_payment_providers d))
                     (ProductBundle.products b) (set_maps [] [] d)) <> []).
  { apply (ResolverFacts.fold_process_some d); [by left|done]. }
  pose proof (snd_update b (user_payment_providers d2) d2) as Hm.
  rewrite (ResolverFacts.fold_process_maps _ d) in Hm. simpl in Hm.
  assert (Hupp : user_payment_providers d2 = user_payment_providers d)
    by (unfold user_payment_providers; by rewrite Hu).
  rewrite Hupp in Hm, H4, Hf.
  rewrite Hupp.
  destruct (updateProductsAndProviders b (user_payment_providers d) d2) as [ok d3].
  simpl in H4, Hf, Hm.
  unfold Selection.maps in Hm. injection Hm as Hm1 Hm2.
  rewrite Hm2 in H4.
  destruct (currentPaymentProviders (fold_left _ _ _)) as [|kv rest] eqn:E in H4, Hnz; [done|].
  simpl in H4. subst ok. simpl.
  assert (Hpl3 : placements d3 = placements d).
  { unfold Lifetime.outside_maps in Hf. injection Hf as -> _ _ _ _ _ _ _. done. }
  assert (Hu3 : user_payment_providers d3 = user_payment_providers d).
  { unfold Lifetime.outside_maps in Hf. injection Hf as _ Hu3 _ _ _ _ _ _.
    unfold user_payment_providers. by rewrite Hu3, Hu. }
  destruct (setCurrentItems_selected placementID bundleIndex d3 p pw pws b)
    as (Ha & Hb & Hc' & Hmaps & _ & Hpl4); [by rewrite Hpl3|done|done|done|].
  rewrite Hu3 in Hmaps.
  rewrite (ResolverFacts.fold_process_maps _ d) in Hmaps. simpl in Hmaps.
  exists p, pw, b. rewrite Hpw. simpl.
  split; [done|]. split; [done|]. split; [done|].
  split; [exact Ha|]. split; [exact Hb|]. split; [exact Hc'|].
  split.
  - unfold currentProduct. simpl.
    unfold Selection.maps in Hmaps. injection Hmaps as Hp Hq. rewrite Hp.
    destruct (fold_keys (user_payment_providers d) (ProductBundle.products b)
                (set_maps [] [] d)) as [Hk _]; [done|apply NoDup_nil_2|].
    cbv zeta in Hk. rewrite E in Hk.
    destruct (_currentProducts (fold_left _ _ _)) as [|[k v] r] eqn:Ep; [done|].
    simpl. exists v. split; [done|].
    assert (Hget : JSMap.get (_currentProducts
                     (fold_left (processProduct (user_payment_providers d))
                        (ProductBundle.products b) (set_maps [] [] d))) k = Some v).
    { rewrite Ep. unfold JSMap.get, dict_get. simpl. by rewrite bool_decide_eq_true_2. }
    rewrite fold_products in Hget. simpl in Hget.
    destruct (provider_for (user_payment_providers d) k); [|done].
    destruct (last _) as [q|] eqn:El; [|done]. injection Hget as ->.
    apply last_Some in El as [l' El].
    assert (Hin : v ∈ filter (fun product => Product.store product = k)
                        (ProductBundle.products b)).
    { rewrite El. apply elem_of_app. right. apply list_elem_of_here. }
    by apply list_elem_of_filter in Hin as [? ?].
  - split; [by rewrite last_snoc|]. split; [simpl; by rewrite Hpl4|]. exact Hmaps.
Qed.

(** A selection that meets no obstacle sets the three pointers to the
    placement with the given identifier, its first paywall and the bundle
    at the given index; the current product is then a product of that
    bundle, and the call ends by emitting [product_changed] with it. *)
Theorem successful_selection_sets_pointers d placementID bundleIndex :
  Selection.diagnose d placementID bundleIndex = None ->
  let d' := selectPlacementProduct placementID bundleIndex d in
  exists placement paywall bundle,
    List.find (fun elm => bool_decide (Placement.identifier elm = placementID)) (placements d)
    = Some placement
    /\ head (Placement.paywalls placement) = Some paywall
    /\ index (Paywall.items_v2 paywall) bundleIndex = Some bundle
    /\ _currentPlacement d' = Some placement
    /\ _currentPaywall d' = Some paywall
    /\ _currentBundle d' = Some bundle
    /\ (exists product,
          currentProduct d' = Some product /\ product ∈ ProductBundle.products bundle)
    /\ last (Env.trace (env d'))
       = Some (Emit (js "product_changed") (ProductChanged (currentProduct d'))).
Proof.
  intros Hd d'.
  destruct (selection_succeeds d placementID bundleIndex Hd)
    as (placement & paywall & bundle & H1 & H2 & H3 & H4 & H5 & H6 & H7 & H8 & _ & _).
  exists placement, paywall, bundle. repeat (split; [assumption|]). exact H8.
Qed.

Lemma successful_selection_sets_pointers_witness :
  let d := Sample.fetched ∅ [Sample.stripe] in
  Selection.diagnose d (js "main") (Num 2) = None
  /\ _currentBundle (selectPlacementProduct (js "main") (Num 2) d) = Some Sample.bare.
Proof.
  intros d.
  assert (H : Selection.diagnose d (js "main") (Num 2) = None) by (vm_compute; reflexivity).
  split; [exact H|].
  destruct (successful_selection_sets_pointers d (js "main") (Num 2) H)
    as (placement & paywall & bundle & Hp & Hw & Hb & _ & _ & Hcur & _).
  rewrite Hcur. f_equal.
  vm_compute in Hp. injection Hp as <-.
  vm_compute in Hw. injection Hw as <-.
  vm_compute in Hb. injection Hb as <-. reflexivity.
Defined.

End ProviderMapFacts.

(* ===================================================================== *)
(** * Properties of the session *)
(* ===================================================================== *)

Module SessionFacts.
Import SDK Session.

(** ** Pieces of a split string *)

Lemma split_nonempty (sep : N) s : split sep s <> [].
Proof.
  destruct s as [|c r]; simpl; [done|].
  destruct (c =? sep); [done|]. by destruct (split sep r).
Qed.

Lemma split_length (sep : N) s :
  length (split sep s) = S (length (filter (fun c => c = sep) s)).
Proof.
  induction s as [|c r IH]; simpl; [done|].
  rewrite filter_cons. destruct (N.eqb_spec c sep) as [->|Hne].
  - rewrite decide_True by done. simpl. by rewrite IH.
  - rewrite decide_False by done.
    destruct (split sep r) as [|piece pieces] eqn:E; [by apply split_nonempty in E|].
    simpl in *. done.
Qed.

Lemma one_separator (sep : N) s :
  length (filter (fun c => c = sep) s) = 1%nat ->
  exists a b, s = a ++ sep :: b /\ (sep ∉ a) /\ (sep ∉ b).
Proof.
  induction s as [|c r IH]; simpl; [done|].
  rewrite filter_cons. destruct (decide (c = sep)) as [->|Hne]; simpl.
  - intros [= Hr]. exists [], r. split; [done|]. split; [apply not_elem_of_nil|].
    intros Hin. apply length_zero_iff_nil in Hr.
    assert (Hf : sep ∈ filter (fun c => c = sep) r) by (by apply list_elem_of_filter).
    rewrite Hr in Hf. by apply not_elem_of_nil in Hf.
  - intros Hr. destruct (IH Hr) as (a & b & -> & Ha & Hb).
    exists (c :: a), b. split; [done|]. split; [|done].
    intros [?|?]%elem_of_cons; [by subst|done].
Qed.

(** [getSavedPlacementBundleIndex] reads a selection only from a cookie
    with exactly one comma: the trimmed text before it is the placement
    identifier and the text after it is parsed as the index. Without the
    cookie, or with any other number of commas, the answer is no
    placement and index 0. *)
Theorem saved_selection_needs_one_comma d :
  let saved := getSavedPlacementBundleIndex d in
  match cookieText SelectedBundleIndex d with
  | Some s =>
      if bool_decide (length (filter (fun c => c = 44) s) = 1%nat)
      then exists a b, s = a ++ 44 :: b /\ (44 ∉ a) /\ (44 ∉ b)
                       /\ saved = {| placementID := Some (trim a);
                                     bundleIndex := parseInt (trim b) |}
      else saved = {| placementID := None; bundleIndex := Num 0 |}
  | None => saved = {| placementID := None; bundleIndex := Num 0 |}
  end.
Proof.
  unfold cookieText, getSavedPlacementBundleIndex.
  destruct (Env.getCookie SelectedBundleIndex (env d)) as [[s|q]|]; [|done|done].
  case_bool_decide as Hone.
  - destruct (one_separator 44 s Hone) as (a & b & -> & Ha & Hb).
    exists a, b. split; [done|]. split; [done|]. split; [done|].
    by rewrite JSFacts.split_pair.
  - pose proof (split_length 44 s) as Hlen.
    destruct (split 44 s) as [|x [|y [|z rest]]]; simpl in *; try done.
    exfalso. apply Hone. lia.
Qed.

(** ** reset *)

Lemma getCookie_deleteCookie k k' d :
  Env.getCookie k (env (deleteCookie k' d))
  = if bool_decide (k = k') then None else Env.getCookie k (env d).
Proof.
  unfold deleteCookie, Env.getCookie, Cookies.getCookie, Cookies.deleteCookie. simpl.
  case_bool_decide as Hk.
  - subst. apply lookup_delete_eq.
  - by apply lookup_delete_ne.
Qed.

Lemma getCookie_checkInitialization k d :
  Env.getCookie k (env (checkInitialization d)) = Env.getCookie k (env d).
Proof. unfold checkInitialization. by destruct (isInitialized d). Qed.

(** [reset] answers [true] and removes the two user id cookies and the
    persisted event queue, and no other cookie. The user id and the event
    queue held by the instance stay: with cookies disabled, [getUserID]
    answers after [reset] what it answered before. *)
Theorem reset_forgets_cookies_only d :
  let d' := fst (reset d) in
  snd (reset d) = true
  /\ (forall k, Env.getCookie k (env d')
                = if bool_decide (k ∈ [ProductionUserIdKey; DebugUserIdKey; EventsKey])
                  then None else Env.getCookie k (env d))
  /\ userID d' = userID d
  /\ eventQueue d' = eventQueue d
  /\ getUserID d' = if Config.disableCookies (config d) then userID d else None.
Proof.
  intros d'. split; [done|].
  assert (Hc : forall k, Env.getCookie k (env d')
                = if bool_decide (k ∈ [ProductionUserIdKey; DebugUserIdKey; EventsKey])
                  then None else Env.getCookie k (env d)).
  { intros k. subst d'. unfold reset. cbn [fst].
    rewrite !getCookie_deleteCookie, getCookie_checkInitialization.
    destruct k; reflexivity. }
  assert (Hu : userID d' = userID d /\ eventQueue d' = eventQueue d
               /\ config d' = config d).
  { subst d'. unfold reset, checkInitialization. cbn [fst].
    by destruct (isInitialized d). }
  destruct Hu as (Hu & Hq & Hcfg).
  split; [exact Hc|]. split; [exact Hu|]. split; [exact Hq|].
  unfold getUserID. rewrite Hu, Hcfg.
  destruct (Config.disableCookies (config d)) eqn:Hdis.
  - rewrite andb_true_r. case_bool_decide as Hsome; [done|].
    rewrite Hc.
    assert (Hnone : userID d = None).
    { destruct (userID d); [|done]. exfalso. apply Hsome. by eexists. }
    rewrite Hnone. by destruct (Config.debug (config d)).
  - rewrite andb_false_r. rewrite Hc. by destruct (Config.debug (config d)).
Qed.


(** [reset] removes the persisted event queue but not the queue of the
    instance: the next event tracked on an open gate is appended to the
    entries that were there, and all of them are persisted again. *)
Theorem reset_does_not_flush_queue name properties userProperties refreshPlacements
    (g : SDK.t) :
  Gate.isReady g = true ->
  Tracking.serialisable properties userProperties g = true ->
  let cleared := lift (fun d => fst (reset d)) g in
  let g' := fst (track name properties userProperties refreshPlacements cleared) in
  Env.getCookie EventsKey (env (Gate.self cleared)) = None
  /\ exists event,
       EventData.name event = name
       /\ eventQueue (Gate.self g') = eventQueue (Gate.self g) ++ [event]
       /\ Env.getCookie EventsKey (env (Gate.self g'))
          = Some (Json (eventQueue (Gate.self g) ++ [event])).
Proof.
  intros Hready Hser cleared g'.
  destruct (reset_forgets_cookies_only (Gate.self g)) as (_ & Hc & _ & Hq & _).
  set (d1 := fst (reset (Gate.self g))) in *.
  assert (Hcl : cleared = Gate.set_self d1 g) by reflexivity.
  split; [rewrite Hcl; simpl; by rewrite Hc|].
  subst g'. rewrite Hcl. clearbody d1. clear Hcl cleared Hc.
  assert (Hq' : eventQueue (checkInitialization d1) = eventQueue (Gate.self g)).
  { unfold checkInitialization. by destruct (isInitialized d1). }
  unfold track, generateId, Gate.ready, lift.
  cbn -[js digits checkInitialization getUserID track_closure]. rewrite Hready.
  rewrite TrackingFacts.track_closure_unfold. cbv zeta.
  cbn -[js digits checkInitialization getUserID]. rewrite Hq'.
  unfold Tracking.serialisable in Hser. rewrite <- andb_assoc in Hser.
  match goal with
  | |- context [EventData.stringifies (EventData.mk ?a ?b ?p ?up ?c ?d ?e)] =>
      change (EventData.stringifies (EventData.mk a b p up c d e))
        with (ApphudHash.stringifies p && ApphudHash.stringifies up)
  end.
  rewrite Hser. cbn -[js digits checkInitialization getUserID].
  eexists. split; [|split]; [|reflexivity|].
  - reflexivity.
  - unfold Env.getCookie, Cookies.getCookie, Cookies.setCookie. apply lookup_insert_eq.
Qed.

Lemma reset_does_not_flush_queue_witness :
  let g := fst (track (js "a") None None false (Sample.ready [Sample.stripe])) in
  Gate.isReady g = true
  /\ Tracking.serialisable None None g = true
  /\ length (eventQueue (Gate.self
               (fst (track (js "b") None None false
                       (lift (fun d => fst (reset d)) g))))) = 2%nat.
Proof.
  intros g. assert (H : Gate.isReady g = true) by reflexivity.
  assert (H' : Tracking.serialisable None None g = true) by reflexivity.
  split; [exact H|]. split; [exact H'|].
  destruct (reset_does_not_flush_queue (js "b") None None false g H H')
    as (_ & event & _ & Hq & _).
  rewrite Hq. reflexivity.
Defined.

(** ** init *)








(** ** The persisted queue at the next page load *)

Lemma replay_closed events : forall g : SDK.t,
  Gate.isReady g = false ->
  fold_left (fun g event => trackEvent event false g) events g
  = Gate.set_queue (Gate.queue g ++ map (fun e => TrackEventClosure e false) events) g.
Proof.
  induction events as [|e es IH]; intros g Hg; simpl.
  - rewrite app_nil_r. by destruct g.
  - unfold trackEvent at 2, Gate.ready. rewrite Hg. cbn [fst]. rewrite IH by done.
    simpl. by rewrite <- app_assoc.
Qed.

Lemma drain_replay events : forall g : SDK.t,
  Gate.isReady g = false ->
  Gate.queue g = map (fun e => TrackEventClosure e false) events ->
  exists g',
    Gate.drain call (length events) g = Some (g', None)
    /\ Env.trace (env (Gate.self g'))
       = Env.trace (env (Gate.self g)) ++ map (fun e => Call (CreateEvent e)) events
    /\ Gate.queue g' = [] /\ Gate.isReady g' = false
    /\ eventQueue (Gate.self g') = eventQueue (Gate.self g).
Proof.
  induction events as [|e es IH]; intros g Hg Hq; simpl.
  - rewrite Hq. exists g. by rewrite app_nil_r.
  - rewrite Hq. simpl.
    destruct (IH (trackEvent_closure e false
                    (Gate.set_queue (map (fun e => TrackEventClosure e false) es) g)))
      as (g' & Hrun & Htrace & Hqueue & Hready & Hevents); [done|done|].
    exists g'. split; [exact Hrun|]. split; [|done].
    rewrite Htrace. simpl. by rewrite <- app_assoc.
Qed.

Lemma init_frame options v (g : SDK.t) :
  InitOptions.apiKey options ∉ placeholderKeys ->
  let g2 := init_events
              (lift (fun d => set_config (configure options (config d)) d) g) in
  eventQueue (Gate.self (init options v g)) = eventQueue (Gate.self g2)
  /\ Gate.queue (init options v g) = Gate.queue g2
  /\ Gate.isReady (init options v g) = Gate.isReady g2.
Proof.
  intros Hkey g2. unfold init. rewrite bool_decide_eq_false_2 by done.
  fold g2. clearbody g2.
  unfold lift, generateId. cbn [Gate.self Gate.set_self Gate.queue Gate.isReady].
  destruct (truthy _); [done|].
  destruct (negb _); [|done]. by destruct (negb _).
Qed.

(** The events found in the persisted queue by [init] become the event
    queue of the new instance and wait behind the gate; when the gate
    opens they are sent again, in the order of the queue, before [ready]
    is emitted. *)
Theorem persisted_events_resent_when_gate_opens options v doc cookies events :
  InitOptions.apiKey options ∉ placeholderKeys ->
  cookies !! EventsKey = Some (Json events) ->
  let g := init options v (reload doc cookies) in
  eventQueue (Gate.self g) = events
  /\ Gate.queue g = map (fun e => TrackEventClosure e false) events
  /\ exists g',
       setReady true (length events) g = Some (g', None)
       /\ added g g' = map (fun e => Call (CreateEvent e)) events
                       ++ [Emit (js "ready") SdkReady]
       /\ Gate.isReady g' = true /\ Gate.queue g' = [].
Proof.
  intros Hkey Hcookie g.
  assert (Hg : eventQueue (Gate.self g) = events
               /\ Gate.queue g = map (fun e => TrackEventClosure e false) events
               /\ Gate.isReady g = false).
  { destruct (init_frame options v (reload doc cookies) Hkey) as (H1 & H2 & H3).
    fold g in H1, H2, H3. rewrite H1, H2, H3. clear H1 H2 H3.
    unfold init_events.
    change (Env.getCookie EventsKey _) with (cookies !! EventsKey). rewrite Hcookie.
    by rewrite replay_closed. }
  destruct Hg as (Hq & Hqueue & Hclosed).
  split; [exact Hq|]. split; [exact Hqueue|].
  destruct (drain_replay events g Hclosed Hqueue) as (g' & Hrun & Htrace & Hq' & Hr' & He').
  unfold setReady, Gate.setReady. rewrite Hrun. eexists. split; [reflexivity|].
  split; [|split; done].
  unfold added. cbn -[js]. rewrite Htrace, <- app_assoc.
  by rewrite drop_app_length.
Qed.

Lemma persisted_events_resent_when_gate_opens_witness :
  let left_over := eventQueue (Gate.self Sample.two_events_in_flight) in
  let cookies := Env.cookies (env (Gate.self Sample.two_events_in_flight)) in
  (InitOptions.apiKey Sample.key ∉ placeholderKeys)
  /\ cookies !! EventsKey = Some (Json left_over)
  /\ length left_over = 2%nat
  /\ eventQueue (Gate.self (init Sample.key (js "1.0") (reload ∅ cookies)))
     = left_over.
Proof.
  intros left_over cookies.
  assert (H1 : InitOptions.apiKey Sample.key ∉ placeholderKeys).
  { intros H. apply list_elem_of_In in H. vm_compute in H. intuition discriminate. }
  assert (H2 : cookies !! EventsKey = Some (Json left_over)) by (vm_compute; reflexivity).
  split; [exact H1|]. split; [exact H2|]. split; [reflexivity|].
  exact (proj1 (persisted_events_resent_when_gate_opens
                  Sample.key (js "1.0") ∅ cookies left_over H1 H2)).
Defined.

End SessionFacts.

(* ===================================================================== *)
(** * Properties of the variables of the page *)
(* ===================================================================== *)

Module VariableFacts.
Import SDK Session.





(** Without a saved selection a variable named by its path alone is not
    resolved against any default: the lookup is made with an undefined
    identifier, the answer is [null], and the failed lookup is reported
    the first time only. *)
Theorem one_part_key_needs_saved_selection u key r :
  44 ∉ key -> cookieText SelectedBundleIndex (sdk r) = None ->
  let '(value, r') := readVariableValueByKeyPath u key r in
  value = Returns None
  /\ undefinedReported r' = true
  /\ Env.trace (env (sdk r'))
     = Env.trace (env (sdk r))
       ++ (if undefinedReported r then []
           else [LogError (PlacementNotFound (js "undefined")
                             (map Placement.identifier (placements (sdk r)))) true]).
Proof.
  intros Hkey Hcookie. unfold readVariableValueByKeyPath.
  rewrite (JSFacts.split_no_sep _ _ Hkey). cbn [map].
  unfold getSavedPlacementBundleIndex. unfold cookieText in Hcookie.
  destruct (Env.getCookie SelectedBundleIndex (env (sdk r))) as [[s|q]|]; [done| |].
  all: cbn [SDK.placementID SDK.bundleIndex findPlacement].
  all: destruct (undefinedReported r) eqn:Hr; cbn -[js].
  all: split; [done|]; split; [done|]; by rewrite ?app_nil_r.
Qed.

Lemma one_part_key_needs_saved_selection_witness :
  let r := {| sdk := Sample.fetched ∅ [Sample.stripe]; undefinedReported := false |} in
  (44 ∉ js "new-price") /\ cookieText SelectedBundleIndex (sdk r) = None
  /\ fst (readVariableValueByKeyPath Sample.utils (js "new-price") r) = Returns None.
Proof.
  intros r.
  assert (H1 : 44 ∉ js "new-price").
  { intros H. apply list_elem_of_In in H. vm_compute in H. intuition discriminate. }
  assert (H2 : cookieText SelectedBundleIndex (sdk r) = None) by reflexivity.
  split; [exact H1|]. split; [exact H2|].
  pose proof (one_part_key_needs_saved_selection Sample.utils (js "new-price") r H1 H2) as H.
  destruct (readVariableValueByKeyPath Sample.utils (js "new-price") r) as [value r'].
  exact (proj1 H).
Defined.



End VariableFacts.

(* ===================================================================== *)
(** * Properties of the lifecycle listeners *)
(* ===================================================================== *)

Module LifecycleFacts.
Import Lifecycle.

Section Registry.
Context {Name : Type} `{EqDecision Name}.
Implicit Types (ev : events Name) (n : Name) (cb : nat).

Lemma registry_get_put_eq ev n cbs : get (put ev n cbs) n = Some cbs.
Proof.
  unfold get. induction ev as [|[n' cbs'] r IH]; simpl.
  - by rewrite bool_decide_eq_true_2.
  - destruct (decide (n' = n)) as [->|Hne].
    + rewrite bool_decide_eq_true_2 by done. simpl. by rewrite bool_decide_eq_true_2.
    + rewrite (bool_decide_eq_false_2 (n' = n)) by done. simpl.
      by rewrite (bool_decide_eq_false_2 (n' = n)) by done.
Qed.

Lemma registry_get_put_ne ev n n' cbs : n <> n' -> get (put ev n cbs) n' = get ev n'.
Proof.
  intros Hne. unfold get. induction ev as [|[m cbs'] r IH]; simpl.
  - by rewrite bool_decide_eq_false_2.
  - destruct (decide (m = n)) as [->|Hm].
    + rewrite bool_decide_eq_true_2 by done. simpl.
      by rewrite !(bool_decide_eq_false_2 (n = n')) by done.
    + rewrite (bool_decide_eq_false_2 (m = n)) by done. simpl.
      destruct (bool_decide (m = n')); [done|exact IH].
Qed.

Lemma registry_get_delete_eq ev n : get (delete ev n) n = None.
Proof.
  unfold get, delete. induction ev as [|[m cbs] r IH]; [done|].
  rewrite filter_cons. cbn [fst]. case_decide as Hm; [|exact IH].
  simpl. by rewrite bool_decide_eq_false_2.
Qed.

Lemma registry_get_delete_ne ev n n' : n <> n' -> get (delete ev n) n' = get ev n'.
Proof.
  intros Hne. unfold get, delete. induction ev as [|[m cbs] r IH]; [done|].
  rewrite filter_cons. cbn [fst]. case_decide as Hm.
  - simpl. destruct (bool_decide (m = n')); [done|exact IH].
  - subst m. simpl. by rewrite bool_decide_eq_false_2.
Qed.

Lemma get_None_put ev n cbs : get ev n = None -> put ev n cbs = ev ++ [(n, cbs)].
Proof.
  unfold get. induction ev as [|[m cbs'] r IH]; simpl; [done|].
  destruct (decide (m = n)) as [->|Hm].
  - by rewrite bool_decide_eq_true_2.
  - rewrite (bool_decide_eq_false_2 (m = n)) by done. intros Hr. by rewrite IH.
Qed.

Lemma get_None_delete ev n : get ev n = None -> delete ev n = ev.
Proof.
  unfold get, delete. induction ev as [|[m cbs'] r IH]; [done|].
  rewrite filter_cons. cbn [fst]. simpl. destruct (decide (m = n)) as [->|Hm].
  - by rewrite bool_decide_eq_true_2.
  - rewrite (bool_decide_eq_false_2 (m = n)) by done. intros Hr.
    rewrite decide_True by done. by rewrite IH.
Qed.

Lemma get_Some_put ev n cbs : get ev n = Some cbs -> put ev n cbs = ev.
Proof.
  unfold get. induction ev as [|[m cbs'] r IH]; simpl; [done|].
  destruct (decide (m = n)) as [->|Hm].
  - rewrite bool_decide_eq_true_2 by done. simpl. by intros [= ->].
  - rewrite (bool_decide_eq_false_2 (m = n)) by done. intros Hr. by rewrite IH.
Qed.

Lemma put_put ev n a b : put (put ev n a) n b = put ev n b.
Proof.
  induction ev as [|[m cbs'] r IH]; simpl.
  - by rewrite bool_decide_eq_true_2.
  - destruct (decide (m = n)) as [->|Hm].
    + rewrite bool_decide_eq_true_2 by done. simpl. by rewrite bool_decide_eq_true_2.
    + rewrite (bool_decide_eq_false_2 (m = n)) by done. simpl.
      rewrite (bool_decide_eq_false_2 (m = n)) by done. by rewrite IH.
Qed.

Lemma keys_put ev n cbs :
  map fst (put ev n cbs) = if bool_decide (n ∈ map fst ev) then map fst ev
                           else map fst ev ++ [n].
Proof.
  induction ev as [|[m cbs'] r IH]; simpl.
  { done. }
  destruct (decide (m = n)) as [->|Hm].
  - rewrite bool_decide_eq_true_2 by done. simpl.
    rewrite bool_decide_eq_true_2; [done|apply list_elem_of_here].
  - rewrite (bool_decide_eq_false_2 (m = n)) by done. simpl. rewrite IH.
    destruct (decide (n ∈ map fst r)) as [Hin|Hin].
    + rewrite !bool_decide_eq_true_2; [done|by apply list_elem_of_further|done].
    + rewrite !bool_decide_eq_false_2; [done| |done].
      intros [Heq|Hr]%elem_of_cons; [by subst|done].
Qed.

Lemma filter_absent cb (cbs : list nat) : cb ∉ cbs -> filter (fun x => x <> cb) cbs = cbs.
Proof.
  intros Hn. induction cbs as [|x r IH]; [done|].
  apply not_elem_of_cons in Hn as [Hx Hr].
  rewrite filter_cons_True by done. by rewrite IH.
Qed.

(** Callbacks are called in the order they were registered in, a
    registration changes nothing for the other events, and the function
    returned by [on] removes every registration of its callback for its
    event, keeping the others in order and the other events as they are. *)
Theorem callbacks_called_in_registration_order ev n cb :
  emit n (on n cb ev) = emit n ev ++ [cb]
  /\ emit n (unsubscribe n cb ev) = filter (fun x => x <> cb) (emit n ev)
  /\ forall n', n <> n' ->
       emit n' (on n cb ev) = emit n' ev /\ emit n' (unsubscribe n cb ev) = emit n' ev.
Proof.
  unfold emit, on, unsubscribe. split; [|split].
  - by rewrite registry_get_put_eq.
  - destruct (get ev n) as [cbs|] eqn:E; simpl; [|by rewrite E].
    destruct (filter _ cbs) as [|x kept] eqn:Ek; simpl.
    + by rewrite registry_get_delete_eq.
    + by rewrite registry_get_put_eq.
  - intros n' Hne. split; [by rewrite registry_get_put_ne|].
    destruct (get ev n) as [cbs|] eqn:E; [|done].
    destruct (length _ =? 0)%nat; [by rewrite registry_get_delete_ne|by rewrite registry_get_put_ne].
Qed.

(** Unsubscribing right after subscribing leaves the registry as it was,
    provided the callback was not already registered for the event. *)
Theorem unsubscribe_undoes_on ev n cb :
  well_formed ev -> cb ∉ emit n ev ->
  unsubscribe n cb (on n cb ev) = ev.
Proof.
  intros [_ Hwf] Hnew. unfold unsubscribe, on, emit in *. rewrite registry_get_put_eq.
  destruct (get ev n) as [cbs|] eqn:E; simpl in *.
  - rewrite filter_app, (filter_absent _ _ Hnew), filter_cons_False, filter_nil, app_nil_r
      by (intros Hc; by apply Hc).
    assert (Hne : cbs <> []).
    { unfold get in E. destruct (List.find _ ev) as [[m c]|] eqn:Ef; [|done].
      injection E as ->. apply find_some in Ef as [Hin _].
      rewrite Forall_forall in Hwf. apply list_elem_of_In in Hin. by apply (Hwf _ Hin). }
    destruct cbs as [|x r]; [done|]. simpl.
    rewrite put_put. by apply get_Some_put.
  - rewrite filter_cons_False, filter_nil by (intros Hc; by apply Hc). simpl.
    rewrite (get_None_put _ _ _ E). unfold delete. rewrite filter_app.
    fold (delete ev n). rewrite (get_None_delete _ _ E).
    rewrite filter_cons_False, filter_nil by (simpl; intros Hc; by apply Hc).
    by rewrite app_nil_r.
Qed.

(** The registry never keeps an empty array: registering and
    unsubscribing keep every name at most once and every array kept
    non-empty. *)
Theorem registry_stays_well_formed ev n cb :
  well_formed ev -> well_formed (on n cb ev) /\ well_formed (unsubscribe n cb ev).
Proof.
  assert (Hput : forall cbs, cbs <> [] -> well_formed ev -> well_formed (put ev n cbs)).
  { intros cbs Hne [Hnd Hall]. split.
    - rewrite keys_put. case_bool_decide as Hin; [done|].
      apply NoDup_app. split; [done|]. split; [|apply NoDup_singleton].
      intros x Hx ->%list_elem_of_singleton. done.
    - clear Hnd. induction ev as [|[m c] r IH]; simpl.
      + by repeat constructor.
      + inversion Hall as [|? ? Hm Hr]; subst.
        destruct (bool_decide (m = n)); constructor; auto. }
  intros Hwf. split.
  - apply Hput; [|done]. by destruct (default [] (get ev n)).
  - unfold unsubscribe. destruct (get ev n) as [cbs|]; [|done].
    destruct (filter _ cbs) as [|x kept] eqn:Ek; simpl.
    + destruct Hwf as [Hnd Hall]. split.
      * unfold delete. clear Hall Hput. induction ev as [|[m c] r IH]; [done|].
        inversion Hnd as [|? ? Hm Hr]; subst.
        rewrite filter_cons. cbn [fst]. case_decide; [|by apply IH].
        cbn [map fst]. constructor; [|by apply IH].
        intros Hin. apply Hm. apply list_elem_of_fmap in Hin as (y & -> & Hy).
        apply list_elem_of_filter in Hy as [_ Hy].
        apply list_elem_of_fmap. by exists y.
      * unfold delete. apply Forall_forall. intros kv [_ Hkv]%list_elem_of_filter.
        rewrite Forall_forall in Hall. by apply Hall.
    + by apply Hput.
Qed.

End Registry.

Lemma unsubscribe_undoes_on_witness :
  let ev : events jsstring := on (js "ready") 0%nat [] in
  well_formed ev /\ (1%nat ∉ emit (js "ready") ev)
  /\ unsubscribe (js "ready") 1%nat (on (js "ready") 1%nat ev) = ev.
Proof.
  intros ev.
  assert (H1 : well_formed ev).
  { split; [apply NoDup_singleton|]. by repeat constructor. }
  assert (H2 : 1%nat ∉ emit (js "ready") ev).
  { intros H. apply list_elem_of_In in H. vm_compute in H. intuition discriminate. }
  split; [exact H1|]. split; [exact H2|].
  exact (unsubscribe_undoes_on ev (js "ready") 1%nat H1 H2).
Defined.

Lemma registry_stays_well_formed_witness :
  let ev : events jsstring := on (js "ready") 0%nat [] in
  well_formed ev /\ well_formed (unsubscribe (js "ready") 0%nat ev).
Proof.
  intros ev.
  assert (H1 : well_formed ev).
  { split; [apply NoDup_singleton|]. by repeat constructor. }
  split; [exact H1|].
  exact (proj2 (registry_stays_well_formed ev (js "ready") 0%nat H1)).
Defined.

End LifecycleFacts.

(* ===================================================================== *)
(** * Outcomes of the submit handler *)
(* ===================================================================== *)

Module SubmitFacts.
Import Stripe Checkout.

Lemma routinely_refl e : routinely e e.
Proof. exists []. by rewrite app_nil_r. Qed.

Lemma routinely_trans e1 e2 e3 : routinely e1 e2 -> routinely e2 e3 -> routinely e1 e3.
Proof.
  intros (xs & Hx & Hxs & Hxc & Hxp) (ys & Hy & Hys & Hyc & Hyp). exists (xs ++ ys).
  split; [by rewrite Hy, Hx, app_assoc|]. split; [by apply Forall_app|].
  split; congruence.
Qed.

Lemma routinely_does x e : routine x = true -> routinely e (Env.does x e).
Proof. intros Hx. exists [x]. split; [done|]. split; [by constructor|done]. Qed.

Lemma routinely_logError text report e : routinely e (Env.logError text report e).
Proof. by apply routinely_does. Qed.

Lemma routinely_setButtonState state f e : routinely e (setButtonState state f e).
Proof.
  unfold setButtonState, Env.logError. destruct (submit f); [|by apply routinely_does].
  destruct (_ && _); by apply routinely_does.
Qed.

Lemma routinely_answers f f' e e' :
  elementIDs f' = elementIDs f -> routinely e e' ->
  error_slot_answers f e -> error_slot_answers f' e'.
Proof.
  intros Hids (xs & _ & _ & _ & Hp) Hq err.
  rewrite Hids, (EnvFacts.querySelector_page _ _ _ Hp). apply Hq.
Qed.

Lemma routinely_displayError text f e :
  error_slot_answers f e ->
  exists e1, displayError text f e = Returns e1 /\ routinely e e1.
Proof.
  intros Hq. unfold displayError.
  destruct (Env.querySelector _ _) as [[el|]|err]; [| |by destruct (Hq err)].
  - eexists. split; [reflexivity|]. by apply routinely_does.
  - eexists. split; [reflexivity|]. apply routinely_refl.
Qed.

Lemma fail_routinely log report state text err f e :
  error_slot_answers f e ->
  exists e1, routinely e e1
             /\ fail log report state text err f e
                = Env.does (Emit (js "payment_failure") (PaymentFailure (js "stripe") err)) e1.
Proof.
  intros Hq. unfold fail, displayError_then.
  assert (H1 : routinely e (setButtonState state f (Env.logError log report e))).
  { eapply routinely_trans; [apply routinely_logError|apply routinely_setButtonState]. }
  destruct (routinely_displayError text f _ (routinely_answers f f _ _ eq_refl H1 Hq))
    as (e1 & -> & H2).
  exists e1. split; [by eapply routinely_trans|reflexivity].
Qed.

Lemma handleSuccessfulPayment_effects base options f e :
  exists xs redirect,
    Env.trace (handleSuccessfulPayment base options f e)
    = Env.trace e ++ xs ++ [SetTimeout redirect]
    /\ Forall (fun x => success_effect x = true) xs
    /\ Env.getCookie PaymentProviderKey (handleSuccessfulPayment base options f e)
       = Some (Text (js "stripe")).
Proof.
  unfold handleSuccessfulPayment.
  destruct (subscription f) as [s|]; simpl.
  - destruct (truthy (Subscription.deep_link s)); simpl.
    + eexists [_; _; _], _. rewrite <- !app_assoc. simpl.
      split; [reflexivity|]. split; [by repeat constructor|].
      unfold Env.getCookie, Cookies.getCookie, Cookies.setCookie. simpl.
      apply lookup_insert_eq.
    + eexists [_; _], _. rewrite <- !app_assoc. simpl.
      split; [reflexivity|]. split; [by repeat constructor|].
      unfold Env.getCookie, Cookies.getCookie, Cookies.setCookie. simpl.
      apply lookup_insert_eq.
  - eexists [_], _. rewrite <- !app_assoc. simpl.
    split; [reflexivity|]. split; [by repeat constructor|].
    unfold Env.getCookie, Cookies.getCookie, Cookies.setCookie. simpl.
    apply lookup_insert_eq.
Qed.

(** The submit handler of the card form, on a page where the lookup of
    the error element does not throw, ends in one of three ways. If every
    step succeeds, routine effects (logs, button states, requests) are
    followed by the success handling, which ends with the redirect timer
    and leaves the payment provider cookie; no lifecycle event is
    emitted. If the Stripe library or its elements are missing, only
    routine effects happen. In every other case routine effects are
    followed by one [payment_failure] for the Stripe provider, which
    ends the run. Outside the first case no cookie is written. *)
Theorem submit_succeeds_iff_every_step_does base options r_setup r_sub r_confirm f e :
  (forall err, Env.querySelector (ElementIDs.error (elementIDs f)) e <> Throws err) ->
  let e' := snd (submitHandler_run base options r_setup r_sub r_confirm f e) in
  if every_step_succeeds r_setup r_sub r_confirm f then
    exists e1 xs redirect,
      routinely e e1
      /\ Env.trace e' = Env.trace e1 ++ xs ++ [SetTimeout redirect]
      /\ Forall (fun x => success_effect x = true) xs
      /\ Env.getCookie PaymentProviderKey e' = Some (Text (js "stripe"))
  else if stripe f && elements f then
    exists e1 err,
      routinely e e1
      /\ e' = Env.does (Emit (js "payment_failure") (PaymentFailure (js "stripe") err)) e1
      /\ Env.cookies e' = Env.cookies e
  else routinely e e'.
Proof.
  intros Hq. unfold submitHandler_run, every_step_succeeds.
  pose proof (routinely_setButtonState Processing f e) as H0.
  set (e0 := setButtonState Processing f e) in *. clearbody e0.
  assert (Hfail : forall log report state text err f' e1,
            elementIDs f' = elementIDs f ->
            routinely e e1 ->
            exists e2 err',
              routinely e e2
              /\ fail log report state text err f' e1
                 = Env.does (Emit (js "payment_failure") (PaymentFailure (js "stripe") err')) e2
              /\ Env.cookies (fail log report state text err f' e1) = Env.cookies e).
  { intros log report state text err f' e1 Hids H1.
    destruct (fail_routinely log report state text err f' e1
                (routinely_answers f f' e e1 Hids H1 Hq)) as (e2 & H2 & ->).
    exists e2, err. split; [by eapply routinely_trans|]. split; [done|].
    destruct (routinely_trans _ _ _ H1 H2) as (? & _ & _ & Hc & _). exact Hc. }
  assert (Hok : forall f' e1,
            routinely e e1 ->
            exists e2 xs redirect,
              routinely e e2
              /\ Env.trace (handleSuccessfulPayment base options f' e1)
                 = Env.trace e2 ++ xs ++ [SetTimeout redirect]
              /\ Forall (fun x => success_effect x = true) xs
              /\ Env.getCookie PaymentProviderKey (handleSuccessfulPayment base options f' e1)
                 = Some (Text (js "stripe"))).
  { intros f' e1 H1.
    destruct (handleSuccessfulPayment_effects base options f' e1) as (xs & r & Ht & Hs & Hc).
    by exists e1, xs, r. }
  assert (Hmissing : forall log,
            routinely e
              (displayError_then "Failed to initialize payment form. Please try again." f
                 (Env.logError log true e0) (fun e => e))).
  { intros log.
    assert (H1 : routinely e (Env.logError log true e0)).
    { eapply routinely_trans; [exact H0|apply routinely_logError]. }
    unfold displayError_then.
    destruct (routinely_displayError "Failed to initialize payment form. Please try again." f _
                (routinely_answers f f _ _ eq_refl H1 Hq)) as (e1 & -> & H2).
    by eapply routinely_trans. }
  destruct (stripe f); cbn [negb andb]; [|apply Hmissing].
  destruct (elements f); cbn [negb andb]; [|apply Hmissing].
  assert (H1 : routinely e (Env.does (Call ConfirmSetup) e0)).
  { eapply routinely_trans; [exact H0|]. by apply routinely_does. }
  set (e1 := Env.does (Call ConfirmSetup) e0) in *. clearbody e1.
  destruct r_setup as [err|paymentMethodId]; cbn [snd].
  { by apply Hfail. }
  destruct (customer f) as [c|]; cbn [snd].
  2:{ by apply Hfail. }
  unfold createSubscription.
  set (called := Call (CreateSubscription _ _ _ _ _ _)).
  assert (H2 : routinely e (Env.does called e1)).
  { eapply routinely_trans; [exact H1|]. by apply routinely_does. }
  set (e2 := Env.does called e1) in *. clearbody e2.
  destruct r_sub as [[s|]|err]; cbn [snd subscription set_subscription].
  - destruct (truthy (Subscription.client_secret s)); cbn [negb orb].
    + destruct r_confirm as [cerr|]; cbn [snd].
      * apply Hfail; [done|]. eapply routinely_trans; [exact H2|]. by apply routinely_does.
      * apply Hok. eapply routinely_trans; [exact H2|]. by apply routinely_does.
    + apply Hok. exact H2.
  - apply Hfail; [done|]. eapply routinely_trans; [exact H2|]. apply routinely_logError.
  - apply Hfail; [done|]. eapply routinely_trans; [exact H2|]. apply routinely_logError.
Qed.

(** The sample form with a card that is declined at confirmation: the
    run ends with [payment_failure]. *)
Lemma submit_succeeds_iff_every_step_does_witness :
  let f := Sample.shown Sample.full in
  let e := Env.initial Sample.page in
  let declined := Error (js "card_declined") in
  (forall err, Env.querySelector (ElementIDs.error (elementIDs f)) e <> Throws err)
  /\ exists e1 err,
       snd (submitHandler_run (js "https://getapp.apphud.com") Options.empty
              (SetupIntent (js "pm_1")) (Fulfilled (Some Sample.subscription))
              (Some declined) f e)
       = Env.does (Emit (js "payment_failure") (PaymentFailure (js "stripe") err)) e1.
Proof.
  intros f e declined.
  assert (Hq : forall err,
             Env.querySelector (ElementIDs.error (elementIDs f)) e <> Throws err).
  { intros err. vm_compute. discriminate. }
  split; [exact Hq|].
  pose proof (submit_succeeds_iff_every_step_does (js "https://getapp.apphud.com")
                Options.empty (SetupIntent (js "pm_1")) (Fulfilled (Some Sample.subscription))
                (Some declined) f e Hq) as H.
  cbv zeta in H.
  change (every_step_succeeds (SetupIntent (js "pm_1")) (Fulfilled (Some Sample.subscription))
            (Some declined) f) with false in H.
  change (stripe f && elements f) with true in H. cbv iota in H.
  destruct H as (e1 & err & _ & He & _). by exists e1, err.
Defined.

End SubmitFacts.

(* ===================================================================== *)
(** * Properties of the forms *)
(* ===================================================================== *)

Module FormFacts.
Import Stripe Builder Orchestration.

(** ** Listeners of one card form *)

Lemma setupForm_own f e :
  submits e = owned_by f ->
  let '(f', e') := setupForm f e in
  Env.page e' = Env.page e
  /\ isActive f' = isActive f
  /\ elementIDs f' = elementIDs f
  /\ submits e' = owned_by f'
  /\ (isActive f = true ->
      CSS.plain_identifier (ElementIDs.form (elementIDs f)) = true ->
      ElementIDs.form (elementIDs f) ∈ Env.document e ->
      exists h, owned_by f' = [Listener (ElementIDs.form (elementIDs f)) (js "submit") h]
                /\ (Env.closures e <= h < Env.closures e')%nat).
Proof.
  intros Hown. unfold setupForm.
  destruct (isActive f) eqn:Hact; cbn [negb].
  2:{ split; [done|]. split; [done|]. split; [done|]. split; [done|]. intros H. discriminate H. }
  pose proof (OrchestrationFacts.cleanupFormListeners_submits f e) as Hc.
  destruct (cleanupFormListeners f e) as [f1 e1].
  destruct Hc as (Hf1 & Hsub & Hpage & Hcl & Hact1 & Hids).
  rewrite Hown, OrchestrationFacts.filter_not_elem_self in Hsub.
  rewrite Hids, (EnvFacts.querySelector_page _ _ _ Hpage).
  assert (Hfound : CSS.plain_identifier (ElementIDs.form (elementIDs f)) = true ->
                   ElementIDs.form (elementIDs f) ∈ Env.document e ->
                   Env.querySelector (ElementIDs.form (elementIDs f)) e
                   = Returns (Some (ElementIDs.form (elementIDs f)))).
  { intros Hp Hin. by apply EnvFacts.querySelector_plain. }
  destruct (Env.querySelector _ e) as [[form|]|err].
  - set (l := Listener form (js "submit") (Env.closures e1)).
    assert (Hfresh : l ∉ Env.listeners (Env.set_closures (S (Env.closures e1)) e1)).
    { simpl. intros Hl. assert (Hl' : l ∈ submits e1).
      { unfold submits. apply list_elem_of_filter. by split. }
      rewrite Hsub in Hl'. by apply not_elem_of_nil in Hl'. }
    cbn [Env.closure]. unfold Env.addEventListener.
    rewrite bool_decide_eq_false_2 by exact Hfresh.
    split; [by rewrite <- Hpage|]. split; [simpl; congruence|].
    split; [by rewrite <- Hids|]. split.
    + unfold submits. simpl. rewrite filter_app.
      change (filter _ (Env.listeners e1)) with (submits e1). rewrite Hsub.
      reflexivity.
    + intros _ Hp Hin. specialize (Hfound Hp Hin). injection Hfound as ->.
      exists (Env.closures e1). split; [reflexivity|]. simpl. lia.
  - split; [by rewrite <- Hpage|]. split; [simpl; congruence|].
    split; [by rewrite <- Hids|]. split; [by rewrite Hf1|].
    intros _ Hp Hin. specialize (Hfound Hp Hin). discriminate Hfound.
  - split; [by rewrite <- Hpage|]. split; [simpl; congruence|].
    split; [by rewrite <- Hids|]. split; [by rewrite Hf1|].
    intros _ Hp Hin. specialize (Hfound Hp Hin). discriminate Hfound.
Qed.

(** Setting a card form up again replaces its submit listener: when the
    submit listeners of the page are those of the form, the form is active
    and its form element is on the page under an id that is a plain
    identifier, each [setupForm] leaves exactly one submit listener, on
    the form element, and the second one carries a handler made after
    the first. *)
Theorem setupForm_again_replaces_listener f e :
  submits e = owned_by f ->
  isActive f = true ->
  CSS.plain_identifier (ElementIDs.form (elementIDs f)) = true ->
  ElementIDs.form (elementIDs f) ∈ Env.document e ->
  let '(f1, e1) := setupForm f e in
  let '(f2, e2) := setupForm f1 e1 in
  exists h1 h2,
    submits e1 = [Listener (ElementIDs.form (elementIDs f)) (js "submit") h1]
    /\ submits e2 = [Listener (ElementIDs.form (elementIDs f)) (js "submit") h2]
    /\ (h1 < h2)%nat
    /\ submitHandler f2 = Some h2.
Proof.
  intros Hown Hact Hplain Hin.
  pose proof (setupForm_own f e Hown) as H1.
  destruct (setupForm f e) as [f1 e1].
  destruct H1 as (Hpage1 & Hact1 & Hids1 & Hown1 & Hone1).
  destruct (Hone1 Hact Hplain Hin) as (h1 & Ho1 & Hh1).
  pose proof (setupForm_own f1 e1 Hown1) as H2.
  destruct (setupForm f1 e1) as [f2 e2].
  destruct H2 as (Hpage2 & Hact2 & Hids2 & Hown2 & Hone2).
  destruct Hone2 as (h2 & Ho2 & Hh2);
    [congruence|by rewrite Hids1|by rewrite Hids1, (EnvFacts.page_document _ _ Hpage1)|].
  exists h1, h2. rewrite Hown1, Hown2, Ho1, Ho2, Hids1.
  split; [done|]. split; [done|]. split; [lia|].
  unfold owned_by in Ho2. destruct (formElement f2), (submitHandler f2); try done.
  by injection Ho2 as _ ->.
Qed.

Lemma setupForm_again_replaces_listener_witness :
  let f := Stripe.loaded (Stripe.new (Sample.visitor [Sample.stripe]) Sample.stripe) in
  let e := Env.initial Sample.page in
  submits e = owned_by f /\ isActive f = true
  /\ CSS.plain_identifier (ElementIDs.form (elementIDs f)) = true
  /\ length (submits (snd (setupForm (fst (setupForm f e)) (snd (setupForm f e))))) = 1%nat.
Proof.
  intros f e.
  assert (H1 : submits e = owned_by f) by reflexivity.
  assert (H2 : isActive f = true) by reflexivity.
  assert (Hp : CSS.plain_identifier (ElementIDs.form (elementIDs f)) = true)
    by (vm_compute; reflexivity).
  assert (H3 : ElementIDs.form (elementIDs f) ∈ Env.document e).
  { apply (@bool_decide_unpack _ (elem_of_dec_slow _ _)). vm_compute. exact I. }
  split; [exact H1|]. split; [exact H2|]. split; [exact Hp|].
  pose proof (setupForm_again_replaces_listener f e H1 H2 Hp H3) as H.
  destruct (setupForm f e) as [f1 e1]. cbn [fst snd].
  destruct (setupForm f1 e1) as [f2 e2]. cbn [snd].
  destruct H as (h1 & h2 & _ & -> & _). reflexivity.
Defined.

(** ** Apple Pay *)

(** [initializeApplePay] does exactly one of two things: it makes one
    payment request and keeps it in the form, or it reports one error and
    leaves the form as it was. With a static price in the options and the
    Stripe library and the bundle at hand it always makes the request,
    for the amount given. *)
Theorem apple_pay_requests_or_reports u options f e :
  let '(f', e') := initializeApplePay u options f e in
  ((exists request,
      f' = set_paymentRequest (Some request) f
      /\ e' = Env.does (Call (StripePaymentRequest request)) e
      /\ match Options.applePayConfig options ≫= ApplePayConfig.staticPrice with
         | Some (_, amount) => PaymentRequest.amount request = amount
         | None => True
         end)
   \/ (f' = f /\ exists text, e' = Env.logError text true e))
  /\ (stripe f = true -> is_Some (productBundle f) ->
      is_Some (Options.applePayConfig options ≫= ApplePayConfig.staticPrice) ->
      is_Some (paymentRequest f')).
Proof.
  unfold initializeApplePay.
  destruct (stripe f); cbn [negb].
  2:{ split; [right; split; [done|by eexists]|]. intros H. discriminate H. }
  destruct (productBundle f) as [bundle|].
  2:{ split; [right; split; [done|by eexists]|]. intros _ [? H]. discriminate H. }
  destruct (Options.applePayConfig options ≫= ApplePayConfig.staticPrice) as [[c a]|].
  - split; [|intros _ _ _; by eexists].
    left. eexists. split; [reflexivity|]. split; [reflexivity|]. reflexivity.
  - destruct (ProductBundle.properties bundle) as [properties|].
    + destruct (truthy (Utils.getValueByPath u properties _)).
      * destruct (Utils.priceInCents u _) as [cents|].
        -- split; [|intros _ _ [? H]; discriminate H].
           left. eexists. split; [reflexivity|]. split; [reflexivity|]. exact I.
        -- split; [right; split; [done|by eexists]|]. intros _ _ [? H]. discriminate H.
      * split; [right; split; [done|by eexists]|]. intros _ _ [? H]. discriminate H.
    + split; [|intros _ _ [? H]; discriminate H].
      left. eexists. split; [reflexivity|]. split; [reflexivity|]. exact I.
Qed.

(** ** Keys of the orchestrator *)

(** The key of a form tells the provider kind and, for Stripe, the
    variant: two calls get the same key only for the same kind and, when
    the kind is Stripe, the same choice of Apple Pay. *)
Theorem form_keys_do_not_collide kind1 options1 kind2 options2 :
  getFormKey kind1 options1 = getFormKey kind2 options2 ->
  kind1 = kind2
  /\ (kind1 = js "stripe" -> Options.applePay options1 = Options.applePay options2).
Proof.
  unfold getFormKey.
  assert (Hmix : forall a b : jsstring, a ++ js ":" ++ js "apple_pay" <> b ++ js ":" ++ js "default").
  { intros a b H. apply (f_equal last) in H.
    change (a ++ js ":" ++ js "apple_pay") with (a ++ js ":apple_pa" ++ [121]) in H.
    change (b ++ js ":" ++ js "default") with (b ++ js ":defaul" ++ [116]) in H.
    rewrite !app_assoc, !last_snoc in H. discriminate H. }
  destruct (bool_decide (kind1 = js "stripe") && Options.applePay options1) eqn:E1,
           (bool_decide (kind2 = js "stripe") && Options.applePay options2) eqn:E2.
  - intros H%app_inv_tail. split; [done|]. intros _.
    apply andb_true_iff in E1 as [_ ->]. by apply andb_true_iff in E2 as [_ ->].
  - intros H. by apply Hmix in H.
  - intros H. symmetry in H. by apply Hmix in H.
  - intros H%app_inv_tail. subst kind2. split; [done|]. intros ->.
    rewrite bool_decide_eq_true_2 in E1, E2 by done. simpl in *. congruence.
Qed.

Lemma form_keys_do_not_collide_witness :
  getFormKey (js "stripe") Options.empty = getFormKey (js "stripe") Options.empty
  /\ Options.applePay Options.empty = Options.applePay Options.empty.
Proof.
  split; [reflexivity|].
  exact (proj2 (form_keys_do_not_collide (js "stripe") Options.empty (js "stripe")
                  Options.empty eq_refl) eq_refl).
Defined.


(** ** cleanupAll *)

Lemma cleanupAll_fold refs : forall w,
  (forall l, l ∈ submits (env w) ->
     exists ref f, ref ∈ refs /\ forms w !! ref = Some (StripeForm f) /\ l ∈ owned_by f) ->
  submits (env (fold_left
                  (fun w ref =>
                     match forms w !! ref with
                     | Some (StripeForm f) =>
                         let '(f, e) := cleanupFormListeners f (env w) in
                         put_form ref (StripeForm f) (set_env e w)
                     | _ => w
                     end) refs w)) = [].
Proof.
  induction refs as [|r rs IH]; intros w Hw; simpl.
  - apply elem_of_nil_inv. intros l Hl.
    destruct (Hw l Hl) as (ref & f & Hin & _). by apply not_elem_of_nil in Hin.
  - apply IH. intros l Hl.
    destruct (forms w !! r) as [[fr|fp]|] eqn:Hr.
    + pose proof (OrchestrationFacts.cleanupFormListeners_submits fr (env w)) as Hc.
      destruct (cleanupFormListeners fr (env w)) as [f' e'].
      destruct Hc as (_ & Hsub & _). cbn [env put_form set_env] in Hl.
      rewrite Hsub in Hl. apply list_elem_of_filter in Hl as [Hnot Hl].
      destruct (Hw l Hl) as (ref & f & Hin & Hf & Hown).
      destruct (decide (ref = r)) as [->|Hne].
      * rewrite Hr in Hf. injection Hf as ->. done.
      * exists ref, f. apply elem_of_cons in Hin as [?|Hin]; [done|].
        split; [done|]. split; [|done].
        cbn [forms put_form set_env]. by rewrite list_lookup_insert_ne.
    + destruct (Hw l Hl) as (ref & f & Hin & Hf & Hown).
      exists ref, f. apply elem_of_cons in Hin as [->|Hin]; [congruence|done].
    + destruct (Hw l Hl) as (ref & f & Hin & Hf & Hown).
      exists ref, f. apply elem_of_cons in Hin as [->|Hin]; [congruence|done].
Qed.

(** [cleanupAll] on a settled orchestrator forgets every form and leaves
    the page without submit listener. *)
Theorem cleanupAll_leaves_no_submit_listener b w :
  settled_state b w ->
  let '(b', w') := cleanupAll b w in
  currentForms b' = [] /\ submitListeners w' = [] /\ settled_state b' w'.
Proof.
  intros Hs. unfold cleanupAll.
  assert (Hnone : submits (env (fold_left
                    (fun w ref =>
                       match forms w !! ref with
                       | Some (StripeForm f) =>
                           let '(f, e) := cleanupFormListeners f (env w) in
                           put_form ref (StripeForm f) (set_env e w)
                       | _ => w
                       end) (JSMap.values (currentForms b)) w)) = []).
  { apply cleanupAll_fold. intros l Hl.
    change (submits (env w)) with (submitListeners w) in Hl.
    rewrite (listeners_owned _ _ Hs) in Hl. unfold owned, held in Hl.
    destruct (JSMap.get (currentForms b) defaultKey) as [ref|] eqn:Hget;
      [|by apply not_elem_of_nil in Hl].
    destruct (forms w !! ref) as [[f|fp]|] eqn:Hf; try (by apply not_elem_of_nil in Hl).
    exists ref, f. split; [|done].
    apply ProviderMapFacts.get_In in Hget.
    apply list_elem_of_fmap. by exists (defaultKey, ref). }
  split; [done|]. split; [exact Hnone|].
  split.
  - change (submitListeners ?x) with (submits (env x)). by rewrite Hnone.
  - intros key ref f _ H. discriminate H.
  - intros key ref H. discriminate H.
  - intros k1 k2 ref H. discriminate H.
Qed.

Lemma cleanupAll_leaves_no_submit_listener_witness :
  let shown :=
    show Sample.utils (js "price_monthly") (Some (js "pw1")) (Some (js "pl1"))
      Options.empty (Some Sample.full) true (Customer (Fulfilled (Some Sample.customer)))
      (Builder.new Sample.stripe (Sample.visitor [Sample.stripe]))
      (World (Env.initial Sample.page) []) in
  let b := fst (fst shown) in
  let w := snd (fst shown) in
  settled_state b w
  /\ length (submitListeners w) = 1%nat
  /\ submitListeners (snd (cleanupAll b w)) = [].
Proof.
  intros shown b w.
  assert (Hs : settled_state b w).
  { pose proof (OrchestrationFacts.show_settled Sample.utils (js "price_monthly")
                  (Some (js "pw1")) (Some (js "pl1")) Options.empty (Some Sample.full)
                  true (Customer (Fulfilled (Some Sample.customer)))
                  (Builder.new Sample.stripe (Sample.visitor [Sample.stripe]))
                  (World (Env.initial Sample.page) [])
                  (OrchestrationFacts.new_settled _ _ _)) as H.
    fold shown in H. subst b w. destruct shown as [[b1 w1] s1]. exact (proj1 H). }
  split; [exact Hs|]. split; [reflexivity|].
  pose proof (cleanupAll_leaves_no_submit_listener b w Hs) as H.
  destruct (cleanupAll b w) as [b' w']. exact (proj1 (proj2 H)).
Defined.

End FormFacts.

(* ===================================================================== *)
(** * Properties across page loads *)
(* ===================================================================== *)

Module CompositionFacts.
Import SDK Session.

(** ** The redirect after a payment *)

(** When the subscription carries a deep link and the options name no
    target of their own, the redirect set up by the success handling
    goes to the address that [getSuccessURL] answers afterwards. *)
Theorem default_redirect_is_success_url base options f e s link d :
  Stripe.subscription f = Some s ->
  Subscription.deep_link s = Some link -> link <> [] ->
  Options.onSuccess options = false ->
  truthy (Options.successUrl options) = false
  \/ Options.successUrl options = Some (js "undefined") ->
  let e' := Stripe.handleSuccessfulPayment base options f e in
  last (Env.trace e') = Some (SetTimeout (Navigate (base ++ js "/" ++ link)))
  /\ fst (getSuccessURL base (set_env e' d)) = base ++ js "/" ++ link.
Proof.
  intros Hs Hlink Hne Hon Hurl e'. subst e'.
  unfold Stripe.handleSuccessfulPayment. rewrite Hs, Hlink, Hon.
  assert (Ht : truthy (Some link) = true) by (by destruct link).
  rewrite Ht. cbn [default].
  assert (Hgo : (truthy (Options.successUrl options)
                 && negb (bool_decide (Options.successUrl options = Some (js "undefined"))))
                = false).
  { destruct Hurl as [->| ->]; [done|]. by rewrite bool_decide_eq_true_2, andb_false_r. }
  rewrite Hgo. split; [cbn -[js]; by rewrite last_snoc|].
  unfold getSuccessURL, getDeepLink, cookieText.
  set (e2 := Env.does _ _).
  assert (Hc : forall d', Env.getCookie DeepLinkURL (env (checkInitialization
                             (checkInitialization (set_env e2 d')))) = Some (Text link)).
  { intros d'. rewrite !SessionFacts.getCookie_checkInitialization.
    subst e2. unfold Env.getCookie, Cookies.getCookie, Cookies.setCookie. cbn.
    rewrite lookup_insert_ne by done. apply lookup_insert_eq. }
  cbn [fst]. rewrite Hc. cbn [fst]. by rewrite Ht.
Qed.

Lemma default_redirect_is_success_url_witness :
  let s := {| Subscription.id := js "sub_1"; Subscription.client_secret := None;
              Subscription.deep_link := Some (js "abc");
              Subscription.customer_id := None |} in
  let f := Stripe.set_subscription (Some s) (Sample.shown Sample.full) in
  fst (getSuccessURL (js "https://getapp.apphud.com")
         (set_env (Stripe.handleSuccessfulPayment (js "https://getapp.apphud.com")
                     Options.empty f (Env.initial Sample.page))
            (Sample.fetched Sample.page [Sample.stripe])))
  = js "https://getapp.apphud.com/abc".
Proof.
  intros s f.
  refine (proj2 (default_redirect_is_success_url (js "https://getapp.apphud.com")
                   Options.empty f (Env.initial Sample.page) s (js "abc")
                   (Sample.fetched Sample.page [Sample.stripe]) _ _ _ _ _)).
  - reflexivity.
  - reflexivity.
  - discriminate.
  - reflexivity.
  - left. reflexivity.
Defined.

(** ** The selection at the next page load *)



End CompositionFacts.
